(** * Group Analytics notebooks: the publish-or-update engine

  A shallow embedding of the helper functions of
  [Group_Analytics_Notebook.py] (the same functions appear, unchanged, in
  [Group_Snapshot_Only_Notebook.py]): the field sanitizer, the timestamp
  helpers, the staging store, the batch insert fallback and the
  reconciliation engine [publish_or_update_table].

  Python values are modelled by [PyVal]; exceptions by the error monad
  [M] over a [World] holding the portal content, the hosted services, the
  local files, the operator's console input and a tape of scripted sink
  replies.  [print] calls are not modelled. *)

From Stdlib Require Import ZArith Lia Ascii String DecimalString.
From stdpp Require Import gmap strings list.

Local Open Scope string_scope.
Local Open Scope list_scope.

(** ** Python strings *)

Module PyStr.

(** [s[:n]] for [0 <= n]. *)
Fixpoint take (n : nat) (s : string) : string :=
  match n, s with
  | O, _ => ""
  | S _, EmptyString => ""
  | S n', String c s' => String c (take n' s')
  end.

(** [s[n:]] for [0 <= n]. *)
Fixpoint drop (n : nat) (s : string) : string :=
  match n, s with
  | O, _ => s
  | S _, EmptyString => ""
  | S n', String _ s' => drop n' s'
  end.

Definition len (s : string) : Z := Z.of_nat (String.length s).

(** [s[:k]] for an arbitrary Python int [k]: a negative bound counts
    from the end of the string. *)
Definition slice_to (s : string) (k : Z) : string :=
  if (0 <=? k)%Z then take (Z.to_nat k) s
  else take (Z.to_nat (len s + k)) s.

(** [s.endswith(suffix)] *)
Definition endswith (s suffix : string) : bool :=
  (String.length suffix <=? String.length s)%nat
  && String.eqb (drop (String.length s - String.length suffix) s) suffix.

(** [s.replace(' ', '_')] *)
Fixpoint replace_spaces (s : string) : string :=
  match s with
  | EmptyString => ""
  | String c s' =>
      String (if Ascii.eqb c " "%char then "_"%char else c) (replace_spaces s')
  end.

(** [s.replace('-', '_')] *)
Fixpoint replace_dashes (s : string) : string :=
  match s with
  | EmptyString => ""
  | String c s' =>
      String (if Ascii.eqb c "-"%char then "_"%char else c) (replace_dashes s')
  end.

(** [s.lower()].  A string is a sequence of characters with code points
    below 256; the ones with a lower-case form are A-Z (65..90) and the
    capital letters 192..222 of the Latin-1 supplement, 215 (the
    multiplication sign) excepted; the lower-case form is 32 further. *)
Definition lower_char (c : ascii) : ascii :=
  let n := Ascii.nat_of_ascii c in
  if (((65 <=? n) && (n <=? 90))
      || ((192 <=? n) && (n <=? 222) && negb (n =? 215)))%nat
  then Ascii.ascii_of_nat (n + 32) else c.

Fixpoint lower (s : string) : string :=
  match s with
  | EmptyString => ""
  | String c s' => String (lower_char c) (lower s')
  end.

(** [c.isspace()]: the control characters 9..13 and 28..31, the blank, the
    next-line character 133 and the no-break space 160. *)
Definition is_space (c : ascii) : bool :=
  let n := Ascii.nat_of_ascii c in
  (((9 <=? n) && (n <=? 13)) || ((28 <=? n) && (n <=? 32))
   || (n =? 133) || (n =? 160))%nat.

(** [s.strip()]: the white space is removed from both ends. *)
Fixpoint lstrip (s : string) : string :=
  match s with
  | String c s' => if is_space c then lstrip s' else s
  | EmptyString => ""
  end.

Definition strip (s : string) : string :=
  String.rev (lstrip (String.rev (lstrip s))).

End PyStr.

(** ** Python values *)

(** The scalar values that reach the helpers: [None], the float NaN that
  pandas uses for a missing cell, [str], [int], [bool] and
  [datetime.date].  Floating-point numbers other than NaN are outside the
  model. *)
Inductive PyVal :=
| VNone
| VNaN
| VStr (s : string)
| VInt (z : Z)
| VBool (b : bool)
| VDate (y m d : Z).

#[global] Instance PyVal_eq_dec : EqDecision PyVal.
Proof. solve_decision. Defined.

Definition Z_to_string (z : Z) : string := NilZero.string_of_int (Z.to_int z).

(** Zero padding to two digits, as [%m] and [%d] print. *)
Definition pad2 (z : Z) : string :=
if (z <? 10)%Z then "0" +:+ Z_to_string z else Z_to_string z.

(** Zero padding to four digits, as the ISO form prints the year. *)
Definition pad4 (z : Z) : string :=
if (z <? 10)%Z then "000" +:+ Z_to_string z
else if (z <? 100)%Z then "00" +:+ Z_to_string z
else if (z <? 1000)%Z then "0" +:+ Z_to_string z
else Z_to_string z.

(** [x.strftime(fmt)] for a format [%Y<sep>%m<sep>%d]; the one in use is
  [%Y/%m/%d].  The C library prints the year as it is, without padding. *)
Definition strftime (sep : string) (y m d : Z) : string :=
Z_to_string y +:+ sep +:+ pad2 m +:+ sep +:+ pad2 d.

(** [x.isoformat()], which [str] prints: [%04d-%02d-%02d]. *)
Definition isoformat (y m d : Z) : string :=
pad4 y +:+ "-" +:+ pad2 m +:+ "-" +:+ pad2 d.

(** [str(value)] *)
Definition py_str (v : PyVal) : string :=
match v with
| VNone => "None"
| VNaN => "nan"
| VStr s => s
| VInt z => Z_to_string z
| VBool true => "True"
| VBool false => "False"
| VDate y m d => isoformat y m d
end.

(** [pd.isna(value)] / [pd.notna(value)] on a scalar. *)
Definition isna (v : PyVal) : bool :=
match v with VNone | VNaN => true | _ => false end.

(** ** Field sanitizer *)

(** [truncate_string(value, max_length, add_ellipsis=True)] *)
Definition truncate_string (value : PyVal) (max_length : Z) (add_ellipsis : bool)
: string :=
match value with
| VNone => ""
| _ =>
    let str_value := py_str value in
    if (PyStr.len str_value <=? max_length)%Z then str_value
    else if add_ellipsis && (3 <? max_length)%Z
         then PyStr.slice_to str_value (max_length - 3) +:+ "..."
         else PyStr.slice_to str_value max_length
end.

(** ** Exceptions *)

(** The exception classes that the helpers can meet.  [SinkError] stands
  for whatever the ArcGIS client raises when a request fails; every
  handler that catches it is an [except Exception] or a bare [except]. *)
Inductive exn :=
| ValueError
| OSError
| TypeError
| OverflowError
| AttributeError
| EOFError
| SinkError.

#[global] Instance exn_eq_dec : EqDecision exn.
Proof. solve_decision. Defined.

Inductive result (A : Type) :=
| Return (a : A)
| Raise (e : exn).
Arguments Return {A} a.
Arguments Raise {A} e.

(** [try: body  except classes: handler] *)
Definition try_except {A} (body : result A) (classes : list exn)
  (handler : result A) : result A :=
match body with
| Return a => Return a
| Raise e => if bool_decide (e ∈ classes) then handler else Raise e
end.

Definition rbind {A B} (r : result A) (k : A -> result B) : result B :=
match r with
| Return a => k a
| Raise e => Raise e
end.

(** ** Timestamp helpers *)

Module Timestamps.

(** The process clock.  [utc_offset t] is the offset of local time from
    UTC, in seconds, that the C library's [localtime] applies at the
    instant [t] (in seconds since the epoch); it varies with the instant,
    as daylight saving time and the history of the time zone make it.
    [now_us] is the reading of the system clock in microseconds since the
    epoch. *)
Record Clock := { utc_offset : Z -> Z; now_us : Z }.

(** A Python float that holds a time: NaN, or the finite double
    [m * 2^e]. *)
Inductive PyFloat :=
| FNaN
| FDouble (m e : Z).

(** The integer nearest to [a / b], ties to the even one, for [0 <= a] and
    [0 < b]. *)
Definition round_half_even (a b : Z) : Z :=
  let q := (a / b)%Z in
  let r := (a mod b)%Z in
  if ((b <? 2 * r) || ((2 * r =? b) && Z.odd q))%Z then (q + 1)%Z else q.

(** The fraction [n / d] divided by [2^e]. *)
Definition scaled (n d e : Z) : Z * Z :=
  if (0 <=? e)%Z then (n, d * 2 ^ e)%Z else (n * 2 ^ (- e), d)%Z.

(** The double nearest to [n / d], ties to even, for [0 < n], [0 < d] and
    a quotient in the range of the normal doubles: the value is [m * 2^e]
    with a mantissa [m] of 53 bits ([2^52 <= m <= 2^53]). *)
Definition nearest_double (n d : Z) : Z * Z :=
  let e0 := (Z.log2 n - Z.log2 d - 53)%Z in
  let '(a0, b0) := scaled n d e0 in
  let e := (if 2 ^ 53 <=? a0 / b0 then e0 + 1 else e0)%Z in
  let '(a, b) := scaled n d e in
  (round_half_even a b, e).

(** [int / 1000] raises OverflowError when the quotient rounds to a value
    beyond the largest finite double, [2^1024 - 2^971]. *)
Definition float_overflows (ms : Z) : bool :=
  ((2 ^ 1024 - 2 ^ 970) * 1000 <=? Z.abs ms)%Z.

(** The true division of an integer by 1000: the double nearest to the
    exact quotient. *)
Definition quotient_1000 (z : Z) : PyFloat :=
  if (z =? 0)%Z then FDouble 0 0
  else let '(m, e) := nearest_double (Z.abs z) 1000 in FDouble (Z.sgn z * m) e.

(** [timestamp_ms / 1000] *)
Definition div_1000 (v : PyVal) : result PyFloat :=
  match v with
  | VInt z => if float_overflows z then Raise OverflowError else Return (quotient_1000 z)
  | VBool b => Return (quotient_1000 (if b then 1 else 0))
  | VNaN => Return FNaN
  | VNone | VStr _ | VDate _ _ _ => Raise TypeError
  end.

(** Day number since 1970-01-01 to the proleptic Gregorian date. *)
Definition civil_from_days (days : Z) : Z * Z * Z :=
  let z := (days + 719468)%Z in
  let era := (z / 146097)%Z in
  let doe := (z - era * 146097)%Z in
  let yoe := ((doe - doe / 1460 + doe / 36524 - doe / 146096) / 365)%Z in
  let y := (yoe + era * 400)%Z in
  let doy := (doe - (365 * yoe + yoe / 4 - yoe / 100))%Z in
  let mp := ((5 * doy + 2) / 153)%Z in
  let d := (doy - (153 * mp + 2) / 5 + 1)%Z in
  let m := (if mp <? 10 then mp + 3 else mp - 9)%Z in
  ((if m <=? 2 then y + 1 else y)%Z, m, d).

(** A naive local [datetime], held as microseconds of local wall-clock
    time since the epoch. *)
Record datetime := { local_us : Z }.

(** How [fromtimestamp] splits a finite double into whole seconds and
    microseconds: [modf], then the fraction times [1e6] (a floating-point
    product) rounded half to even, with the carry into the seconds. *)
Definition to_timeval (m e : Z) : Z * Z :=
  if (0 <=? e)%Z then (m * 2 ^ e, 0)%Z
  else
    let d := (2 ^ (- e))%Z in
    let intpart := Z.quot m d in
    let f := Z.abs (Z.rem m d) in
    let us_abs :=
      if (f =? 0)%Z then 0%Z
      else
        let '(pm, pe) := nearest_double (f * 1000000) d in
        if (0 <=? pe)%Z then (pm * 2 ^ pe)%Z else round_half_even pm (2 ^ (- pe)) in
    let us := (Z.sgn m * us_abs)%Z in
    if (1000000 <=? us)%Z then (intpart + 1, us - 1000000)%Z
    else if (us <? 0)%Z then (intpart - 1, us + 1000000)%Z
    else (intpart, us).

(** The local wall-clock time, in seconds since the epoch, at the instant
    [t]. *)
Definition local_seconds (c : Clock) (t : Z) : Z := (t + utc_offset c t)%Z.

Definition year_of_seconds (s : Z) : Z :=
  let '(y, _, _) := civil_from_days (s / 86400)%Z in y.

(** The C [localtime]: it fails when the year does not fit [tm_year], a C
    int counting from 1900, and Python then raises OSError. *)
Definition localtime (c : Clock) (t : Z) : result Z :=
  let y := year_of_seconds (local_seconds c t) in
  if ((y - 1900 <? - 2 ^ 31) || (2 ^ 31 <=? y - 1900))%Z then Raise OSError
  else Return (local_seconds c t).

(** The helper [local] of the datetime module: the local time at [t] in
    seconds, ValueError for a year outside 1..9999. *)
Definition local (c : Clock) (t : Z) : result Z :=
  rbind (localtime c t) (fun s =>
  let y := year_of_seconds s in
  if ((y <? 1) || (9999 <? y))%Z then Raise ValueError else Return s).

(** [datetime.datetime.fromtimestamp(t)], as CPython 3.11 on a 64-bit
    Linux runs it.  ValueError for NaN.  OverflowError when the whole
    seconds, as a double, are outside [-2^63, 2^63]; the double [2^63]
    itself passes that test and its conversion to [time_t] wraps around.
    Then the local time at the instant, and, to find out whether it is
    the second of two equal wall-clock times, the local time a day
    before and, if the offset has gone down in between, the local time
    that much before: each of them OSError or ValueError as [local]
    says. *)
Definition fromtimestamp (c : Clock) (t : PyFloat) : result datetime :=
  match t with
  | FNaN => Raise ValueError
  | FDouble m e =>
      let '(intpart, us) := to_timeval m e in
      if ((intpart <? - 2 ^ 63) || (2 ^ 63 <? intpart))%Z then Raise OverflowError
      else
        let timet := (if intpart =? 2 ^ 63 then - 2 ^ 63 else intpart)%Z in
        rbind (local c timet) (fun result_seconds =>
        rbind (local c (timet - 86400)) (fun probe_seconds =>
        let transition := (result_seconds - probe_seconds - 86400)%Z in
        rbind (if (transition <? 0)%Z
               then rbind (local c (timet + transition)) (fun _ => Return tt)
               else Return tt) (fun _ =>
        Return {| local_us := (result_seconds * 1000000 + us)%Z |})))
  end.

(** [dt.date()] *)
Definition date (dt : datetime) : PyVal :=
  let '(y, m, d) := civil_from_days (local_us dt / 86400000000)%Z in VDate y m d.

(** [datetime.datetime.now()]: the local wall-clock time at the reading of
    the clock, which is taken to be a time that a [datetime] can hold. *)
Definition now (c : Clock) : datetime :=
  {| local_us := (now_us c + 1000000 * utc_offset c (now_us c / 1000000))%Z |}.

(** [(a - b).days] *)
Definition delta_days (a b : datetime) : Z :=
  ((local_us a - local_us b) / 86400000000)%Z.

(** [timestamp_ms == -1] *)
Definition is_minus_one (v : PyVal) : bool :=
  match v with
  | VInt z => (z =? -1)%Z
  | _ => false
  end.

Definition conversion_errors : list exn := [ValueError; OSError; TypeError].

(** [convert_timestamp_to_date(timestamp_ms)] *)
Definition convert_timestamp_to_date (c : Clock) (timestamp_ms : PyVal)
  : result PyVal :=
  match timestamp_ms with
  | VNone => Return VNone
  | _ =>
      if is_minus_one timestamp_ms then Return VNone
      else
        try_except
          (rbind (div_1000 timestamp_ms) (fun t =>
           rbind (fromtimestamp c t) (fun dt =>
           Return (date dt))))
          conversion_errors
          (Return VNone)
  end.

(** [days_since(timestamp_ms)] *)
Definition days_since (c : Clock) (timestamp_ms : PyVal) : result PyVal :=
  match timestamp_ms with
  | VNone => Return VNone
  | _ =>
      if is_minus_one timestamp_ms then Return VNone
      else
        try_except
          (rbind (div_1000 timestamp_ms) (fun t =>
           rbind (fromtimestamp c t) (fun dt =>
           let delta := delta_days (now c) dt in
           Return (VInt delta))))
          conversion_errors
          (Return VNone)
  end.

End Timestamps.

(** ** Data model *)

(** A portal item as the client sees it: [item.id], [item.title],
    [item.owner], [item.type].  Item ids are opaque; the sink mints them
    from a counter. *)
Record Item := {
  item_id : N;
  item_title : string;
  item_owner : string;
  item_type : string
}.

#[global] Instance Item_eq_dec : EqDecision Item.
Proof. solve_decision. Defined.

(** A pandas DataFrame built from a list of records: the column labels and
    the rows, each a mapping from column label to value.  A label missing
    from a row reads as NaN. *)
Record DataFrame := {
  columns : list string;
  records : list (gmap string PyVal)
}.

Definition row_get (row : gmap string PyVal) (col : string) : PyVal :=
  default VNaN (row !! col).

(** One entry of [layer.properties.fields]: a dict with the key [name] and
    the optional keys [type] and [length]; the length of a field is a
    non-negative integer in the service definition. *)
Record Field := {
  f_name : string;
  f_type : option string;
  f_length : option N
}.

(** A table or layer of a hosted feature service: its live schema and its
    rows (features), each an attribute map. *)
Record Layer := {
  fields : list Field;
  features : list (gmap string PyVal)
}.

(** A hosted feature service: [flc.tables] and [flc.layers]. *)
Record Service := {
  svc_tables : list Layer;
  svc_layers : list Layer
}.

Inductive LayerKind := KTable | KLayer.

#[global] Instance LayerKind_eq_dec : EqDecision LayerKind.
Proof. solve_decision. Defined.

(** The handle [flc.tables[0]] or [flc.layers[0]] of the service behind an
    item. *)
Record LayerRef := {
  lr_item : N;
  lr_kind : LayerKind
}.

#[global] Instance LayerRef_eq_dec : EqDecision LayerRef.
Proof. solve_decision. Defined.

(** The [folder] argument of the publishing functions: [None], a name, a
    dict with optional [title] and [name] keys, or a Folder object with
    optional [title] and [name] attributes and a printed form. *)
Inductive FolderArg :=
| FolderNone
| FolderStr (name : string)
| FolderDict (title name : option string)
| FolderObj (title name : option string) (printed : string).

(** ** The sink's replies and the log of requests *)

(** How the sink answers one request.  [Completed]: the request succeeds
    and returns its normal result.  [Failed]: the client raises.
    [Nothing]: the request returns without raising but with an empty
    result ([None], a falsy value, no hits, a dict without [addResults])
    and without effect.  [AddResults flags]: for [edit_features], the
    per-row [success] flags of [result['addResults']]; any other request
    treats it as [Completed]. *)
Inductive Reply :=
| Completed
| Failed
| Nothing
| AddResults (flags : list bool).

(** The three ways [create_new_table] calls [Item.move]: with the folder
    name as keyword argument, as positional argument, and with the folder's
    id. *)
Inductive MoveHow := ByKeyword | ByPosition | ByFolderId.

Inductive Call :=
| ContentSearch (query : string) (max_items : nat)
| UserItems (max_items : nat)
| FoldersGet (folder : string)
| FolderAdd (folder title path : string)
| ContentAdd (title path : string) (folder : option string)
| ItemUpdateData (item : N) (path : string)
| ItemUpdateProperties (item : N) (title description : string)
| ItemMove (item : N) (folder : string) (how : MoveHow)
| ItemDelete (item : N)
| ItemShare (item : N) (legacy : bool)
| Analyze (item : option N)
| Publish (item : N) (service_name : string)
| FromItem (item : N)
| DeleteFeatures (layer : LayerRef) (where_ : string)
| Append (layer : LayerRef) (csv : N)
| EditFeatures (layer : LayerRef) (adds : list (gmap string PyVal)).

(** What a run does that is visible outside the process: requests to the
    sink with their replies, [time.sleep] pauses in milliseconds, and
    lines read from the console. *)
Inductive Event :=
| Sink (c : Call) (r : Reply)
| Sleep (ms : N)
| Input (line : string).

(** ** The world *)

(** [catalog]: the portal's items, in the order searches list them.
    [search_hit]: the portal's query engine, which tells whether an item
    is a hit of a query string.  [item_folder]: the folder of each item
    that is in a folder of its owner; an item without an entry is in the
    owner's root folder.  [services]: the hosted feature services by item
    id.  [item_data]: the file behind each CSV item.
    [local_files]: the files under /arcgis/home.  [tape]: the scripted
    replies of the sink, one per request, in order; once the tape is used
    up every request is [Completed].  [stdin]: the lines the operator will
    type.  [current_user]: the notebook's global of that name. *)
Record World := {
  catalog : list Item;
  search_hit : string -> Item -> bool;
  services : gmap N Service;
  item_data : gmap N DataFrame;
  local_files : gmap string DataFrame;
  next_id : N;
  tape : list Reply;
  stdin : list string;
  current_user : string;
  item_folder : gmap N string
}.

Definition set_catalog (c : list Item) (w : World) : World :=
  {| catalog := c; search_hit := search_hit w; services := services w;
     item_data := item_data w; local_files := local_files w;
     next_id := next_id w; tape := tape w; stdin := stdin w;
     current_user := current_user w; item_folder := item_folder w |}.

Definition set_services (s : gmap N Service) (w : World) : World :=
  {| catalog := catalog w; search_hit := search_hit w; services := s;
     item_data := item_data w; local_files := local_files w;
     next_id := next_id w; tape := tape w; stdin := stdin w;
     current_user := current_user w; item_folder := item_folder w |}.

Definition set_item_data (d : gmap N DataFrame) (w : World) : World :=
  {| catalog := catalog w; search_hit := search_hit w; services := services w;
     item_data := d; local_files := local_files w;
     next_id := next_id w; tape := tape w; stdin := stdin w;
     current_user := current_user w; item_folder := item_folder w |}.

Definition set_local_files (f : gmap string DataFrame) (w : World) : World :=
  {| catalog := catalog w; search_hit := search_hit w; services := services w;
     item_data := item_data w; local_files := f;
     next_id := next_id w; tape := tape w; stdin := stdin w;
     current_user := current_user w; item_folder := item_folder w |}.

Definition set_next_id (n : N) (w : World) : World :=
  {| catalog := catalog w; search_hit := search_hit w; services := services w;
     item_data := item_data w; local_files := local_files w;
     next_id := n; tape := tape w; stdin := stdin w;
     current_user := current_user w; item_folder := item_folder w |}.

Definition set_tape (t : list Reply) (w : World) : World :=
  {| catalog := catalog w; search_hit := search_hit w; services := services w;
     item_data := item_data w; local_files := local_files w;
     next_id := next_id w; tape := t; stdin := stdin w;
     current_user := current_user w; item_folder := item_folder w |}.

Definition set_stdin (l : list string) (w : World) : World :=
  {| catalog := catalog w; search_hit := search_hit w; services := services w;
     item_data := item_data w; local_files := local_files w;
     next_id := next_id w; tape := tape w; stdin := l;
     current_user := current_user w; item_folder := item_folder w |}.

Definition set_item_folder (f : gmap N string) (w : World) : World :=
  {| catalog := catalog w; search_hit := search_hit w; services := services w;
     item_data := item_data w; local_files := local_files w;
     next_id := next_id w; tape := tape w; stdin := stdin w;
     current_user := current_user w; item_folder := f |}.

(** ** The monad of notebook code *)

(** A computation runs from a world to a result or an exception, the world
    it leaves behind, and the events it caused.  The world and the events
    survive an exception: what a [try] body did before it raised stays
    done. *)
Definition M (A : Type) : Type := World -> result A * World * list Event.

Definition ret {A} (a : A) : M A := fun w => (Return a, w, []).

Definition raise {A} (e : exn) : M A := fun w => (Raise e, w, []).

Definition bind {A B} (m : M A) (k : A -> M B) : M B := fun w =>
  match m w with
  | (Return a, w1, ev1) =>
      match k a w1 with
      | (r, w2, ev2) => (r, w2, ev1 ++ ev2)
      end
  | (Raise e, w1, ev1) => (Raise e, w1, ev1)
  end.

(** [try: body  except Exception: handler] (also the bare [except:]). *)
Definition try_catch {A} (body : M A) (handler : exn -> M A) : M A := fun w =>
  match body w with
  | (Return a, w1, ev1) => (Return a, w1, ev1)
  | (Raise e, w1, ev1) =>
      match handler e w1 with
      | (r, w2, ev2) => (r, w2, ev1 ++ ev2)
      end
  end.

Declare Scope py_scope.
Delimit Scope py_scope with py.
Notation "x <- m ;; k" := (bind m (fun x => k))
  (at level 100, m at next level, right associativity) : py_scope.
Notation "m ;;; k" := (bind m (fun _ => k))
  (at level 100, right associativity) : py_scope.
Local Open Scope py_scope.

Definition get : M World := fun w => (Return w, w, []).
Definition modify (f : World -> World) : M unit := fun w => (Return tt, f w, []).
Definition emit (e : Event) : M unit := fun w => (Return tt, w, [e]).
Definition lift {A} (r : result A) : M A := fun w => (r, w, []).

Definition outcome {A} (x : result A * World * list Event) : result A :=
  x.1.1.
Definition final {A} (x : result A * World * list Event) : World :=
  x.1.2.
Definition events {A} (x : result A * World * list Event) : list Event :=
  x.2.

(** The reply to the next request: the head of the tape, [Completed] once
    the tape is used up. *)
Definition next_reply (t : list Reply) : Reply :=
  match t with
  | [] => Completed
  | r :: _ => r
  end.

(** One request to the sink: the next reply is taken off the tape and the
    request is logged with it. *)
Definition sink (c : Call) : M Reply := fun w =>
  let r := next_reply (tape w) in
  (Return r, set_tape (tail (tape w)) w, [Sink c r]).

(** [time.sleep(seconds)], in milliseconds. *)
Definition sleep (ms : N) : M unit := emit (Sleep ms).

(** ** The sink's requests *)

Definition service_layers (k : LayerKind) (s : Service) : list Layer :=
  match k with KTable => svc_tables s | KLayer => svc_layers s end.

Definition get_layer (w : World) (lr : LayerRef) : option Layer :=
  match services w !! lr_item lr with
  | Some s => head (service_layers (lr_kind lr) s)
  | None => None
  end.

Definition put_first (l : Layer) (ls : list Layer) : list Layer := l :: tail ls.

Definition set_layer (lr : LayerRef) (l : Layer) (w : World) : World :=
  set_services
    (alter (fun s =>
              match lr_kind lr with
              | KTable => {| svc_tables := put_first l (svc_tables s);
                             svc_layers := svc_layers s |}
              | KLayer => {| svc_tables := svc_tables s;
                             svc_layers := put_first l (svc_layers s) |}
              end)
           (lr_item lr) (services w))
    w.

(** The rows of a layer; none when the layer does not exist. *)
Definition layer_rows (w : World) (lr : LayerRef) : list (gmap string PyVal) :=
  match get_layer w lr with
  | Some l => features l
  | None => []
  end.

(** [gis.content.search(query=..., max_items=...)] *)
Definition content_search (query : string) (max_items : nat) : M (list Item) :=
  r <- sink (ContentSearch query max_items) ;;
  match r with
  | Failed => raise SinkError
  | Nothing => ret []
  | _ => w <- get ;; ret (take max_items (List.filter (search_hit w query) (catalog w)))
  end.

(** The items of the current user's root folder. *)
Definition root_items (w : World) : list Item :=
  List.filter (fun it => String.eqb (item_owner it) (current_user w)
                         && bool_decide (item_folder w !! item_id it = None))
              (catalog w).

(** [gis.users.me.items(max_items=...)]: without a [folder] argument the
    listing is of the user's root folder. *)
Definition users_me_items (max_items : nat) : M (list Item) :=
  r <- sink (UserItems max_items) ;;
  match r with
  | Failed => raise SinkError
  | Nothing => ret []
  | _ => w <- get ;; ret (take max_items (root_items w))
  end.

(** [FeatureLayerCollection.fromitem(item)] *)
Definition fromitem (item : Item) : M Service :=
  r <- sink (FromItem (item_id item)) ;;
  match r with
  | Failed => raise SinkError
  | _ =>
      w <- get ;;
      match services w !! item_id item with
      | Some s => ret s
      | None => raise SinkError
      end
  end.

(** [target_layer.delete_features(where=...)]: every row goes, since the
    only predicate in use is the unconditional one. *)
Definition delete_features (lr : LayerRef) (where_ : string) : M unit :=
  r <- sink (DeleteFeatures lr where_) ;;
  match r with
  | Failed => raise SinkError
  | Nothing => ret tt
  | _ =>
      w <- get ;;
      match get_layer w lr with
      | Some l => modify (set_layer lr {| fields := fields l; features := [] |})
      | None => raise SinkError
      end
  end.

(** [target_layer.append(item_id=..., upload_format="csv", ...)]: [true]
    when the result is not [None]. *)
Definition append (lr : LayerRef) (csv : N) : M bool :=
  r <- sink (Append lr csv) ;;
  match r with
  | Failed => raise SinkError
  | Nothing => ret false
  | _ =>
      w <- get ;;
      match get_layer w lr, item_data w !! csv with
      | Some l, Some df =>
          modify (set_layer lr {| fields := fields l;
                                  features := features l ++ records df |}) ;;;
          ret true
      | _, _ => raise SinkError
      end
  end.

(** The sink answers an insert with one flag per submitted row. *)
Definition fit_flags (n : nat) (flags : list bool) : list bool :=
  take n (flags ++ replicate n false).

Definition accepted_rows (adds : list (gmap string PyVal)) (flags : list bool)
  : list (gmap string PyVal) :=
  (List.filter snd (zip adds flags)).*1.

(** [layer.edit_features(adds=...)]: [None] stands for a result that is
    falsy or has no [addResults]; otherwise the [success] flags of
    [result['addResults']].  The rows flagged as successful are the rows
    the sink stores. *)
Definition edit_features (lr : LayerRef) (adds : list (gmap string PyVal))
  : M (option (list bool)) :=
  r <- sink (EditFeatures lr adds) ;;
  match r with
  | Failed => raise SinkError
  | Nothing => ret None
  | _ =>
      let flags := match r with
                   | AddResults fl => fit_flags (length adds) fl
                   | _ => replicate (length adds) true
                   end in
      w <- get ;;
      match get_layer w lr with
      | Some l =>
          modify (set_layer lr {| fields := fields l;
                                  features := features l ++ accepted_rows adds flags |}) ;;;
          ret (Some flags)
      | None => raise SinkError
      end
  end.

(** [gis.content.folders.get(folder=...)]: whether a folder came back. *)
Definition folders_get (folder : string) : M bool :=
  r <- sink (FoldersGet folder) ;;
  match r with
  | Failed => raise SinkError
  | Nothing => ret false
  | _ => ret true
  end.

(** Truth value of an optional string: [None] and the empty string are
    falsy. *)
Definition truthy (s : option string) : bool :=
  match s with
  | Some s => negb (String.eqb s "")
  | None => false
  end.

(** The portal's record of a new item: the item joins the catalog, in the
    folder given or else in the root folder. *)
Definition register (it : Item) (folder : option string) (w : World) : World :=
  set_next_id (next_id w + 1)
    (set_catalog (catalog w ++ [it])
       (set_item_folder
          (match folder with
           | Some f => <[item_id it := f]> (item_folder w)
           | None => delete (item_id it) (item_folder w)
           end) w)).

(** The sink registers a new item owned by the current user. *)
Definition mint_item (title type : string) (folder : option string) : M Item :=
  w <- get ;;
  let it := {| item_id := next_id w; item_title := title;
               item_owner := current_user w; item_type := type |} in
  modify (register it folder) ;;;
  ret it.

(** The sink stores the local file [path] as the data of item [id]. *)
Definition upload (id : N) (path : string) : M unit :=
  w <- get ;;
  match local_files w !! path with
  | Some df => modify (fun w => set_item_data (<[id := df]> (item_data w)) w)
  | None => raise OSError
  end.

(** [target_folder.add(item_properties=..., file=...).result()] *)
Definition folder_add (folder title path : string) : M (option Item) :=
  r <- sink (FolderAdd folder title path) ;;
  match r with
  | Failed => raise SinkError
  | Nothing => ret None
  | _ =>
      it <- mint_item title "CSV" (Some folder) ;;
      upload (item_id it) path ;;; ret (Some it)
  end.

(** [gis.content.add(item_properties=..., data=..., folder=...)]: the item
    goes to the folder named, to the root folder when the name is [None]
    or empty. *)
Definition content_add (title path : string) (folder : option string)
  : M (option Item) :=
  r <- sink (ContentAdd title path folder) ;;
  match r with
  | Failed => raise SinkError
  | Nothing => ret None
  | _ =>
      it <- mint_item title "CSV" (if truthy folder then folder else None) ;;
      upload (item_id it) path ;;; ret (Some it)
  end.

(** [csv_item.update(data=path)]: the truth value of the result. *)
Definition item_update_data (item : Item) (path : string) : M bool :=
  r <- sink (ItemUpdateData (item_id item) path) ;;
  match r with
  | Failed => raise SinkError
  | Nothing => ret false
  | _ => upload (item_id item) path ;;; ret true
  end.

(** ** Local files *)

(** [df.to_csv(path, index=False)] *)
Definition to_csv (df : DataFrame) (path : string) : M unit :=
  modify (fun w => set_local_files (<[path := df]> (local_files w)) w).

(** [if os.path.exists(path): os.remove(path)] inside [try/except: pass]. *)
Definition remove_if_exists (path : string) : M unit :=
  modify (fun w => set_local_files (delete path (local_files w)) w).

(** ** Folder names *)

(** [get_folder_name(folder)] *)
Definition get_folder_name (folder : FolderArg) : option string :=
  match folder with
  | FolderNone => None
  | FolderStr s => Some s
  | FolderDict title name => Some (default (default "" name) title)
  | FolderObj title name printed =>
      match title, name with
      | Some t, _ => Some t
      | None, Some n => Some n
      | None, None => Some printed
      end
  end.

(** ** Preparing a DataFrame for the sink *)

Definition column_values (df : DataFrame) (col : string) : list PyVal :=
  map (fun row => row_get row col) (records df).

(** [df[col].dropna().iloc[0]], when there is one. *)
Definition first_non_null (vs : list PyVal) : option PyVal :=
  head (List.filter (fun v => negb (isna v)) vs).

Definition is_date (v : PyVal) : bool :=
  match v with VDate _ _ _ => true | _ => false end.

Definition is_bool (v : PyVal) : bool :=
  match v with VBool _ => true | _ => false end.

(** The lambda applied to a date column:
    [x.strftime('%Y/%m/%d') if x is not None and pd.notna(x) else missing].
    A value that is neither missing nor a date has no [strftime]. *)
Definition date_cell (missing : PyVal) (x : PyVal) : result PyVal :=
  match x with
  | VDate y m d => Return (VStr (strftime "/" y m d))
  | VNone | VNaN => Return missing
  | _ => Raise AttributeError
  end.

(** [df[col] = df[col].apply(f)], row by row. *)
Fixpoint apply_column (col : string) (f : PyVal -> result PyVal)
    (rows : list (gmap string PyVal)) : result (list (gmap string PyVal)) :=
  match rows with
  | [] => Return []
  | row :: rest =>
      rbind (f (row_get row col)) (fun v =>
      rbind (apply_column col f rest) (fun rest' =>
      Return (<[col := v]> row :: rest')))
  end.

(** The loop that turns date columns into date-only strings.  A column
    counts as a date column when its first non-null value is a date; the
    [datetime64] branch of the source needs pandas Timestamps, which are
    outside [PyVal]. *)
Fixpoint convert_date_columns (missing : PyVal) (cols : list string)
    (rows : list (gmap string PyVal)) : result (list (gmap string PyVal)) :=
  match cols with
  | [] => Return rows
  | col :: cols' =>
      let vs := map (fun row => row_get row col) rows in
      match first_non_null vs with
      | Some first_val =>
          if is_date first_val
          then rbind (apply_column col (date_cell missing) rows)
                     (convert_date_columns missing cols')
          else convert_date_columns missing cols' rows
      | None => convert_date_columns missing cols' rows
      end
  end.

(** A cell-wise map over the labelled columns, such as [fillna]. *)
Definition map_cells (f : PyVal -> PyVal) (cols : list string)
    (rows : list (gmap string PyVal)) : list (gmap string PyVal) :=
  map (fun row => foldl (fun r col => <[col := f (row_get row col)]> r) row cols) rows.

(** [df.fillna('')] *)
Definition fillna_empty (v : PyVal) : PyVal :=
  if isna v then VStr "" else v.

(** The preparation shared by the CSV writers: dates to strings, missing
    values to the empty string. *)
Definition csv_prepare (df : DataFrame) : result DataFrame :=
  rbind (convert_date_columns (VStr "") (columns df) (records df)) (fun rows =>
  Return {| columns := columns df;
            records := map_cells fillna_empty (columns df) rows |}).

(** ** Sink table locator *)

(** The double quote character of the query strings. *)
Definition dq : string := String (Ascii.ascii_of_nat 34) EmptyString.

Definition title_owner_match (title user : string) (it : Item) : bool :=
  String.eqb (item_title it) title && String.eqb (item_owner it) user.

(** The two queries of [find_existing_table]:
    [f'title:"{table_name}" AND owner:{current_user} AND type:"Feature Service"']
    and [f'title:{table_name} owner:{current_user} type:Feature Service']. *)
Definition quoted_query (name user : string) : string :=
  "title:" +:+ dq +:+ name +:+ dq +:+ " AND owner:" +:+ user
  +:+ " AND type:" +:+ dq +:+ "Feature Service" +:+ dq.

Definition unquoted_query (name user : string) : string :=
  "title:" +:+ name +:+ " owner:" +:+ user +:+ " type:Feature Service".

(** [find_existing_table(gis, table_name)] *)
Definition find_existing_table (table_name : string) : M (option Item) :=
  try_catch
    (w <- get ;;
     let user := current_user w in
     let search_query := quoted_query table_name user in
     results <- content_search search_query 100 ;;
     match List.find (title_owner_match table_name user) results with
     | Some item => ret (Some item)
     | None =>
         let search_query2 := unquoted_query table_name user in
         results2 <- content_search search_query2 100 ;;
         match List.find (title_owner_match table_name user) results2 with
         | Some item => ret (Some item)
         | None =>
             user_items <- users_me_items 1000 ;;
             ret (List.find
                    (fun it => String.eqb (item_title it) table_name
                               && String.eqb (item_type it) "Feature Service")
                    user_items)
         end
     end)
    (fun _ => ret None).

(** ** Source staging store *)

(** [find_source_csv_item(gis, table_name)] *)
Definition find_source_csv_item (table_name : string) : M (option Item) :=
  try_catch
    (w <- get ;;
     let user := current_user w in
     let csv_title := table_name +:+ "_source" in
     let search_query :=
       "title:" +:+ dq +:+ csv_title +:+ dq +:+ " AND owner:" +:+ user
       +:+ " AND type:" +:+ dq +:+ "CSV" +:+ dq in
     results <- content_search search_query 50 ;;
     match List.find (title_owner_match csv_title user) results with
     | Some item => ret (Some item)
     | None =>
         let search_query2 :=
           "title:" +:+ csv_title +:+ " owner:" +:+ user +:+ " type:CSV" in
         results2 <- content_search search_query2 50 ;;
         ret (List.find (title_owner_match csv_title user) results2)
     end)
    (fun _ => ret None).

(** The temporary file of [update_source_csv_item]:
    [f"/arcgis/home/{csv_item.title.replace(' ', '_')}_temp.csv"]. *)
Definition update_temp_path (csv_item : Item) : string :=
  "/arcgis/home/" +:+ PyStr.replace_spaces (item_title csv_item) +:+ "_temp.csv".

(** The temporary file of [create_source_csv_item] and [create_new_table]:
    [f"/arcgis/home/{csv_filename}"] with
    [csv_filename = f"{table_name.replace(' ', '_')}.csv"]. *)
Definition create_temp_path (table_name : string) : string :=
  "/arcgis/home/" +:+ (PyStr.replace_spaces table_name +:+ ".csv").

(** [update_source_csv_item(gis, csv_item, dataframe, folder)] *)
Definition update_source_csv_item (csv_item : Item) (dataframe : DataFrame)
    (folder : FolderArg) : M bool :=
  try_catch
    (df_copy <- lift (csv_prepare dataframe) ;;
     let temp_csv_path := update_temp_path csv_item in
     to_csv df_copy temp_csv_path ;;;
     update_result <- item_update_data csv_item temp_csv_path ;;
     remove_if_exists temp_csv_path ;;;
     if update_result then ret true else ret false)
    (fun _ => ret false).

(** [create_source_csv_item(gis, table_name, dataframe, folder)] *)
Definition create_source_csv_item (table_name : string) (dataframe : DataFrame)
    (folder : FolderArg) : M (option Item) :=
  try_catch
    (df_copy <- lift (csv_prepare dataframe) ;;
     let temp_csv_path := create_temp_path table_name in
     to_csv df_copy temp_csv_path ;;;
     let csv_title := table_name +:+ "_source" in
     let folder_name := get_folder_name folder in
     (* Method 1: Folder.add() *)
     csv_item <-
       try_catch
         (if truthy folder_name then
            let name := default "" folder_name in
            target_folder <- folders_get name ;;
            if target_folder then folder_add name csv_title temp_csv_path
            else ret None
          else ret None)
         (fun _ => ret None) ;;
     (* Method 2: gis.content.add() *)
     match csv_item with
     | Some item =>
         remove_if_exists temp_csv_path ;;;
         ret (Some item)
     | None =>
         added <-
           try_catch
             (item <- content_add csv_title temp_csv_path folder_name ;;
              ret (Return item))
             (fun e => ret (Raise e)) ;;
         match added with
         | Raise _ => ret None
         | Return csv_item =>
             remove_if_exists temp_csv_path ;;;
             ret csv_item
         end
     end)
    (fun _ => ret None).

(** ** Batch upsert fallback *)

(** An entry of [layer_field_info]: the field's own name, its type and its
    declared length, with the defaults of the [f.get] calls filled in. *)
Record FieldInfo := {
  fi_name : string;
  fi_type : string;
  fi_length : Z
}.

Definition system_fields : list string := ["objectid"; "fid"; "globalid"].

Definition field_info (f : Field) : FieldInfo :=
  {| fi_name := f_name f;
     fi_type := default "esriFieldTypeString" (f_type f);
     fi_length := default 256%Z (Z.of_N <$> f_length f) |}.

(** The dict [layer_field_info], keyed by lower-cased field name. *)
Definition layer_field_info (fs : list Field) : gmap string FieldInfo :=
  foldl (fun acc f =>
           let field_name := PyStr.lower (f_name f) in
           if bool_decide (field_name ∈ system_fields) then acc
           else <[field_name := field_info f]> acc)
        ∅ fs.

(** The dict [df_columns_lower = {col.lower(): col for col in columns}]. *)
Definition df_columns_lower (cols : list string) : gmap string string :=
  foldl (fun acc col => <[PyStr.lower col := col]> acc) ∅ cols.

(** The value stored for one field of one row: missing values become
    [None]; for a string field the value is converted to a string and cut
    to the field's length. *)
Definition field_value (fi : FieldInfo) (value : PyVal) : PyVal :=
  if isna value then VNone
  else if String.eqb (fi_type fi) "esriFieldTypeString" then
    let s := py_str value in
    let max_len := fi_length fi in
    if (max_len <? PyStr.len s)%Z then VStr (PyStr.slice_to s max_len)
    else VStr s
  else value.

(** The attribute map built for one row. *)
Definition row_attributes (info : gmap string FieldInfo)
    (cols_lower : gmap string string) (row : gmap string PyVal)
  : gmap string PyVal :=
  map_fold (fun layer_field_lower fi attributes =>
              match cols_lower !! layer_field_lower with
              | Some df_col =>
                  <[fi_name fi := field_value fi (row_get row df_col)]> attributes
              | None => attributes
              end)
           ∅ info.

(** [str(x) if pd.notna(x) else None], applied to a bool column. *)
Definition bool_cell (x : PyVal) : PyVal :=
  if isna x then VNone else VStr (py_str x).

(** A column has dtype [bool] when every one of its values is a bool. *)
Definition convert_bool_columns (cols : list string)
    (rows : list (gmap string PyVal)) : list (gmap string PyVal) :=
  foldl (fun rows col =>
           if forallb is_bool (map (fun row => row_get row col) rows)
           then map (fun row => <[col := bool_cell (row_get row col)]> row) rows
           else rows)
        rows cols.

(** [df.where(pd.notnull(df), None)] *)
Definition nan_to_none (v : PyVal) : PyVal :=
  if isna v then VNone else v.

(** The preparation of the batch path: dates to strings, bools to strings,
    NaN to [None]. *)
Definition batch_prepare (df : DataFrame) : result (list (gmap string PyVal)) :=
  rbind (convert_date_columns VNone (columns df) (records df)) (fun rows =>
  Return (map_cells nan_to_none (columns df)
            (convert_bool_columns (columns df) rows))).

(** [all_features]: the non-empty attribute maps, in row order. *)
Definition build_features (info : gmap string FieldInfo) (cols : list string)
    (rows : list (gmap string PyVal)) : list (gmap string PyVal) :=
  List.filter (fun attributes => negb (bool_decide (attributes = ∅)))
              (map (row_attributes info (df_columns_lower cols)) rows).

(** The slices [all_features[i:i + batch_size]] for [i] in
    [range(0, len(all_features), batch_size)], [batch_size] positive. *)
Fixpoint chunks (fuel n : nat) (l : list (gmap string PyVal))
  : list (list (gmap string PyVal)) :=
  match fuel, l with
  | S fuel', _ :: _ => take n l :: chunks fuel' n (drop n l)
  | _, _ => []
  end.

(** A negative step gives an empty range; a zero step is dealt with by the
    caller. *)
Definition batches (batch_size : Z) (l : list (gmap string PyVal))
  : list (list (gmap string PyVal)) :=
  if (batch_size <=? 0)%Z then [] else chunks (length l) (Z.to_nat batch_size) l.

Definition count_true (flags : list bool) : nat :=
  length (List.filter id flags).

(** The one-record-at-a-time retry of a batch that raised. *)
Fixpoint retry_singly (layer : LayerRef) (batch : list (gmap string PyVal))
    (total_added : nat) : M nat :=
  match batch with
  | [] => ret total_added
  | single_feature :: rest =>
      added <-
        try_catch
          (single_result <- edit_features layer [single_feature] ;;
           match single_result with
           | Some flags => if default false (head flags) then ret 1 else ret 0
           | None => ret 0
           end)
          (fun _ => ret 0) ;;
      sleep 100 ;;;
      retry_singly layer rest (total_added + added)
  end.

(** The body of the batch loop; [last] tells that no batch follows, which
    the source tests with [i + batch_size < len(all_features)]. *)
Definition insert_batch (layer : LayerRef) (batch_size : Z)
    (batch : list (gmap string PyVal)) (last : bool) (total_added : nat) : M nat :=
  try_catch
    (result <- edit_features layer batch ;;
     let total := match result with
                  | Some flags => total_added + count_true flags
                  | None => total_added
                  end in
     (if last then ret tt else sleep 500) ;;;
     ret total)
    (fun _ =>
       if (1 <? batch_size)%Z && (1 <? length batch)%nat
       then retry_singly layer batch total_added
       else ret total_added).

Fixpoint insert_batches (layer : LayerRef) (batch_size : Z)
    (bs : list (list (gmap string PyVal))) (total_added : nat) : M nat :=
  match bs with
  | [] => ret total_added
  | batch :: rest =>
      total <- insert_batch layer batch_size batch
                 (match rest with [] => true | _ => false end) total_added ;;
      insert_batches layer batch_size rest total
  end.

(** [add_features_in_batches(layer, dataframe, batch_size=50)] *)
Definition add_features_in_batches (layer : LayerRef) (dataframe : DataFrame)
    (batch_size : Z) : M bool :=
  try_catch
    (w <- get ;;
     match get_layer w layer with
     | None => raise AttributeError
     | Some l =>
         let info := layer_field_info (fields l) in
         rows <- lift (batch_prepare dataframe) ;;
         let all_features := build_features info (columns dataframe) rows in
         match all_features with
         | [] => ret false
         | _ =>
             if (batch_size =? 0)%Z then raise ValueError
             else
               total_added <- insert_batches layer batch_size
                                (batches batch_size all_features) 0 ;;
               if (total_added =? length all_features)%nat then ret true
               else if (0 <? total_added)%nat then ret true
               else ret false
         end
     end)
    (fun _ => ret false).

(** ** Reconciliation engine *)

(** [flc.tables[0]] if there is a table, else [flc.layers[0]] if there is
    a layer. *)
Definition pick_target (item : Item) (flc : Service) : option LayerRef :=
  match svc_tables flc, svc_layers flc with
  | _ :: _, _ => Some {| lr_item := item_id item; lr_kind := KTable |}
  | [], _ :: _ => Some {| lr_item := item_id item; lr_kind := KLayer |}
  | [], [] => None
  end.

(** [update_existing_table(item, dataframe, folder)] *)
Definition update_existing_table (item : Item) (dataframe : DataFrame)
    (folder : FolderArg) : M bool :=
  try_catch
    (flc <- fromitem item ;;
     match pick_target item flc with
     | None => ret false
     | Some target_layer =>
         (* Step 1: delete all existing features *)
         deleted <-
           try_catch
             (delete_features target_layer "1=1" ;;;
              sleep 2000 ;;;
              ret true)
             (fun _ => ret false) ;;
         if negb deleted then ret false
         else
           (* Step 2: find or create the source CSV item *)
           found <- find_source_csv_item (item_title item) ;;
           staged <-
             match found with
             | Some csv_item =>
                 ok <- update_source_csv_item csv_item dataframe folder ;;
                 if ok then ret (Some csv_item) else ret None
             | None => create_source_csv_item (item_title item) dataframe folder
             end ;;
           match staged with
           | None => ret false
           | Some csv_item =>
               (* Step 3: append the data using the CSV item *)
               appended <-
                 try_catch (append target_layer (item_id csv_item))
                           (fun _ => ret false) ;;
               if appended then ret true
               else
                 (* Step 4: edit_features fallback *)
                 try_catch
                   (success <- add_features_in_batches target_layer dataframe 50 ;;
                    if success then ret true else ret false)
                   (fun _ => ret false)
           end
     end)
    (fun _ => ret false).

(** [gis.content.analyze(item=csv_item, file_type='csv')] followed by
    [analyze_result.get('publishParameters', {})]. *)
Definition analyze (csv_item : option Item) : M unit :=
  r <- sink (Analyze (item_id <$> csv_item)) ;;
  match r with
  | Failed => raise SinkError
  | Nothing => raise AttributeError
  | _ => ret tt
  end.

(** The schema the sink infers when it publishes a CSV: one field per
    column, with the sink's defaults for type and length. *)
Definition inferred_fields (df : DataFrame) : list Field :=
  map (fun col => {| f_name := col; f_type := None; f_length := None |}) (columns df).

(** [csv_item.publish(publish_parameters=pub_params)]: the sink mints a
    feature service item holding one table with the rows of the CSV; as
    the source has it, published items go to the root folder. *)
Definition publish (csv_item : option Item) (service_name : string) : M (option Item) :=
  match csv_item with
  | None => raise AttributeError
  | Some csv =>
      r <- sink (Publish (item_id csv) service_name) ;;
      match r with
      | Failed => raise SinkError
      | Nothing => ret None
      | _ =>
          w <- get ;;
          match item_data w !! item_id csv with
          | None => raise SinkError
          | Some df =>
              it <- mint_item service_name "Feature Service" None ;;
              modify (fun w =>
                set_services
                  (<[item_id it :=
                       {| svc_tables := [ {| fields := inferred_fields df;
                                             features := records df |} ];
                          svc_layers := [] |}]> (services w)) w) ;;;
              ret (Some it)
          end
      end
  end.

Definition rename_item (id : N) (title : string) (it : Item) : Item :=
  if bool_decide (item_id it = id)
  then {| item_id := item_id it; item_title := title;
          item_owner := item_owner it; item_type := item_type it |}
  else it.

(** [published_item.update(item_properties={"title": ..., "description": ...})];
    the item object then shows the new title. *)
Definition item_update_properties (published_item : option Item)
    (title description : string) : M Item :=
  match published_item with
  | None => raise AttributeError
  | Some it =>
      r <- sink (ItemUpdateProperties (item_id it) title description) ;;
      match r with
      | Failed => raise SinkError
      | Nothing => ret it
      | _ =>
          modify (fun w => set_catalog (map (rename_item (item_id it) title) (catalog w)) w) ;;;
          ret (rename_item (item_id it) title it)
      end
  end.

(** [published_item.move(...)]: the truth value of the result; a move
    that succeeds puts the item into the folder. *)
Definition item_move (it : Item) (folder : string) (how : MoveHow) : M bool :=
  r <- sink (ItemMove (item_id it) folder how) ;;
  match r with
  | Failed => raise SinkError
  | Nothing => ret false
  | _ =>
      modify (fun w => set_item_folder (<[item_id it := folder]> (item_folder w)) w) ;;;
      ret true
  end.

(** The three relocation attempts of [create_new_table]. *)
Definition move_to_folder (published_item : Item) (folder_name : string) : M unit :=
  moved1 <- try_catch (item_move published_item folder_name ByKeyword)
                      (fun _ => ret false) ;;
  moved2 <-
    (if moved1 then ret true
     else try_catch (item_move published_item folder_name ByPosition)
                    (fun _ => ret false)) ;;
  (if moved2 then ret true
   else try_catch
          (folder_obj <- folders_get folder_name ;;
           if folder_obj then item_move published_item folder_name ByFolderId
           else ret false)
          (fun _ => ret false)) ;;;
  ret tt.

(** [create_new_table(gis, table_name, dataframe, folder, description)] *)
Definition create_new_table (table_name : string) (dataframe : DataFrame)
    (folder : FolderArg) (description : string) : M (option Item) :=
  try_catch
    (df_copy <- lift (csv_prepare dataframe) ;;
     let temp_csv_path := create_temp_path table_name in
     to_csv df_copy temp_csv_path ;;;
     let folder_name := get_folder_name folder in
     target_folder <-
       (if truthy folder_name
        then try_catch (folders_get (default "" folder_name)) (fun _ => ret false)
        else ret false) ;;
     let csv_title := table_name +:+ "_source" in
     (* Method 1: Folder.add() *)
     csv_item1 <-
       try_catch
         (if target_folder
          then folder_add (default "" folder_name) csv_title temp_csv_path
          else ret None)
         (fun _ => ret None) ;;
     (* Method 2: gis.content.add() *)
     csv_item <-
       match csv_item1 with
       | Some item => ret (Some item)
       | None => content_add csv_title temp_csv_path folder_name
       end ;;
     analyze csv_item ;;;
     let service_name := PyStr.replace_dashes (PyStr.replace_spaces table_name) in
     published <- publish csv_item service_name ;;
     published_item <-
       item_update_properties published table_name
         (if String.eqb description ""
          then "Group Analytics - " +:+ table_name else description) ;;
     (if truthy folder_name
      then move_to_folder published_item (default "" folder_name)
      else ret tt) ;;;
     remove_if_exists temp_csv_path ;;;
     ret (Some published_item))
    (fun _ => ret None).

(** [existing_item.delete(permanent=True)] *)
Definition item_delete (it : Item) : M unit :=
  r <- sink (ItemDelete (item_id it)) ;;
  match r with
  | Failed => raise SinkError
  | Nothing => ret tt
  | _ =>
      modify (fun w =>
        set_services (delete (item_id it) (services w))
          (set_catalog
             (List.filter (fun x => negb (bool_decide (item_id x = item_id it)))
                          (catalog w)) w))
  end.

(** [new_item.sharing.sharing_level = 'org'], and the legacy
    [new_item.share(org=True)]. *)
Definition item_share (it : Item) (legacy : bool) : M unit :=
  r <- sink (ItemShare (item_id it) legacy) ;;
  match r with
  | Failed => raise SinkError
  | _ => ret tt
  end.

(** The operator's decision at the prompt. *)
Inductive Answer := Yes | No | Skip.

(** [user_input = input(...).strip().lower()] tested against the three
    pairs of accepted words. *)
Definition parse_answer (line : string) : option Answer :=
  let user_input := PyStr.lower (PyStr.strip line) in
  if bool_decide (user_input ∈ ["yes"; "y"]) then Some Yes
  else if bool_decide (user_input ∈ ["no"; "n"]) then Some No
  else if bool_decide (user_input ∈ ["skip"; "s"]) then Some Skip
  else None.

(** The [while True] loop around [input]: lines are read until one is an
    answer; [input] raises EOFError when the console has no more lines. *)
Fixpoint ask (lines : list string) : result Answer * list string * list Event :=
  match lines with
  | [] => (Raise EOFError, [], [])
  | line :: rest =>
      match parse_answer line with
      | Some a => (Return a, rest, [Input line])
      | None =>
          match ask rest with
          | (r, rest', ev) => (r, rest', Input line :: ev)
          end
      end
  end.

Definition prompt : M Answer := fun w =>
  match ask (stdin w) with
  | (r, rest, ev) => (r, set_stdin rest w, ev)
  end.

(** What the part of [publish_or_update_table] that deals with an existing
    table decides: return a value now, or go on to create a new table. *)
Inductive Flow :=
| ReturnNow (r : option Item)
| CreateNew.

(** [publish_or_update_table(gis, table_name, dataframe, folder, description)] *)
Definition publish_or_update_table (table_name : string) (dataframe : DataFrame)
    (folder : FolderArg) (description : string) : M (option Item) :=
  if (length (records dataframe) =? 0)%nat then ret None
  else
    (* Step 1: check for existing table *)
    existing <- find_existing_table table_name ;;
    flow <-
      match existing with
      | Some existing_item =>
          (* Step 2: try update method *)
          success <- update_existing_table existing_item dataframe folder ;;
          if success then ret (ReturnNow (Some existing_item))
          else
            (* Step 3: prompt before the destructive action *)
            answer <- prompt ;;
            match answer with
            | Yes =>
                deleted <-
                  try_catch
                    (item_delete existing_item ;;;
                     sleep 2000 ;;;
                     ret true)
                    (fun _ => ret false) ;;
                if deleted then ret CreateNew else ret (ReturnNow None)
            | No => ret (ReturnNow (Some existing_item))
            | Skip => ret (ReturnNow (Some existing_item))
            end
      | None => ret CreateNew
      end ;;
    match flow with
    | ReturnNow r => ret r
    | CreateNew =>
        (* Step 4: create new table *)
        new_item <- create_new_table table_name dataframe folder description ;;
        match new_item with
        | Some it =>
            try_catch (item_share it false)
              (fun _ => try_catch (item_share it true) (fun _ => ret tt)) ;;;
            ret (Some it)
        | None => ret None
        end
    end.

(** ** Observations on the log *)

(** A request that loads rows into a table: the bulk append or an insert. *)
Definition is_load (e : Event) : bool :=
  match e with
  | Sink (Append _ _) _ | Sink (EditFeatures _ _) _ => true
  | _ => false
  end.

(** The delete of the existing rows raised. *)
Definition delete_raised (e : Event) : bool :=
  match e with
  | Sink (DeleteFeatures _ _) Failed => true
  | _ => false
  end.

(** A reply that carries a result. *)
Definition positive (r : Reply) : bool :=
  match r with Failed | Nothing => false | _ => true end.

(** The staging artifact was written: an update of its data, or its
    registration as a new item, got a result. *)
Definition staged (e : Event) : bool :=
  match e with
  | Sink (ItemUpdateData _ _) r | Sink (FolderAdd _ _ _) r
  | Sink (ContentAdd _ _ _) r => positive r
  | _ => false
  end.

(** A request that changes which tables exist: publishing one or deleting
    one. *)
Definition changes_identity (e : Event) : bool :=
  match e with
  | Sink (Publish _ _) _ | Sink (ItemDelete _) _ => true
  | _ => false
  end.

(** A result is [tame] when it is a value, an OverflowError, or an
    exception of one of the classes the timestamp helpers catch. *)
Definition tame {A} (r : result A) : Prop :=
  match r with
  | Return _ => True
  | Raise e => e = OverflowError \/ e ∈ Timestamps.conversion_errors
  end.

(** ** Runs and their properties *)

(** [sat m w Q]: the run of [m] from [w] ends in a result, a world and
    events that satisfy [Q]. *)
Definition sat {A} (m : M A) (w : World)
    (Q : result A -> World -> list Event -> Prop) : Prop :=
  Q (outcome (m w)) (final (m w)) (events (m w)).

(** [keeps R P m]: from every world, the world that [m] leaves behind is
    related to the initial one by [R], and every event of the run is in
    [P]. *)
Definition keeps (R : relation World) (P : Event -> Prop) {A} (m : M A) : Prop :=
  forall w, R w (final (m w)) /\ Forall P (events (m w)).

(** The relation that holds between any two worlds. *)
Definition any_world : relation World := fun _ _ => True.

(** ** A sample portal *)

Module Sample.

Definition table : Item :=
  {| item_id := 1; item_title := "Group_Snapshot"; item_owner := "analyst";
     item_type := "Feature Service" |}.

Definition source_csv : Item :=
  {| item_id := 2; item_title := "Group_Snapshot_source";
     item_owner := "analyst"; item_type := "CSV" |}.

Definition row (id title : string) (members : Z) : gmap string PyVal :=
  <["group_id" := VStr id]>
    (<["group_title" := VStr title]> (<["member_count" := VInt members]> ∅)).

Definition cols : list string := ["group_id"; "group_title"; "member_count"].

Definition old_df : DataFrame :=
  {| columns := cols; records := [row "g0" "Old group" 1] |}.

Definition new_df : DataFrame :=
  {| columns := cols;
     records := [row "g1" "A rather long group title" 5; row "g2" "Short" 7] |}.

Definition schema : list Field :=
  [ {| f_name := "OBJECTID"; f_type := Some "esriFieldTypeOID"; f_length := None |};
    {| f_name := "Group_ID"; f_type := Some "esriFieldTypeString";
       f_length := Some 256%N |};
    {| f_name := "group_title"; f_type := Some "esriFieldTypeString";
       f_length := Some 10%N |};
    {| f_name := "member_count"; f_type := Some "esriFieldTypeInteger";
       f_length := None |} ].

Definition layer : LayerRef := {| lr_item := 1; lr_kind := KTable |}.

(** A yes as the operator may type it: after a tab and a blank, in mixed
    case, with a carriage return left at its end. *)
Definition padded_yes : string :=
  String (Ascii.ascii_of_nat 9) (" Yes" +:+ String (Ascii.ascii_of_nat 13) "").

(** A portal holding the table with one old row and its source CSV; the
    query engine lists every item and leaves the filtering to the caller. *)
Definition portal (replies : list Reply) (console : list string) : World :=
  {| catalog := [table; source_csv];
     search_hit := fun _ _ => true;
     services :=
       {[ 1%N := {| svc_tables := [ {| fields := schema;
                                        features := records old_df |} ];
                    svc_layers := [] |} ]};
     item_data := {[ 2%N := old_df ]};
     local_files := ∅;
     next_id := 3;
     tape := replies;
     stdin := console;
     current_user := "analyst";
     item_folder := ∅ |}.

End Sample.

(** The replies of a run in which the table and its source CSV are found,
    the delete and the CSV update succeed, the bulk append raises and the
    sink rejects every row of the batch insert. *)
Definition failed_refresh : list Reply :=
  [Completed; Completed; Completed; Completed; Completed; Failed;
   AddResults [false; false]].



(** ** Observations on the batch fallback *)

(** [grows lr n t w r w']: the run returned the running total [t] raised
    by the number of rows it appended to the layer [lr], at most [n]. *)
Definition grows (lr : LayerRef) (n t : nat) (w : World)
    (r : result nat) (w' : World) : Prop :=
  exists added, length added <= n
                /\ r = Return (t + length added)
                /\ layer_rows w' lr = layer_rows w lr ++ added.

(** The log of the one-by-one retry of [batch]: for each row an insert of
    that row alone, with its reply, and a pause of 0.1 s. *)
Fixpoint retry_log (layer : LayerRef) (batch : list (gmap string PyVal))
    (replies : list Reply) : list Event :=
  match batch, replies with
  | row :: batch', r :: replies' =>
      Sink (EditFeatures layer [row]) r :: Sleep 100
      :: retry_log layer batch' replies'
  | _, _ => []
  end.

(** An event other than an insert of several rows that raised. *)
Definition benign (e : Event) : Prop :=
  match e with
  | Sink (EditFeatures _ adds) Failed => length adds <= 1
  | _ => True
  end.

(** The log of one turn of the batch loop: the insert of the batch, then
    either the retry of each of its rows, or the pause before the next
    batch, or nothing; a batch whose insert raised goes without the retry
    only if it has at most one row or the batch size is at most one. *)
Definition batch_log (layer : LayerRef) (batch_size : Z)
    (batch : list (gmap string PyVal)) (ev : list Event) : Prop :=
  exists r rest,
    ev = Sink (EditFeatures layer batch) r :: rest
    /\ ((1 < length batch
         /\ exists replies, length replies = length batch
                            /\ rest = retry_log layer batch replies)
        \/ ((r = Failed -> length batch <= 1 \/ (batch_size <= 1)%Z)
            /\ (rest = [] \/ rest = [Sleep 500]))).

(** The log of the whole batch loop: one [batch_log] per batch. *)
Fixpoint batches_log (layer : LayerRef) (batch_size : Z)
    (bs : list (list (gmap string PyVal))) (ev : list Event) : Prop :=
  match bs with
  | [] => ev = []
  | b :: rest =>
      exists ev1 ev2, ev = ev1 ++ ev2
                      /\ batch_log layer batch_size b ev1
                      /\ batches_log layer batch_size rest ev2
  end.

(** [retried layer ev]: in the log [ev], every insert of several rows that
    raised is followed at once by the retry of each of its rows. *)
Definition retried (layer : LayerRef) (ev : list Event) : Prop :=
  forall pre batch post,
    ev = pre ++ Sink (EditFeatures layer batch) Failed :: post ->
    1 < length batch ->
    exists replies post',
      length replies = length batch
      /\ post = retry_log layer batch replies ++ post'.

(** Every insert request of the event is for [layer] and carries rows of
    [all] only. *)
Definition sends_only (layer : LayerRef) (all : list (gmap string PyVal))
    (e : Event) : Prop :=
  forall lr adds r, e = Sink (EditFeatures lr adds) r -> lr = layer /\ adds ⊆ all.

(** [fits f v]: the value [v] stored for the schema field [f] respects a
    string field's declared length: it is [None] or a string of at most
    that many characters. *)
Definition fits (f : Field) (v : PyVal) : Prop :=
  fi_type (field_info f) = "esriFieldTypeString" ->
  v = VNone
  \/ exists s, v = VStr s /\ (PyStr.len s <= fi_length (field_info f))%Z.

(** [conforms fs cols attributes]: the attribute map is not empty, and each
    of its keys is the name of a field of the schema [fs] that is not a
    system field and that matches a column of [cols] up to case; the value
    fits the field. *)
Definition conforms (fs : list Field) (cols : list string)
    (attributes : gmap string PyVal) : Prop :=
  attributes ≠ ∅
  /\ forall name v, attributes !! name = Some v ->
       exists f, f ∈ fs /\ f_name f = name
                 /\ (PyStr.lower name ∉ system_fields)
                 /\ (exists col, col ∈ cols /\ PyStr.lower col = PyStr.lower name)
                 /\ fits f v.

(** The rows that [add_features_in_batches] keeps for a layer with schema
    [fs]: the attribute maps of the prepared rows that are not empty. *)
Definition kept_features (fs : list Field) (df : DataFrame)
    (rows : list (gmap string PyVal)) : list (gmap string PyVal) :=
  build_features (layer_field_info fs) (columns df) rows.

(** ** Observations on a sequence of calls *)

(** At most one item of the portal has the title [name] and the current
    user as owner. *)
Definition unique_table (name : string) (w : World) : Prop :=
  forall a b, a ∈ catalog w -> b ∈ catalog w ->
    item_title a = name -> item_owner a = current_user w ->
    item_title b = name -> item_owner b = current_user w -> a = b.

(** [extends title w w']: from [w] to [w'] the query engine and the
    current user are the same, and the portal has gained at most items
    titled as the staging artifact of [title]. *)
Definition extends (title : string) (w w' : World) : Prop :=
  search_hit w' = search_hit w
  /\ current_user w' = current_user w
  /\ exists extra, catalog w' = catalog w ++ extra
                   /\ Forall (fun it => item_title it = title +:+ "_source") extra.

(** The calls of [publish_or_update_table] for one table, one after the
    other, each with its dataset, folder and description: the results, the
    final world and the whole log. *)
Fixpoint run_calls (name : string) (calls : list (DataFrame * FolderArg * string))
    (w : World) : list (result (option Item)) * World * list Event :=
  match calls with
  | [] => ([], w, [])
  | (df, folder, description) :: rest =>
      let x := publish_or_update_table name df folder description w in
      match run_calls name rest (final x) with
      | (rs, w', ev) => (outcome x :: rs, w', events x ++ ev)
      end
  end.

(** In every call of the sequence the dataset has rows, an existing table
    is found and the update attempt on it returns [True]. *)
Fixpoint updates_succeed (name : string)
    (calls : list (DataFrame * FolderArg * string)) (w : World) : Prop :=
  match calls with
  | [] => True
  | (df, folder, description) :: rest =>
      records df <> []
      /\ (exists it,
            outcome (find_existing_table name w) = Return (Some it)
            /\ outcome (update_existing_table it df folder
                          (final (find_existing_table name w))) = Return true)
      /\ updates_succeed name rest
           (final (publish_or_update_table name df folder description w))
  end.

(** The operator answered yes at the prompt. *)
Definition answered_yes (ev : list Event) : Prop :=
  exists line, Input line ∈ ev /\ parse_answer line = Some Yes.

(** The facts about the table that the calls keep. *)
Definition table_known (name : string) (it0 : Item) (w : World) : Prop :=
  unique_table name w
  /\ it0 ∈ catalog w /\ item_title it0 = name /\ item_owner it0 = current_user w.

(** ** A portal with two tables of the same title *)

Module Twins.

(** A second feature service that the same user has given the same title. *)
Definition twin : Item :=
  {| item_id := 4; item_title := "Group_Snapshot"; item_owner := "analyst";
     item_type := "Feature Service" |}.

(** The unquoted query of [find_existing_table] for the sample table. *)
Definition unquoted_query : string :=
  "title:Group_Snapshot owner:analyst type:Feature Service".

(** The sample portal with the twin added.  Its query engine answers the
    unquoted query with the twin alone and any other query with every
    item. *)
Definition portal (replies : list Reply) : World :=
  {| catalog := [Sample.table; Sample.source_csv; twin];
     search_hit := fun q it =>
       if String.eqb q unquoted_query then N.eqb (item_id it) 4 else true;
     services :=
       <[ 4%N := {| svc_tables := [ {| fields := Sample.schema; features := [] |} ];
                    svc_layers := [] |} ]>
         (services (Sample.portal [] []));
     item_data := {[ 2%N := Sample.old_df ]};
     local_files := ∅;
     next_id := 5;
     tape := replies;
     stdin := [];
     current_user := "analyst";
     item_folder := ∅ |}.

(** Two refreshes of the table, one after the other. *)
Definition two_calls : list (DataFrame * FolderArg * string) :=
  [ (Sample.new_df, FolderStr "Analytics", "");
    (Sample.old_df, FolderStr "Analytics", "") ].

End Twins.

(** ** Portal objects and their helpers *)

(** The values held by the attributes and keys of portal objects: the
    scalars of [PyVal] and lists of values.  Dicts as values are outside
    the model. *)
#[warnings="-register-all"]
Inductive PyData :=
| DVal (v : PyVal)
| DList (items : list PyData).

(** [bool(value)] *)
Definition bool_of_val (v : PyVal) : bool :=
  match v with
  | VNone => false
  | VNaN => true
  | VStr s => negb (String.eqb s "")
  | VInt z => negb (z =? 0)%Z
  | VBool b => b
  | VDate _ _ _ => true
  end.

Definition bool_of_data (d : PyData) : bool :=
  match d with
  | DVal v => bool_of_val v
  | DList [] => false
  | DList (_ :: _) => true
  end.

(** [value == s] for a string literal [s]. *)
Definition is_str (s : string) (d : PyData) : bool :=
  match d with
  | DVal (VStr t) => String.eqb t s
  | _ => false
  end.

(** [sub in s] on strings. *)
Fixpoint contains (sub s : string) : bool :=
  String.prefix sub s
  || match s with
     | EmptyString => false
     | String _ s' => contains sub s'
     end.

(** [repr(s)]: single quotes unless the string holds a single quote and no
    double quote; the quote and the backslash are escaped, tab, newline
    and carriage return are written with their letter, the other
    characters that do not print (0..31, 127..160 and the soft hyphen 173)
    in hexadecimal. *)
Definition backslash : ascii := Ascii.ascii_of_nat 92.
Definition single_quote : ascii := Ascii.ascii_of_nat 39.
Definition double_quote : ascii := Ascii.ascii_of_nat 34.

Definition has_char (c : ascii) (s : string) : bool :=
  existsb (Ascii.eqb c) (list_ascii_of_string s).

Definition hex_digit (n : nat) : ascii :=
  nth n (list_ascii_of_string "0123456789abcdef") "0"%char.

Definition repr_char (quote c : ascii) : string :=
  let n := Ascii.nat_of_ascii c in
  if Ascii.eqb c quote || Ascii.eqb c backslash then String backslash (String c "")
  else if (n =? 9)%nat then String backslash "t"
  else if (n =? 10)%nat then String backslash "n"
  else if (n =? 13)%nat then String backslash "r"
  else if ((n <? 32) || ((127 <=? n) && (n <=? 160)) || (n =? 173))%nat
       then String backslash
              (String "x" (String (hex_digit (n / 16)) (String (hex_digit (n mod 16)) "")))
  else String c "".

Fixpoint repr_chars (quote : ascii) (s : string) : string :=
  match s with
  | EmptyString => ""
  | String c s' => repr_char quote c +:+ repr_chars quote s'
  end.

Definition repr_str (s : string) : string :=
  let quote :=
    if has_char single_quote s && negb (has_char double_quote s)
    then double_quote else single_quote in
  String quote (repr_chars quote s) +:+ String quote "".

(** [repr(value)] *)
Definition repr_val (v : PyVal) : string :=
  match v with
  | VStr s => repr_str s
  | VDate y m d =>
      "datetime.date(" +:+ Z_to_string y +:+ ", " +:+ Z_to_string m +:+ ", "
      +:+ Z_to_string d +:+ ")"
  | _ => py_str v
  end.

Fixpoint repr_data (d : PyData) : string :=
  match d with
  | DVal v => repr_val v
  | DList l =>
      "[" +:+ (fix items (l : list PyData) : string :=
                 match l with
                 | [] => ""
                 | [x] => repr_data x
                 | x :: rest => repr_data x +:+ ", " +:+ items rest
                 end) l
      +:+ "]"
  end.

(** [str(value)] *)
Definition str_data (d : PyData) : string :=
  match d with
  | DVal v => py_str v
  | DList _ => repr_data d
  end.

(** [for x in value]: the elements of a list, the characters of a string;
    the other scalars are not iterable. *)
Definition iterate (d : PyData) : result (list PyData) :=
  match d with
  | DList l => Return l
  | DVal (VStr s) =>
      Return (map (fun c => DVal (VStr (String c ""))) (list_ascii_of_string s))
  | DVal _ => Raise TypeError
  end.

(** [x.lower()]: only strings have the method. *)
Definition lower_of (d : PyData) : result string :=
  match d with
  | DVal (VStr s) => Return (PyStr.lower s)
  | _ => Raise AttributeError
  end.

(** [s in container] for a string literal [s]: membership in a list, the
    substring test on a string; the other scalars raise. *)
Definition str_in (s : string) (container : PyData) : result bool :=
  match container with
  | DList l => Return (existsb (is_str s) l)
  | DVal (VStr t) => Return (contains s t)
  | DVal _ => Raise TypeError
  end.

(** [[f(x) for x in xs]] *)
Fixpoint map_result {A B} (f : A -> result B) (xs : list A) : result (list B) :=
  match xs with
  | [] => Return []
  | x :: rest =>
      rbind (f x) (fun y => rbind (map_result f rest) (fun ys => Return (y :: ys)))
  end.

(** [try: body  except Exception: return fallback] *)
Definition or_else {A} (body : result A) (fallback : A) : result A :=
  match body with
  | Return a => Return a
  | Raise _ => Return fallback
  end.

(** What [getattr(obj, key)] does for a key that [hasattr] sees: it gives
    a value, or it raises something other than AttributeError. *)
Inductive Attr :=
| Held (v : PyData)
| Raising.

(** A portal object (Group, Item, User): its attributes, and its entries
    when it is also a dict. *)
Record Obj := {
  obj_attrs : gmap string Attr;
  obj_entries : option (gmap string PyData)
}.

(** [safe_get(obj, key, default)] *)
Definition safe_get (obj : Obj) (key : string) (default : PyData) : PyData :=
  match obj_attrs obj !! key with
  | Some (Held v) => v
  | Some Raising => default
  | None =>
      match obj_entries obj with
      | Some d => match d !! key with Some v => v | None => default end
      | None => default
      end
  end.

(** [obj.get(key, default)]: the dict method; an object that is not a
    dict has none. *)
Definition obj_get (obj : Obj) (key : string) (default : PyData) : result PyData :=
  match obj_entries obj with
  | Some d => Return (match d !! key with Some v => v | None => default end)
  | None => Raise AttributeError
  end.

(** [value or []] *)
Definition or_empty_list (d : PyData) : PyData :=
  if bool_of_data d then d else DList [].

(** The body shared by [is_hub_group] and [is_site_group]: the tags in
    lower case, then the search for one of the indicators among them. *)
Definition has_indicator_tag (indicators : list string) (group : Obj) : result bool :=
  or_else
    (let tags := or_empty_list (safe_get group "tags" (DList [])) in
     rbind (iterate tags) (fun elements =>
     rbind (map_result lower_of elements) (fun tags_lower =>
     Return (existsb (fun indicator => bool_decide (indicator ∈ tags_lower))
                     indicators))))
    false.

Definition hub_indicators : list string :=
  ["hub group"; "hub content group"; "hub site group"; "hub initiative group"].

Definition site_indicators : list string :=
  ["sites"; "sites group"; "sites content group"; "sites core team group"].

(** [is_hub_group(group)] *)
Definition is_hub_group (group : Obj) : result bool :=
  has_indicator_tag hub_indicators group.

(** [is_site_group(group)] *)
Definition is_site_group (group : Obj) : result bool :=
  has_indicator_tag site_indicators group.

Definition esri_exact_accounts : list string :=
  ["esri"; "esri_livingatlas"; "esri_demographics"; "esri_boundaries";
   "esri_basemaps"; "esri_landscape"; "esri_imagery"; "esri_elevation";
   "esri_vector"; "esri_cartography"; "esri_hydro"; "esri_apps"; "esri_media";
   "esri_3d"; "esri_livefeeds"; "esri_analytics"].

(** [value or ''] *)
Definition or_empty_str (d : PyData) : PyData :=
  if bool_of_data d then d else DVal (VStr "").

(** [is_living_atlas_item(item)] *)
Definition is_living_atlas_item (item : Obj) : result bool :=
  or_else
    (let owner := or_empty_str (safe_get item "owner" (DVal (VStr ""))) in
     rbind (lower_of owner) (fun owner_lower =>
     if bool_decide (owner_lower ∈ esri_exact_accounts) then Return true
     else if String.prefix "esri_" owner_lower && negb (contains "@" owner_lower)
          then Return true
          else Return false))
    false.

(** [get_group_sharing_level(group)] *)
Definition get_group_sharing_level (group : Obj) : result string :=
  or_else
    (rbind (obj_get group "access" (DVal (VStr "private"))) (fun access =>
     if is_str "public" access then Return "Public"
     else if is_str "org" access then Return "Organization"
     else Return "Private"))
    "Private".

(** The three flags that [get_group_type] computes, in the order
    partnered, distributed, shared update. *)
Definition group_flags (group : Obj) : result (bool * bool * bool) :=
  rbind (obj_get group "typeKeywords" (DList [])) (fun type_keywords =>
  rbind (obj_get group "capabilities" (DList [])) (fun capabilities =>
  let by_capability :=
    if bool_of_data capabilities then
      let cap_str := PyStr.lower (str_data capabilities) in
      contains "updateitemcontrol" cap_str || contains "shared update" cap_str
    else false in
  rbind (str_in "Shared Update" type_keywords) (fun by_keyword =>
  let is_shared_update := by_capability || by_keyword in
  rbind (obj_get group "isPartnerCollab" (DVal VNone)) (fun partner =>
  rbind (obj_get group "isDistributedCollab" (DVal VNone)) (fun distributed =>
  rbind (str_in "Partner Collaboration" type_keywords) (fun partner_keyword =>
  rbind (str_in "Distributed Collaboration" type_keywords) (fun distributed_keyword =>
  Return (bool_of_data partner || partner_keyword,
          bool_of_data distributed || distributed_keyword,
          is_shared_update)))))))).

(** The list [types] and its rendering. *)
Definition type_names (flags : bool * bool * bool) : list string :=
  let '(is_partnered, is_distributed, is_shared_update) := flags in
  (if is_partnered then ["Partnered Collaboration"] else [])
  ++ (if is_distributed then ["Distributed Collaboration"] else [])
  ++ (if is_shared_update then ["Shared Update"] else []).

(** [get_group_type(group)] *)
Definition get_group_type (group : Obj) : result string :=
  or_else
    (rbind (group_flags group) (fun flags =>
     match type_names flags with
     | [] => Return "Standard"
     | types => Return (String.concat ", " types)
     end))
    "Standard".

(** The flags that the content records derive from the type of the group:
    [in_shared_update_group], [in_partnered_collab] and
    [in_distributed_collab]. *)
Definition content_flags (group_type : string) : bool * bool * bool :=
  (contains "Shared Update" group_type,
   contains "Partnered Collaboration" group_type,
   contains "Distributed Collaboration" group_type).

(** ** Last data update of an item *)

(** The timestamp helpers on the values that [safe_get] hands over: a list
    is neither [None] nor [-1], and its division by 1000 is a TypeError,
    which both helpers catch. *)
Definition convert_timestamp (c : Timestamps.Clock) (d : PyData) : result PyVal :=
  match d with
  | DVal v => Timestamps.convert_timestamp_to_date c v
  | DList _ => Return VNone
  end.

Definition days_since_timestamp (c : Timestamps.Clock) (d : PyData) : result PyVal :=
  match d with
  | DVal v => Timestamps.days_since c v
  | DList _ => Return VNone
  end.

(** An [editingInfo] object as far as the function reads it:
    [ei_attribute] is [editing_info.lastEditDate] when [hasattr] sees it,
    [ei_entry] is the entry [lastEditDate] when the object is a dict that
    has one.  The dates are scalars. *)
Record EditingInfo := {
  ei_attribute : option PyVal;
  ei_entry : option PyVal
}.

(** The [if hasattr(...) and ...lastEditDate: ... elif isinstance(..., dict)
    and ....get('lastEditDate'): ...] cascade: the date it picks, if any. *)
Definition last_edit_date (info : EditingInfo) : option PyVal :=
  match ei_attribute info with
  | Some v =>
      if bool_of_val v then Some v
      else match ei_entry info with
           | Some e => if bool_of_val e then Some e else None
           | None => None
           end
  | None =>
      match ei_entry info with
      | Some e => if bool_of_val e then Some e else None
      | None => None
      end
  end.

(** What [FeatureLayerCollection.fromitem(item)] gives: the [editingInfo]
    of [flc.properties] ([None] when the properties are falsy or have
    none), and for each of [flc.layers] and [flc.tables] the [editingInfo]
    of its properties.  Any of the reads may raise. *)
Record FeatureCollection := {
  fc_editing : result (option EditingInfo);
  fc_layers : result (list (result (option EditingInfo)));
  fc_tables : result (list (result (option EditingInfo)))
}.

(** The loop over layers (or tables): the edit dates found; a layer whose
    properties raise is skipped by the bare [except]. *)
Definition edit_dates (layers : list (result (option EditingInfo))) : list PyVal :=
  omap (fun layer =>
          match layer with
          | Return (Some info) => last_edit_date info
          | _ => None
          end) layers.

(** The integer that a number stands for in a comparison. *)
Definition as_number (v : PyVal) : option Z :=
  match v with
  | VInt z => Some z
  | VBool b => Some (if b then 1 else 0)%Z
  | _ => None
  end.

Definition date_gt (a b : Z * Z * Z) : bool :=
  let '(y1, m1, d1) := a in
  let '(y2, m2, d2) := b in
  (y2 <? y1)%Z || ((y2 =? y1)%Z && ((m2 <? m1)%Z || ((m2 =? m1)%Z && (d2 <? d1)%Z))).

(** [a > b] *)
Definition py_gt (a b : PyVal) : result bool :=
  match a, b with
  | VStr s, VStr t => Return (String.ltb t s)
  | VDate y1 m1 d1, VDate y2 m2 d2 => Return (date_gt (y1, m1, d1) (y2, m2, d2))
  | VNaN, VNaN => Return false
  | VNaN, _ => match as_number b with Some _ => Return false | None => Raise TypeError end
  | _, VNaN => match as_number a with Some _ => Return false | None => Raise TypeError end
  | _, _ =>
      match as_number a, as_number b with
      | Some x, Some y => Return (y <? x)%Z
      | _, _ => Raise TypeError
      end
  end.

(** [max(values)] on a list that is not empty: the first of the greatest
    values, found by comparing each value with the greatest so far. *)
Fixpoint max_from (best : PyVal) (rest : list PyVal) : result PyVal :=
  match rest with
  | [] => Return best
  | v :: rest' =>
      rbind (py_gt v best) (fun greater =>
      max_from (if greater then v else best) rest')
  end.

Definition py_max (values : list PyVal) : result PyVal :=
  match values with
  | [] => Raise ValueError
  | v :: rest => max_from v rest
  end.

Definition feature_item_types : list string :=
  ["Feature Service"; "Feature Layer"; "Feature Layer Collection"; "Table"].

(** The branch for feature services, inside its [try]: [Return (Some d)]
    when it returns [d], [Return None] when it falls through to the
    item's own timestamp. *)
Definition service_edit_date (c : Timestamps.Clock) (flc : result FeatureCollection)
  : result (option PyVal) :=
  rbind flc (fun flc =>
  rbind (fc_editing flc) (fun editing_info =>
  match editing_info ≫= last_edit_date with
  | Some last_edit_ts =>
      rbind (Timestamps.convert_timestamp_to_date c last_edit_ts) (fun d =>
      Return (Some d))
  | None =>
      rbind (fc_layers flc) (fun layers =>
      rbind (fc_tables flc) (fun tables =>
      match edit_dates layers ++ edit_dates tables with
      | [] => Return None
      | all_edit_dates =>
          rbind (py_max all_edit_dates) (fun latest =>
          rbind (Timestamps.convert_timestamp_to_date c latest) (fun d =>
          Return (Some d)))
      end))
  end)).

(** [modified_ts = safe_get(item, 'modified', None)] and, if it is truthy,
    its conversion. *)
Definition modified_date (c : Timestamps.Clock) (item : Obj) : result PyVal :=
  let modified_ts := safe_get item "modified" (DVal VNone) in
  if bool_of_data modified_ts then convert_timestamp c modified_ts
  else Return VNone.

(** [get_item_last_data_update(item)]; [flc] is what
    [FeatureLayerCollection.fromitem(item)] gives or raises when the
    function calls it. *)
Definition get_item_last_data_update (c : Timestamps.Clock) (item : Obj)
    (flc : result FeatureCollection) : result PyVal :=
  match
    (let item_type := safe_get item "type" (DVal (VStr "")) in
     let from_service :=
       if existsb (fun t => is_str t item_type) feature_item_types
       then or_else (service_edit_date c flc) None
       else Return None in
     rbind from_service (fun found =>
     match found with
     | Some d => Return d
     | None => modified_date c item
     end))
  with
  | Return d => Return d
  | Raise _ => or_else (modified_date c item) VNone
  end.

(** ** Users and memberships *)

(** An entry of [user_info_dict], as the user cell builds it: always the
    six keys [email], [last_login], [org_id], [created], [categories] (a
    list) and [full_name].  The attributes are scalars. *)
Record UserInfo := {
  ui_email : PyVal;
  ui_last_login : PyVal;
  ui_org_id : PyVal;
  ui_created : PyVal;
  ui_categories : list PyData;
  ui_full_name : PyVal
}.

(** [a == b] on scalars: numbers compare by value (with [True] as 1), NaN
    is equal to nothing. *)
Definition py_eq (a b : PyVal) : bool :=
  match a, b with
  | VNone, VNone => true
  | VStr s, VStr t => String.eqb s t
  | VDate y1 m1 d1, VDate y2 m2 d2 => (y1 =? y2)%Z && (m1 =? m2)%Z && (d1 =? d2)%Z
  | _, _ =>
      match as_number a, as_number b with
      | Some x, Some y => (x =? y)%Z
      | _, _ => false
      end
  end.

(** [get_user_full_name(username, user_info_dict)] *)
Definition get_user_full_name (username : string)
    (user_info_dict : gmap string UserInfo) : result PyVal :=
  or_else
    (match user_info_dict !! username with
     | Some info =>
         let full_name := ui_full_name info in
         if bool_of_val full_name && negb (py_eq full_name (VStr username))
         then Return full_name
         else Return (VStr username)
     | None => Return (VStr username)
     end)
    (VStr username).

Definition RECENT_DAYS_THRESHOLD : Z := 90.

(** [days is not None and days <= RECENT_DAYS_THRESHOLD] *)
Definition within_threshold (days : PyVal) : bool :=
  match days with
  | VInt n => (n <=? RECENT_DAYS_THRESHOLD)%Z
  | _ => false
  end.

(** One turn of the member loop of the snapshot cell: the counters
    [active_members] and [external_member_count] after [username]. *)
Definition count_member (c : Timestamps.Clock) (org_id : PyVal)
    (user_info_dict : gmap string UserInfo) (counters : nat * nat)
    (username : string) : result (nat * nat) :=
  let '(active_members, external_member_count) := counters in
  match user_info_dict !! username with
  | Some user_info =>
      let last_login := ui_last_login user_info in
      rbind (if bool_of_val last_login
             then rbind (Timestamps.days_since c last_login) (fun days_inactive =>
                  Return (within_threshold days_inactive))
             else Return false) (fun active =>
      let user_org := ui_org_id user_info in
      let external :=
        bool_of_val user_org && bool_of_val org_id && negb (py_eq user_org org_id) in
      Return (if active then S active_members else active_members,
              if external then S external_member_count else external_member_count))
  | None => Return (active_members, S external_member_count)
  end.

(** The member loop of the snapshot cell over [all_member_usernames]. *)
Fixpoint count_members (c : Timestamps.Clock) (org_id : PyVal)
    (user_info_dict : gmap string UserInfo) (counters : nat * nat)
    (usernames : list string) : result (nat * nat) :=
  match usernames with
  | [] => Return counters
  | username :: rest =>
      rbind (count_member c org_id user_info_dict counters username) (fun counters' =>
      count_members c org_id user_info_dict counters' rest)
  end.

(** [sep.join(values)]: every value has to be a string. *)
Definition py_join (sep : string) (values : list PyData) : result string :=
  rbind (map_result (fun d => match d with
                              | DVal (VStr s) => Return s
                              | _ => Raise TypeError
                              end) values)
        (fun strings => Return (String.concat sep strings)).

(** Day number since 1970-01-01 of a proleptic Gregorian date. *)
Definition days_from_civil (y m d : Z) : Z :=
  let y' := (if m <=? 2 then y - 1 else y)%Z in
  let era := (y' / 400)%Z in
  let yoe := (y' - era * 400)%Z in
  let mp := ((m + 9) mod 12)%Z in
  let doy := ((153 * mp + 2) / 5 + d - 1)%Z in
  let doe := (yoe * 365 + yoe / 4 - yoe / 100 + doy)%Z in
  (era * 146097 + doe - 719468)%Z.

(** [(datetime.date.today() - day).days] *)
Definition days_until_today (c : Timestamps.Clock) (day : PyVal) : result Z :=
  match Timestamps.date (Timestamps.now c), day with
  | VDate y1 m1 d1, VDate y2 m2 d2 =>
      Return (days_from_civil y1 m1 d1 - days_from_civil y2 m2 d2)%Z
  | _, _ => Raise TypeError
  end.

Definition member_columns : list string :=
  ["user_name"; "user_email"; "user_last_login"; "user_org_id"; "user_created";
   "group_id"; "user_categories"; "user_membership_type"; "days_since_login";
   "is_active"].

(** The record that the members cell builds for one user of one group. *)
Definition member_record (c : Timestamps.Clock) (org_id : PyVal)
    (user_info_dict : gmap string UserInfo) (group_id : PyVal) (username : string)
  : result (gmap string PyVal) :=
  let user_info := user_info_dict !! username in
  rbind (get_user_full_name username user_info_dict) (fun user_fullname =>
  rbind (Timestamps.convert_timestamp_to_date c
           (default VNone (ui_last_login <$> user_info))) (fun user_last_login =>
  rbind (Timestamps.convert_timestamp_to_date c
           (default VNone (ui_created <$> user_info))) (fun user_created =>
  rbind (py_join ", " (default [] (ui_categories <$> user_info))) (fun categories =>
  let user_org := default (VStr "") (ui_org_id <$> user_info) in
  let membership :=
    if bool_of_val user_org && bool_of_val org_id && py_eq user_org org_id
    then "Internal" else "External" in
  rbind (if bool_of_val user_last_login
         then rbind (days_until_today c user_last_login) (fun n => Return (VInt n))
         else Return VNone) (fun days_since_login =>
  Return
    (<["user_name" := user_fullname]>
    (<["user_email" := default (VStr "") (ui_email <$> user_info)]>
    (<["user_last_login" := user_last_login]>
    (<["user_org_id" := user_org]>
    (<["user_created" := user_created]>
    (<["group_id" := group_id]>
    (<["user_categories" := VStr (truncate_string (VStr categories) 256 true)]>
    (<["user_membership_type" := VStr membership]>
    (<["days_since_login" := days_since_login]>
    (<["is_active" := VBool (within_threshold days_since_login)]>
       ∅))))))))))))))).

(** The inner loop of the members cell: one record per user; a user whose
    record raises is skipped. *)
Fixpoint member_records (c : Timestamps.Clock) (org_id : PyVal)
    (user_info_dict : gmap string UserInfo) (group_id : PyVal)
    (usernames : list string) : list (gmap string PyVal) :=
  match usernames with
  | [] => []
  | username :: rest =>
      match member_record c org_id user_info_dict group_id username with
      | Return record =>
          record :: member_records c org_id user_info_dict group_id rest
      | Raise _ => member_records c org_id user_info_dict group_id rest
      end
  end.

(** ** Output folder *)

(** What a folder request gives: a result, or an exception with its
    message. *)
Inductive Outcome (A : Type) :=
| Ok (a : A)
| Error (message : string).
Arguments Ok {A} a.
Arguments Error {A} message.

(** The answers of the portal to the folder requests:
    [gis.content.folders.get(folder=...)] (whether a folder came back),
    [gis.users.me.folders] and [gis.content.folders.create(...)].  The
    answer to the legacy [gis.content.create_folder(...)] has no part:
    the name is returned whether it succeeds or raises. *)
Record FolderService := {
  fs_get : Outcome bool;
  fs_user_folders : Outcome (list FolderArg);
  fs_create : Outcome unit
}.

Inductive FolderRequest :=
| RequestGet
| RequestUserFolders
| RequestCreate
| RequestCreateLegacy.

(** [get_or_create_folder(gis, folder_name)]: the name returned, and the
    requests made. *)
Definition get_or_create_folder (gis : FolderService) (folder_name : string)
  : string * list FolderRequest :=
  let found_by_get :=
    match fs_get gis with Ok true => true | _ => false end in
  if found_by_get then (folder_name, [RequestGet])
  else
    let found_in_list :=
      match fs_user_folders gis with
      | Ok user_folders =>
          existsb (fun folder =>
                     bool_decide (get_folder_name folder = Some folder_name))
                  user_folders
      | Error _ => false
      end in
    if found_in_list then (folder_name, [RequestGet; RequestUserFolders])
    else
      match fs_create gis with
      | Ok _ => (folder_name, [RequestGet; RequestUserFolders; RequestCreate])
      | Error create_error =>
          let error_msg := PyStr.lower create_error in
          if contains "not available" error_msg || contains "already exists" error_msg
          then (folder_name, [RequestGet; RequestUserFolders; RequestCreate])
          else
            (folder_name,
             [RequestGet; RequestUserFolders; RequestCreate; RequestCreateLegacy])
      end.

(** ** Observations on the helpers *)

(** An integer number of milliseconds whose seconds, as a double, are
    within [-2^63, 2^63]: the doubles next to [2^63] are 2048 apart, so
    the quotient by 1000 rounds to at most [2^63] up to
    [(2^63 + 1024) * 1000]. *)
Definition fits_time_t (v : PyVal) : Prop :=
  forall z, v = VInt z -> (Z.abs z <= (2 ^ 63 + 1024) * 1000)%Z.

(** [None] or a date. *)
Definition none_or_date (v : PyVal) : Prop :=
  v = VNone \/ exists y m d, v = VDate y m d.

(** ** Observations on the batch fallback and the sink *)

(** [inserts lr batch w w']: from [w] to [w'] the layer has gained rows of
    [batch], each at most once and in the order of [batch]. *)
Definition inserts (lr : LayerRef) (batch : list (gmap string PyVal))
    (w w' : World) : Prop :=
  exists added, added `sublist_of` batch
                /\ layer_rows w' lr = layer_rows w lr ++ added.

(** No attribute of an insert request holds NaN. *)
Definition sends_no_nan (e : Event) : Prop :=
  forall lr adds r attributes name,
    e = Sink (EditFeatures lr adds) r -> attributes ∈ adds ->
    attributes !! name <> Some VNaN.

(** [answers t]: every reply of the tape [t] is a normal result: no request
    raises and none comes back empty. *)
Definition answers (t : list Reply) : Prop :=
  Forall (fun r => r <> Failed /\ r <> Nothing) t.

(** The first [max_items] hits of a query. *)
Definition search_results (w : World) (query : string) (max_items : nat) : list Item :=
  take max_items (List.filter (search_hit w query) (catalog w)).

(** [visible name w it]: one of the three lookups of [find_existing_table]
    can see the item [it] titled [name]: it is the current user's and among
    the first 100 hits of the quoted or of the unquoted query, or it is a
    feature service among the first 1000 items of the user's root
    folder. *)
Definition visible (name : string) (w : World) (it : Item) : Prop :=
  item_title it = name
  /\ ((item_owner it = current_user w
       /\ (it ∈ search_results w (quoted_query name (current_user w)) 100
           \/ it ∈ search_results w (unquoted_query name (current_user w)) 100))
      \/ (item_type it = "Feature Service" /\ it ∈ take 1000 (root_items w))).


(** The console is as it was. *)
Definition same_console : relation World := fun w w' => stdin w' = stdin w.

(** The requests and pauses of an update attempt. *)
Definition update_event (e : Event) : Prop :=
  match e with
  | Sink (FromItem _) _ | Sink (DeleteFeatures _ _) _
  | Sink (ContentSearch _ _) _ | Sink (FoldersGet _) _
  | Sink (FolderAdd _ _ _) _ | Sink (ContentAdd _ _ _) _
  | Sink (ItemUpdateData _ _) _
  | Sink (Append _ _) _ | Sink (EditFeatures _ _) _
  | Sleep _ => True
  | _ => False
  end.

(** [contained title w w']: the console, the query engine and the current
    user are the same, and the portal has gained at most items titled as
    the staging artifact of [title]. *)
Definition contained (title : string) (w w' : World) : Prop :=
  stdin w' = stdin w /\ extends title w w'.

(** The item that the sink mints for the [n]-th registration after [w]. *)
Definition minted (w : World) (n : N) (title type : string) : Item :=
  {| item_id := next_id w + n; item_title := title;
     item_owner := current_user w; item_type := type |}.

(** The hosted table that the sink publishes from a CSV. *)
Definition published_table (df : DataFrame) : Service :=
  {| svc_tables := [ {| fields := inferred_fields df; features := records df |} ];
     svc_layers := [] |}.






(** ** Observations on groups, items and members *)

(** The tags make a match: they are a list of strings one of which is, in
    lower case, one of the indicators. *)
Definition tags_match (indicators : list string) (group : Obj) : Prop :=
  exists tags,
    safe_get group "tags" (DList []) = DList (map (fun s => DVal (VStr s)) tags)
    /\ exists tag, tag ∈ tags /\ PyStr.lower tag ∈ indicators.

(** The owner is an Esri system account: in lower case, the name [esri],
    or a name that starts with [esri_] and holds no [@]. *)
Definition esri_system_account (owner : string) : Prop :=
  PyStr.lower owner = "esri"
  \/ (String.prefix "esri_" (PyStr.lower owner) = true
      /\ contains "@" (PyStr.lower owner) = false).

(** The item is of one of the feature types and its collection can be
    read. *)
Definition readable_feature_item (item : Obj) (flc : result FeatureCollection)
    (fc : FeatureCollection) : Prop :=
  existsb (fun t => is_str t (safe_get item "type" (DVal (VStr ""))))
          feature_item_types = true
  /\ flc = Return fc.

(** The number of records labelled [External]. *)
Definition external_records (records : list (gmap string PyVal)) : nat :=
  length (List.filter
            (fun r => bool_decide (r !! "user_membership_type" = Some (VStr "External")))
            records).

(** The number of records flagged [is_active]. *)
Definition active_records (records : list (gmap string PyVal)) : nat :=
  length (List.filter
            (fun r => bool_decide (r !! "is_active" = Some (VBool true))) records).

(** The notebook runs more than 90 days after the epoch: the local time
    now is at least 91 days past the local time of the epoch. *)
Definition long_after_the_epoch (c : Timestamps.Clock) : Prop :=
  (91 * 86400
   <= Timestamps.local_seconds c (Timestamps.now_us c / 1000000)
      - Timestamps.local_seconds c 0)%Z.

(** One of the two lookups finds the folder. *)
Definition folder_found (gis : FolderService) (folder_name : string) : Prop :=
  fs_get gis = Ok true
  \/ exists user_folders folder,
       fs_user_folders gis = Ok user_folders
       /\ folder ∈ user_folders /\ get_folder_name folder = Some folder_name.

(** ** Further samples *)

Module Fresh.

(** A portal on which the analyst owns nothing yet and every request
    succeeds. *)
Definition portal : World :=
  {| catalog := [];
     search_hit := fun _ _ => true;
     services := ∅;
     item_data := ∅;
     local_files := ∅;
     next_id := 1;
     tape := [];
     stdin := [];
     current_user := "analyst";
     item_folder := ∅ |}.

(** The sample dataset as the CSV writers prepare it. *)
Definition prepared : DataFrame :=
  {| columns := Sample.cols;
     records := map_cells fillna_empty Sample.cols (records Sample.new_df) |}.

End Fresh.

Module Unindexed.

(** The sample portal with a query engine that finds nothing: the table is
    in the root folder, its source CSV in the folder of the analytics. *)
Definition portal : World :=
  {| catalog := [Sample.table; Sample.source_csv];
     search_hit := fun _ _ => false;
     services := services (Sample.portal [] []);
     item_data := item_data (Sample.portal [] []);
     local_files := ∅;
     next_id := 3;
     tape := [];
     stdin := [];
     current_user := "analyst";
     item_folder := {[ 2%N := "Analytics" ]} |}.


End Unindexed.

Module Roster.

Definition clock : Timestamps.Clock :=
  {| Timestamps.utc_offset := fun _ => 3600%Z;
     Timestamps.now_us := 1700000000000000 |}.

Definition ana : UserInfo :=
  {| ui_email := VStr "ana@example.org";
     ui_last_login := VInt 1699000000000;
     ui_org_id := VStr "org1";
     ui_created := VInt 1500000000000;
     ui_categories := [DVal (VStr "/Categories/Staff")];
     ui_full_name := VStr "Ana Ruiz" |}.

Definition users : gmap string UserInfo := {[ "ana" := ana ]}.

(** A group with one known member and one member of another
    organization. *)
Definition members : list string := ["ana"; "guest"].

(** A hosted table whose service reports its last edit. *)
Definition item : Obj :=
  {| obj_attrs := {[ "type" := Held (DVal (VStr "Feature Service")) ]};
     obj_entries := None |}.

Definition collection : FeatureCollection :=
  {| fc_editing :=
       Return (Some {| ei_attribute := Some (VInt 1600000000000);
                       ei_entry := None |});
     fc_layers := Return [];
     fc_tables := Return [] |}.

End Roster.

(** * Properties *)

(** Case analysis on the condition of the first [if] of the goal. *)
Ltac case_if :=
  match goal with
  | |- context [if ?b then _ else _] => destruct b eqn:?
  end.

(** ** Strings *)

Section PyStrFacts.
Import PyStr.

Lemma str_length_take n s : String.length (take n s) = Nat.min n (String.length s).
Proof.
  revert s; induction n as [|n IH]; intros [|c s]; simpl; auto.
Qed.

Lemma str_take_all n s : (String.length s <= n)%nat -> take n s = s.
Proof.
  revert s; induction n as [|n IH]; intros [|c s]; simpl; intros H;
    try reflexivity; try lia.
  f_equal. apply IH. lia.
Qed.

Lemma str_length_app (a b : string) :
  String.length (a +:+ b) = (String.length a + String.length b)%nat.
Proof. induction a as [|c a IH]; simpl; auto. Qed.

Lemma str_drop_app_length (a b : string) : drop (String.length a) (a +:+ b) = b.
Proof. induction a as [|c a IH]; simpl; auto. Qed.

Lemma endswith_app (a suffix : string) : endswith (a +:+ suffix) suffix = true.
Proof.
  unfold endswith. rewrite str_length_app.
  replace (String.length a + String.length suffix - String.length suffix)%nat
    with (String.length a) by lia.
  rewrite str_drop_app_length, String.eqb_refl, andb_true_r.
  apply Nat.leb_le. lia.
Qed.

Lemma len_slice_to s k :
  (0 <= k)%Z -> (len (slice_to s k) <= k)%Z.
Proof.
  intros Hk. unfold slice_to, len.
  destruct (0 <=? k)%Z eqn:E; [|apply Z.leb_gt in E; lia].
  rewrite str_length_take. lia.
Qed.

End PyStrFacts.

(** ** Field sanitizer (C3) *)

Lemma truncate_string_short (s : string) (n : Z) (e : bool) :
  (PyStr.len s <= n)%Z -> truncate_string (VStr s) n e = s.
Proof.
  intros H. unfold truncate_string; simpl.
  destruct (PyStr.len s <=? n)%Z eqn:E; [reflexivity|].
  apply Z.leb_gt in E. lia.
Qed.

Lemma truncate_string_long (s : string) (n : Z) :
  (3 < n)%Z -> (n < PyStr.len s)%Z ->
  truncate_string (VStr s) n true
  = PyStr.take (Z.to_nat (n - 3)) s +:+ "...".
Proof.
  intros H3 Hn. unfold truncate_string; simpl.
  destruct (PyStr.len s <=? n)%Z eqn:E; [apply Z.leb_le in E; lia|].
  destruct (3 <? n)%Z eqn:E3; [|apply Z.ltb_ge in E3; lia].
  unfold PyStr.slice_to.
  destruct (0 <=? n - 3)%Z eqn:E0; [reflexivity|apply Z.leb_gt in E0; lia].
Qed.

(** C3, counterexample: a string that already ends with the marker and fits
    the limit comes back unchanged, so the result ends with the marker
    although the string is not longer than the limit. *)
Lemma truncate_string_marker_counterexample :
  PyStr.endswith (truncate_string (VStr "wait...") 10 true) "..." = true
  /\ ~ (10 < PyStr.len "wait...")%Z.
Proof. split; [reflexivity|]. vm_compute. discriminate. Qed.

(** C3, amended: for every string [s] and limit [n > 3] the result of
    [truncate_string(s, n)] has length at most [n], and it ends with the
    marker "..." if and only if [s] is longer than [n] or [s] itself
    already ends with the marker. *)
Theorem truncate_string_bound_and_marker (s : string) (n : Z) :
  (3 < n)%Z ->
  (PyStr.len (truncate_string (VStr s) n true) <= n)%Z
  /\ (PyStr.endswith (truncate_string (VStr s) n true) "..." = true
      <-> ((n < PyStr.len s)%Z \/ PyStr.endswith s "..." = true)).
Proof.
  intros H3.
  destruct (Z_le_gt_dec (PyStr.len s) n) as [Hle|Hgt].
  - rewrite truncate_string_short by assumption. split; [assumption|].
    split; [auto|]. intros [Hn|He]; [lia|assumption].
  - rewrite truncate_string_long by lia. split.
    + unfold PyStr.len in *. rewrite str_length_app, str_length_take. simpl. lia.
    + rewrite endswith_app. split; [intros _; left; lia|reflexivity].
Qed.

Lemma truncate_string_bound_and_marker_witness :
  (PyStr.len (truncate_string (VStr "Regional planning partners") 10 true) <= 10)%Z
  /\ (PyStr.endswith (truncate_string (VStr "Regional planning partners") 10 true) "..."
      = true
      <-> ((10 < PyStr.len "Regional planning partners")%Z
           \/ PyStr.endswith "Regional planning partners" "..." = true)).
Proof. apply (truncate_string_bound_and_marker "Regional planning partners" 10). lia. Defined.

(** ** Timestamp helpers (C9) *)

Section TimestampFacts.
Import Timestamps.

Lemma convert_timestamp_missing (c : Clock) :
  convert_timestamp_to_date c VNone = Return VNone
  /\ convert_timestamp_to_date c (VInt (-1)) = Return VNone
  /\ days_since c VNone = Return VNone
  /\ days_since c (VInt (-1)) = Return VNone.
Proof. repeat split. Qed.

Lemma tame_rbind {A B} (r : result A) (k : A -> result B) :
  tame r -> (forall a, tame (k a)) -> tame (rbind r k).
Proof. destruct r; simpl; auto. Qed.

Lemma tame_div_1000 (v : PyVal) : tame (div_1000 v).
Proof.
  destruct v; cbn [div_1000 tame]; auto; try (right; set_solver).
  destruct (float_overflows z); cbn [tame]; auto.
Qed.

Lemma tame_localtime (c : Clock) (t : Z) : tame (localtime c t).
Proof. unfold localtime. case_if; [right; set_solver|exact I]. Qed.

Lemma tame_local (c : Clock) (t : Z) : tame (local c t).
Proof.
  unfold local. apply tame_rbind; [apply tame_localtime|intros s].
  case_if; [right; set_solver|exact I].
Qed.

Lemma tame_fromtimestamp (c : Clock) (t : PyFloat) : tame (fromtimestamp c t).
Proof.
  destruct t as [|m e]; unfold fromtimestamp.
  - right; set_solver.
  - destruct (to_timeval m e) as [intpart us].
    case_if; [left; reflexivity|].
    apply tame_rbind; [apply tame_local|intros result_seconds].
    apply tame_rbind; [apply tame_local|intros probe_seconds].
    apply tame_rbind; [|intros _; exact I].
    case_if; [|exact I].
    apply tame_rbind; [apply tame_local|intros _; exact I].
Qed.

Lemma try_except_tame {A} (body : result A) (a : A) :
  tame body ->
  (exists r, try_except body conversion_errors (Return a) = Return r)
  \/ try_except body conversion_errors (Return a) = Raise OverflowError.
Proof.
  destruct body as [x|e]; simpl; [eauto|].
  intros [->|He]; [right; reflexivity|].
  left. exists a. rewrite bool_decide_eq_true_2 by assumption. reflexivity.
Qed.

(** Whatever the input, the only exception that leaves the two helpers is
    OverflowError. *)
Lemma conversion_outcomes (c : Clock) (v : PyVal) :
  ((exists r, convert_timestamp_to_date c v = Return r)
   \/ convert_timestamp_to_date c v = Raise OverflowError)
  /\ ((exists r, days_since c v = Return r)
      \/ days_since c v = Raise OverflowError).
Proof.
  split.
  - unfold convert_timestamp_to_date.
    destruct v; try (left; eexists; reflexivity);
      (destruct (is_minus_one _); [left; eexists; reflexivity|]);
      apply try_except_tame;
      (apply tame_rbind; [apply tame_div_1000|intros t]);
      (apply tame_rbind; [apply tame_fromtimestamp|intros dt; exact I]).
  - unfold days_since.
    destruct v; try (left; eexists; reflexivity);
      (destruct (is_minus_one _); [left; eexists; reflexivity|]);
      apply try_except_tame;
      (apply tame_rbind; [apply tame_div_1000|intros t]);
      (apply tame_rbind; [apply tame_fromtimestamp|intros dt; exact I]).
Qed.

(** C9: an integer timestamp beyond the range of the platform's [time_t]
    (here 10^22 ms), or too large for a float (here 10^400 ms), makes both
    helpers raise OverflowError, which their [except] clause does not
    list. *)
Theorem timestamp_overflow_escapes (c : Clock) :
  convert_timestamp_to_date c (VInt (10 ^ 22)) = Raise OverflowError
  /\ days_since c (VInt (10 ^ 22)) = Raise OverflowError
  /\ convert_timestamp_to_date c (VInt (10 ^ 400)) = Raise OverflowError
  /\ days_since c (VInt (10 ^ 400)) = Raise OverflowError.
Proof. repeat split; vm_compute; reflexivity. Qed.

End TimestampFacts.

(** ** Reasoning about runs *)

Section Keeps.
Context (R : relation World) `{!PreOrder R} (P : Event -> Prop).

Local Abbreviation keeps := (keeps R P).

Lemma keeps_ret {A} (a : A) : keeps (ret a).
Proof. intros w; split; [reflexivity|constructor]. Qed.

Lemma keeps_raise {A} (e : exn) : keeps (@raise A e).
Proof. intros w; split; [reflexivity|constructor]. Qed.

Lemma keeps_lift {A} (r : result A) : keeps (lift r).
Proof. intros w; split; [reflexivity|constructor]. Qed.

Lemma keeps_get : keeps get.
Proof. intros w; split; [reflexivity|constructor]. Qed.

Lemma keeps_bind {A B} (m : M A) (k : A -> M B) :
  keeps m -> (forall a, keeps (k a)) -> keeps (bind m k).
Proof.
  intros Hm Hk w. unfold bind.
  destruct (Hm w) as [HR HP]. destruct (m w) as [[[a|e] w1] ev1]; simpl in *.
  - destruct (Hk a w1) as [HR2 HP2]. destruct (k a w1) as [[r2 w2] ev2]; simpl in *.
    split; [etransitivity; eassumption|apply Forall_app; auto].
  - auto.
Qed.

Lemma keeps_try_catch {A} (body : M A) (handler : exn -> M A) :
  keeps body -> (forall e, keeps (handler e)) -> keeps (try_catch body handler).
Proof.
  intros Hm Hk w. unfold try_catch.
  destruct (Hm w) as [HR HP]. destruct (body w) as [[[a|e] w1] ev1]; simpl in *.
  - auto.
  - destruct (Hk e w1) as [HR2 HP2]. destruct (handler e w1) as [[r2 w2] ev2]; simpl in *.
    split; [etransitivity; eassumption|apply Forall_app; auto].
Qed.

Lemma keeps_modify (f : World -> World) :
  (forall w, R w (f w)) -> keeps (modify f).
Proof. intros H w; split; [apply H|constructor]. Qed.

Lemma keeps_emit (e : Event) : P e -> keeps (emit e).
Proof. intros H w; split; [reflexivity|repeat constructor; exact H]. Qed.

Lemma keeps_sink (c : Call) :
  (forall w t, R w (set_tape t w)) -> (forall r, P (Sink c r)) -> keeps (sink c).
Proof. intros HR HP w; split; [apply HR|repeat constructor; apply HP]. Qed.

End Keeps.

(** One step of a [keeps] proof: a rule of the monad, or a case analysis on
    the value the code branches on. *)
Ltac keeps_step :=
  match goal with
  | |- keeps _ _ (ret _) => apply keeps_ret
  | |- keeps _ _ (raise _) => apply keeps_raise
  | |- keeps _ _ (lift _) => apply keeps_lift
  | |- keeps _ _ get => apply keeps_get
  | |- keeps _ _ (bind _ _) =>
      apply keeps_bind; [typeclasses eauto|try assumption|intros ?]
  | |- keeps _ _ (try_catch _ _) =>
      apply keeps_try_catch; [typeclasses eauto|try assumption|intros ?]
  | |- keeps _ _ (match ?x with _ => _ end) => destruct x
  end.

(** *** Footprints

    What each function may do to the world and which requests it may send,
    stated once for an arbitrary relation [R] and event class [P] that
    allow the function's own steps. *)

Section Footprint.
Context (R : relation World) `{!PreOrder R} (P : Event -> Prop) (T : string).

Hypothesis R_tape : forall w t, R w (set_tape t w).
Hypothesis R_files : forall w f, R w (set_local_files f w).
Hypothesis R_data : forall w d, R w (set_item_data d w).
Hypothesis R_services : forall w s, R w (set_services s w).
Hypothesis R_mint : forall w it folder,
  item_title it = T +:+ "_source" -> R w (register it folder w).

Hypothesis P_search : forall q n r, P (Sink (ContentSearch q n) r).
Hypothesis P_items : forall n r, P (Sink (UserItems n) r).
Hypothesis P_folders_get : forall f r, P (Sink (FoldersGet f) r).
Hypothesis P_folder_add : forall f t p r, P (Sink (FolderAdd f t p) r).
Hypothesis P_content_add : forall t p f r, P (Sink (ContentAdd t p f) r).
Hypothesis P_update_data : forall i p r, P (Sink (ItemUpdateData i p) r).
Hypothesis P_fromitem : forall i r, P (Sink (FromItem i) r).
Hypothesis P_delete_features : forall l q r, P (Sink (DeleteFeatures l q) r).
Hypothesis P_append : forall l i r, P (Sink (Append l i) r).
Hypothesis P_edit : forall l a r, P (Sink (EditFeatures l a) r).
Hypothesis P_sleep : forall ms, P (Sleep ms).

Ltac footprint :=
  repeat first
    [ keeps_step
    | apply keeps_sink; [assumption|solve [auto]]
    | apply keeps_modify; solve [auto]
    | apply keeps_emit; solve [auto]
    | assumption ].

Lemma content_search_keeps q n : keeps R P (content_search q n).
Proof. unfold content_search. footprint. Qed.

Lemma users_me_items_keeps n : keeps R P (users_me_items n).
Proof. unfold users_me_items. footprint. Qed.

Lemma find_existing_table_keeps name : keeps R P (find_existing_table name).
Proof.
  pose proof content_search_keeps. pose proof users_me_items_keeps.
  unfold find_existing_table. footprint; auto.
Qed.

Lemma find_source_csv_item_keeps name : keeps R P (find_source_csv_item name).
Proof.
  pose proof content_search_keeps.
  unfold find_source_csv_item. footprint; auto.
Qed.

Lemma upload_keeps id path : keeps R P (upload id path).
Proof. unfold upload. footprint. Qed.

Lemma to_csv_keeps df path : keeps R P (to_csv df path).
Proof. unfold to_csv. footprint. Qed.

Lemma remove_if_exists_keeps path : keeps R P (remove_if_exists path).
Proof. unfold remove_if_exists. footprint. Qed.

Lemma mint_item_keeps type folder :
  keeps R P (mint_item (T +:+ "_source") type folder).
Proof.
  unfold mint_item. footprint.
Qed.

Lemma folders_get_keeps f : keeps R P (folders_get f).
Proof. unfold folders_get. footprint. Qed.

Lemma folder_add_keeps f path : keeps R P (folder_add f (T +:+ "_source") path).
Proof.
  pose proof mint_item_keeps. pose proof upload_keeps.
  unfold folder_add. footprint; auto.
Qed.

Lemma content_add_keeps path f : keeps R P (content_add (T +:+ "_source") path f).
Proof.
  pose proof mint_item_keeps. pose proof upload_keeps.
  unfold content_add. footprint; auto.
Qed.

Lemma item_update_data_keeps it path : keeps R P (item_update_data it path).
Proof. pose proof upload_keeps. unfold item_update_data. footprint; auto. Qed.

Lemma update_source_csv_item_keeps it df folder :
  keeps R P (update_source_csv_item it df folder).
Proof.
  pose proof item_update_data_keeps. pose proof to_csv_keeps.
  pose proof remove_if_exists_keeps.
  unfold update_source_csv_item. footprint; auto.
Qed.

Lemma create_source_csv_item_keeps df folder :
  keeps R P (create_source_csv_item T df folder).
Proof.
  pose proof folders_get_keeps. pose proof folder_add_keeps.
  pose proof content_add_keeps. pose proof to_csv_keeps.
  pose proof remove_if_exists_keeps.
  unfold create_source_csv_item. footprint; auto.
Qed.

Lemma set_layer_keeps lr l w : R w (set_layer lr l w).
Proof. unfold set_layer. apply R_services. Qed.

Lemma edit_features_keeps lr adds : keeps R P (edit_features lr adds).
Proof.
  pose proof set_layer_keeps.
  unfold edit_features. footprint.
Qed.

Lemma sleep_keeps ms : keeps R P (sleep ms).
Proof. unfold sleep. footprint. Qed.

Lemma retry_singly_keeps lr batch total : keeps R P (retry_singly lr batch total).
Proof.
  pose proof edit_features_keeps. pose proof sleep_keeps.
  revert total; induction batch as [|x rest IH]; intros total; simpl.
  - footprint.
  - footprint; auto.
Qed.

Lemma insert_batch_keeps lr bs batch last total :
  keeps R P (insert_batch lr bs batch last total).
Proof.
  pose proof edit_features_keeps. pose proof sleep_keeps.
  pose proof retry_singly_keeps.
  unfold insert_batch. footprint; auto.
Qed.

Lemma insert_batches_keeps lr bs batches total :
  keeps R P (insert_batches lr bs batches total).
Proof.
  pose proof insert_batch_keeps.
  revert total; induction batches as [|b rest IH]; intros total; simpl.
  - footprint.
  - footprint; auto.
Qed.

Lemma add_features_in_batches_keeps lr df bs :
  keeps R P (add_features_in_batches lr df bs).
Proof.
  pose proof insert_batches_keeps.
  unfold add_features_in_batches. footprint; auto.
Qed.

Lemma fromitem_keeps it : keeps R P (fromitem it).
Proof. unfold fromitem. footprint. Qed.

Lemma delete_features_keeps lr q : keeps R P (delete_features lr q).
Proof. pose proof set_layer_keeps. unfold delete_features. footprint. Qed.

Lemma append_keeps lr csv : keeps R P (append lr csv).
Proof. pose proof set_layer_keeps. unfold append. footprint. Qed.

Lemma update_existing_table_keeps it df folder :
  item_title it = T ->
  keeps R P (update_existing_table it df folder).
Proof.
  intros HT.
  pose proof fromitem_keeps. pose proof delete_features_keeps.
  pose proof sleep_keeps. pose proof find_source_csv_item_keeps.
  pose proof update_source_csv_item_keeps.
  pose proof create_source_csv_item_keeps. pose proof append_keeps.
  pose proof add_features_in_batches_keeps.
  unfold update_existing_table. rewrite HT. footprint; auto.
Qed.

End Footprint.

(** *** Symbolic execution *)

Lemma sat_ret {A} (a : A) w Q : Q (Return a) w [] -> sat (ret a) w Q.
Proof. exact id. Qed.

Lemma sat_raise {A} e w (Q : result A -> _) : Q (Raise e) w [] -> sat (raise e) w Q.
Proof. exact id. Qed.

Lemma sat_lift {A} (r : result A) w Q : Q r w [] -> sat (lift r) w Q.
Proof. exact id. Qed.

Lemma sat_get w Q : Q (Return w) w [] -> sat get w Q.
Proof. exact id. Qed.

Lemma sat_modify f w Q : Q (Return tt) (f w) [] -> sat (modify f) w Q.
Proof. exact id. Qed.

Lemma sat_emit e w Q : Q (Return tt) w [e] -> sat (emit e) w Q.
Proof. exact id. Qed.

Lemma sat_sink c w Q :
  Q (Return (next_reply (tape w))) (set_tape (tail (tape w)) w)
    [Sink c (next_reply (tape w))] ->
  sat (sink c) w Q.
Proof. exact id. Qed.

Lemma sat_bind {A B} (m : M A) (k : A -> M B) w Q :
  sat m w (fun r1 w1 ev1 =>
             match r1 with
             | Return a => sat (k a) w1 (fun r w' ev2 => Q r w' (ev1 ++ ev2))
             | Raise e => Q (Raise e) w1 ev1
             end) ->
  sat (bind m k) w Q.
Proof.
  unfold sat, bind, outcome, final, events.
  destruct (m w) as [[[a|e] w1] ev1]; simpl; [|auto].
  destruct (k a w1) as [[r w2] ev2]; simpl. auto.
Qed.

Lemma sat_try_catch {A} (body : M A) (handler : exn -> M A) w Q :
  sat body w (fun r1 w1 ev1 =>
                match r1 with
                | Return a => Q (Return a) w1 ev1
                | Raise e => sat (handler e) w1 (fun r w' ev2 => Q r w' (ev1 ++ ev2))
                end) ->
  sat (try_catch body handler) w Q.
Proof.
  unfold sat, try_catch, outcome, final, events.
  destruct (body w) as [[[a|e] w1] ev1]; simpl; [auto|].
  destruct (handler e w1) as [[r w2] ev2]; simpl. auto.
Qed.

Lemma sat_mono {A} (m : M A) w (S Q : result A -> World -> list Event -> Prop) :
  sat m w S -> (forall r w' ev, S r w' ev -> Q r w' ev) -> sat m w Q.
Proof. unfold sat; auto. Qed.

(** A [try] whose handler returns a value never raises. *)
Lemma sat_try_total {A} (body : M A) (a : A) w Q :
  sat body w (fun r1 w1 ev1 =>
                match r1 with
                | Return x => Q (Return x) w1 ev1
                | Raise _ => Q (Return a) w1 ev1
                end) ->
  sat (try_catch body (fun _ => ret a)) w Q.
Proof.
  intros H. apply sat_try_catch. eapply sat_mono; [exact H|].
  intros [x|e] w1 ev1; simpl; [auto|]. intros HQ. unfold sat; simpl.
  rewrite app_nil_r. exact HQ.
Qed.

Lemma try_total_returns {A} (body : M A) (a : A) w :
  exists x, outcome (try_catch body (fun _ => ret a) w) = Return x.
Proof.
  unfold try_catch, outcome. destruct (body w) as [[[x|e] w1] ev1]; simpl; eauto.
Qed.

Create HintDb requests discriminated.
#[global] Hint Unfold content_search users_me_items fromitem delete_features
  append edit_features folders_get mint_item upload folder_add content_add
  item_update_data to_csv remove_if_exists sleep item_delete item_share
  analyze publish item_update_properties item_move : requests.

Ltac world_simpl :=
  cbn [app
       set_tape set_catalog set_services set_item_data set_local_files
       set_next_id set_stdin set_item_folder register
       catalog search_hit services item_data local_files next_id tape stdin
       current_user item_folder].

(** One step of symbolic execution: a rule of the monad, the unfolding of
    a request, or a case analysis on the value the code branches on. *)
Ltac sat_step :=
  lazymatch goal with
  | |- sat (bind _ _) _ _ => apply sat_bind
  | |- sat (try_catch _ _) _ _ => first [apply sat_try_total|apply sat_try_catch]
  | |- sat (ret _) _ _ => apply sat_ret
  | |- sat (raise _) _ _ => apply sat_raise
  | |- sat (lift _) _ _ => apply sat_lift
  | |- sat get _ _ => apply sat_get
  | |- sat (modify _) _ _ => apply sat_modify
  | |- sat (emit _) _ _ => apply sat_emit
  | |- sat (sink _) _ _ => apply sat_sink
  | |- sat (match ?x with _ => _ end) _ _ => destruct x eqn:?
  | |- sat _ _ _ => progress autounfold with requests
  | |- match ?x with _ => _ end => destruct x eqn:?
  end;
  world_simpl; rewrite ?lookup_insert_eq.

(** Uses the specification [lem] of the function at the head of the goal. *)
Ltac sat_use lem :=
  eapply sat_mono; [apply lem|cbv beta; intros ? ? ? ?].

#[global] Instance any_world_preorder : PreOrder any_world.
Proof. split; repeat intro; exact I. Qed.

Lemma Forall_existsb_false {A} (f : A -> bool) (l : list A) :
  Forall (fun x => f x = false) l <-> existsb f l = false.
Proof.
  induction l as [|x l IH]; simpl.
  - split; [reflexivity|constructor].
  - rewrite Forall_cons, IH, orb_false_iff. reflexivity.
Qed.

(** A function whose footprint avoids the events flagged by [f] logs none
    of them. *)
Lemma keeps_unflagged {A} (m : M A) (f : Event -> bool) w :
  keeps any_world (fun e => f e = false) m -> existsb f (events (m w)) = false.
Proof. intros H. apply Forall_existsb_false, H. Qed.

Ltac unflagged lem :=
  apply keeps_unflagged; apply lem;
  solve [exact _ | intros; exact I | intros; reflexivity].

(** ** The update attempt stops before the load (C6) *)

Lemma update_source_csv_item_staged it df folder w :
  sat (update_source_csv_item it df folder) w (fun r _ ev =>
    exists b, r = Return b /\ existsb staged ev = b).
Proof.
  unfold update_source_csv_item.
  repeat sat_step.
  all: simpl; eauto.
Qed.

Lemma create_source_csv_item_staged name df folder w :
  sat (create_source_csv_item name df folder) w (fun r _ ev =>
    exists o, r = Return o /\ existsb staged ev = bool_decide (is_Some o)).
Proof.
  unfold create_source_csv_item.
  repeat sat_step.
  all: simpl; eauto.
Qed.

Lemma find_source_csv_item_quiet name w :
  sat (find_source_csv_item name) w (fun r _ ev =>
    (exists o, r = Return o)
    /\ existsb is_load ev = false /\ existsb delete_raised ev = false
    /\ existsb staged ev = false).
Proof.
  unfold sat. split; [apply try_total_returns|repeat split].
  - unflagged find_source_csv_item_keeps.
  - unflagged find_source_csv_item_keeps.
  - unflagged find_source_csv_item_keeps.
Qed.

Lemma staging_flags_update it df folder w :
  sat (update_source_csv_item it df folder) w (fun r _ ev =>
    (exists b, r = Return b /\ existsb staged ev = b)
    /\ existsb is_load ev = false /\ existsb delete_raised ev = false).
Proof.
  unfold sat. split; [apply update_source_csv_item_staged|split].
  - unflagged update_source_csv_item_keeps.
  - unflagged update_source_csv_item_keeps.
Qed.

Lemma staging_flags_create name df folder w :
  sat (create_source_csv_item name df folder) w (fun r _ ev =>
    (exists o, r = Return o /\ existsb staged ev = bool_decide (is_Some o))
    /\ existsb is_load ev = false /\ existsb delete_raised ev = false).
Proof.
  unfold sat. split; [apply create_source_csv_item_staged|split].
  - unflagged (create_source_csv_item_keeps any_world (fun e => is_load e = false) name).
  - unflagged (create_source_csv_item_keeps any_world (fun e => delete_raised e = false) name).
Qed.

Lemma fromitem_quiet it w :
  sat (fromitem it) w (fun r _ ev =>
    existsb is_load ev = false /\ existsb delete_raised ev = false
    /\ existsb staged ev = false).
Proof.
  unfold sat. repeat split.
  - unflagged fromitem_keeps.
  - unflagged fromitem_keeps.
  - unflagged fromitem_keeps.
Qed.

Lemma add_features_in_batches_flags lr df bs w :
  sat (add_features_in_batches lr df bs) w (fun r _ ev =>
    (exists b, r = Return b)
    /\ existsb delete_raised ev = false /\ existsb staged ev = false).
Proof.
  unfold sat. split; [apply try_total_returns|split].
  - unflagged add_features_in_batches_keeps.
  - unflagged add_features_in_batches_keeps.
Qed.

Lemma delete_step_flags lr q w :
  sat (try_catch (delete_features lr q;;; sleep 2000;;; ret true)
                 (fun _ => ret false)) w
    (fun r _ ev =>
       (exists b, r = Return b /\ (b = true -> existsb delete_raised ev = false))
       /\ existsb is_load ev = false /\ existsb staged ev = false).
Proof. repeat sat_step; simpl; eauto 6. Qed.

Lemma append_step_flags lr csv w :
  sat (try_catch (append lr csv) (fun _ => ret false)) w
    (fun r _ ev =>
       (exists b, r = Return b)
       /\ existsb delete_raised ev = false /\ existsb staged ev = false).
Proof. repeat sat_step; simpl; eauto 6. Qed.

(** Closes the goal of a path from the flags collected along it. *)
Ltac flags_close :=
  intros;
  repeat match goal with
         | H : _ /\ _ |- _ => destruct H
         | H : exists _, _ |- _ => destruct H
         end;
  simplify_eq; simpl in *;
  repeat match goal with
         | H : negb ?b = _ |- _ => destruct b; simpl in H; try discriminate
         | H : true = true -> _ |- _ => specialize (H eq_refl)
         | H : true = existsb _ _ |- _ => symmetry in H
         | H : false = existsb _ _ |- _ => symmetry in H
         end;
  rewrite ?existsb_app in *; simpl in *;
  repeat match goal with
         | H : existsb _ _ = _ |- _ => rewrite H in *
         end;
  simpl in *;
  try solve [intuition (try congruence; try discriminate)].

Ltac update_step :=
  lazymatch goal with
  | |- sat (fromitem _) _ _ => sat_use fromitem_quiet
  | |- sat (find_source_csv_item _) _ _ => sat_use find_source_csv_item_quiet
  | |- sat (update_source_csv_item _ _ _) _ _ => sat_use staging_flags_update
  | |- sat (create_source_csv_item _ _ _) _ _ => sat_use staging_flags_create
  | |- sat (add_features_in_batches _ _ _) _ _ =>
      sat_use add_features_in_batches_flags
  | |- sat (try_catch (bind (delete_features _ _) _) _) _ _ =>
      sat_use delete_step_flags
  | |- sat (try_catch (append _ _) _) _ _ => sat_use append_step_flags
  | |- _ => sat_step
  end.

(** C6: when the delete of the existing rows raises, or no staging
    artifact gets written (it can be neither updated nor created),
    [update_existing_table] returns [False] and sends neither the bulk
    append nor any insert of the batch fallback. *)
Theorem update_aborts_before_load item df folder w :
  existsb delete_raised (events (update_existing_table item df folder w)) = true
  \/ existsb staged (events (update_existing_table item df folder w)) = false ->
  outcome (update_existing_table item df folder w) = Return false
  /\ existsb is_load (events (update_existing_table item df folder w)) = false.
Proof.
  change (sat (update_existing_table item df folder) w (fun r _ ev =>
    existsb delete_raised ev = true \/ existsb staged ev = false ->
    r = Return false /\ existsb is_load ev = false)).
  unfold update_existing_table.
  repeat update_step.
  all: flags_close.
Qed.

Lemma update_aborts_before_load_witness :
  outcome (update_existing_table Sample.table Sample.new_df (FolderStr "Analytics")
             (Sample.portal [Completed; Failed] [])) = Return false
  /\ existsb is_load
       (events (update_existing_table Sample.table Sample.new_df
                  (FolderStr "Analytics")
                  (Sample.portal [Completed; Failed] []))) = false.
Proof.
  apply (update_aborts_before_load Sample.table Sample.new_df
           (FolderStr "Analytics") (Sample.portal [Completed; Failed] [])).
  left. vm_compute. reflexivity.
Defined.

(** ** The empty dataset (C4) *)

(** C4: with a dataset of zero rows, [publish_or_update_table] returns
    [None] at once: the world is left as it was, the sink's tape of replies
    is untouched and no request, pause or prompt is logged. *)
Theorem empty_dataset_is_noop table_name df folder description w :
  length (records df) = 0 ->
  publish_or_update_table table_name df folder description w = (Return None, w, []).
Proof.
  intros Hlen. unfold publish_or_update_table.
  rewrite Hlen. reflexivity.
Qed.

Lemma empty_dataset_is_noop_witness :
  publish_or_update_table "Group_Snapshot"
    {| columns := Sample.cols; records := [] |} (FolderStr "Analytics") ""
    (Sample.portal [Failed] ["yes"])
  = (Return None, Sample.portal [Failed] ["yes"], []).
Proof.
  apply (empty_dataset_is_noop "Group_Snapshot"
           {| columns := Sample.cols; records := [] |}).
  reflexivity.
Defined.

(** ** Temporary files (C8) *)

(** C8: when both registration methods of [create_source_csv_item] raise,
    the function returns [None] through the early [return] of method 2 and
    the temporary CSV it wrote is still there; when [csv_item.update]
    raises in [update_source_csv_item], the function returns [False]
    through the outer handler and its temporary CSV is still there too. *)
Theorem temp_file_survives_failure :
  local_files (Sample.portal [Completed; Failed; Failed] []) = ∅
  /\ outcome (create_source_csv_item "Group Snapshot" Sample.new_df
                (FolderStr "Analytics")
                (Sample.portal [Completed; Failed; Failed] [])) = Return None
  /\ is_Some (local_files
                (final (create_source_csv_item "Group Snapshot" Sample.new_df
                          (FolderStr "Analytics")
                          (Sample.portal [Completed; Failed; Failed] [])))
              !! "/arcgis/home/Group_Snapshot.csv")
  /\ outcome (update_source_csv_item Sample.source_csv Sample.new_df
                (FolderStr "Analytics") (Sample.portal [Failed] []))
     = Return false
  /\ is_Some (local_files
                (final (update_source_csv_item Sample.source_csv Sample.new_df
                          (FolderStr "Analytics") (Sample.portal [Failed] [])))
              !! "/arcgis/home/Group_Snapshot_source_temp.csv").
Proof.
  repeat split; try reflexivity.
  - vm_compute. eexists; reflexivity.
  - vm_compute. eexists; reflexivity.
Qed.

(** On the paths that do reach the clean-up, the file is gone. *)
Lemma temp_file_removed_after_update :
  local_files
    (final (update_source_csv_item Sample.source_csv Sample.new_df
              (FolderStr "Analytics") (Sample.portal [Nothing] [])))
  !! "/arcgis/home/Group_Snapshot_source_temp.csv" = None.
Proof. vm_compute. reflexivity. Qed.

(** ** Skipping after a failed update (C2) *)

(** C2: in that run the operator's "skip" (and likewise "no") makes
    [publish_or_update_table] return the original item, but the table,
    which held a row before the call, is empty afterwards: the delete of
    step 1 has already gone through. *)
Theorem skip_returns_item_but_rows_are_gone :
  layer_rows (Sample.portal failed_refresh ["skip"]) Sample.layer
  = records Sample.old_df
  /\ outcome (publish_or_update_table "Group_Snapshot" Sample.new_df
                (FolderStr "Analytics") ""
                (Sample.portal failed_refresh ["skip"]))
     = Return (Some Sample.table)
  /\ layer_rows
       (final (publish_or_update_table "Group_Snapshot" Sample.new_df
                 (FolderStr "Analytics") ""
                 (Sample.portal failed_refresh ["skip"])))
       Sample.layer = []
  /\ outcome (publish_or_update_table "Group_Snapshot" Sample.new_df
                (FolderStr "Analytics") ""
                (Sample.portal failed_refresh ["no"]))
     = Return (Some Sample.table)
  /\ layer_rows
       (final (publish_or_update_table "Group_Snapshot" Sample.new_df
                 (FolderStr "Analytics") ""
                 (Sample.portal failed_refresh ["no"])))
       Sample.layer = [].
Proof. repeat split; vm_compute; reflexivity. Qed.

(** ** Batch upsert fallback: rows (C5) *)

Lemma get_layer_set_layer lr l l0 w :
  get_layer w lr = Some l0 -> get_layer (set_layer lr l w) lr = Some l.
Proof.
  unfold get_layer, set_layer; simpl.
  rewrite lookup_alter_eq.
  destruct (services w !! lr_item lr) as [s|]; [|discriminate]; simpl.
  intros _. destruct (lr_kind lr); reflexivity.
Qed.

Lemma layer_rows_set_layer lr l l0 w :
  get_layer w lr = Some l0 -> layer_rows (set_layer lr l w) lr = features l.
Proof.
  intros H. unfold layer_rows. erewrite get_layer_set_layer by eassumption.
  reflexivity.
Qed.

Lemma layer_rows_get lr l w : get_layer w lr = Some l -> layer_rows w lr = features l.
Proof. unfold layer_rows. intros ->. reflexivity. Qed.

Lemma length_fit_flags n flags : length (fit_flags n flags) = n.
Proof.
  unfold fit_flags. rewrite length_take, length_app, length_replicate. lia.
Qed.

Lemma length_accepted_rows adds flags :
  length flags = length adds ->
  length (accepted_rows adds flags) = count_true flags.
Proof.
  unfold accepted_rows, count_true. rewrite length_fmap.
  revert flags; induction adds as [|a adds IH]; intros [|b flags]; simpl;
    try discriminate; auto.
  intros [= H]. destruct b; simpl; rewrite IH by assumption; reflexivity.
Qed.

Lemma accepted_rows_bound adds flags :
  length (accepted_rows adds flags) <= length adds.
Proof.
  unfold accepted_rows. rewrite length_fmap.
  revert flags; induction adds as [|a adds IH]; intros [|b flags]; simpl;
    try lia.
  specialize (IH flags). destruct b; simpl; lia.
Qed.

(** What an insert request does to the rows of its layer. *)
Lemma edit_features_rows lr adds w :
  sat (edit_features lr adds) w (fun r w' _ =>
    match r with
    | Return (Some flags) =>
        length flags = length adds
        /\ layer_rows w' lr = layer_rows w lr ++ accepted_rows adds flags
    | _ => layer_rows w' lr = layer_rows w lr
    end).
Proof.
  unfold edit_features. repeat sat_step; try reflexivity.
  all: (split; [try apply length_fit_flags; try apply length_replicate|]).
  all: erewrite layer_rows_set_layer by eassumption; simpl.
  all: f_equal; symmetry; apply layer_rows_get; assumption.
Qed.

Lemma grows_same lr n t w w' :
  layer_rows w' lr = layer_rows w lr -> grows lr n t w (Return t) w'.
Proof.
  intros H. exists []. rewrite app_nil_r, Nat.add_0_r. simpl.
  repeat split; [lia|assumption].
Qed.

Lemma grows_trans lr n1 n2 t w t1 w1 r w2 :
  grows lr n1 t w (Return t1) w1 -> grows lr n2 t1 w1 r w2 ->
  grows lr (n1 + n2) t w r w2.
Proof.
  intros (a1 & Hn1 & [= ->] & H1) (a2 & Hn2 & -> & H2).
  exists (a1 ++ a2). rewrite H2, H1, length_app, <- app_assoc.
  repeat split; [lia|f_equal; lia].
Qed.

Lemma grows_weaken lr n n' t w r w' :
  n <= n' -> grows lr n t w r w' -> grows lr n' t w r w'.
Proof. intros Hn (a & Ha & Hr & Hrows). exists a. repeat split; [lia|auto..]. Qed.

Lemma grows_accepted lr t w w' batch flags :
  length flags = length batch
  /\ layer_rows w' lr = layer_rows w lr ++ accepted_rows batch flags ->
  grows lr (length batch) t w (Return (t + count_true flags)) w'.
Proof.
  intros [Hlen Hrows]. exists (accepted_rows batch flags).
  pose proof (accepted_rows_bound batch flags) as Hbound.
  rewrite length_accepted_rows in * by assumption. auto.
Qed.

Lemma count_true_singleton (flags : list bool) :
  length flags = 1 ->
  count_true flags = if default false (head flags) then 1 else 0.
Proof. destruct flags as [|[] [|? ?]]; simpl; try discriminate; reflexivity. Qed.

Lemma retry_singly_rows lr batch t w :
  sat (retry_singly lr batch t) w (fun r w' _ =>
    grows lr (length batch) t w r w').
Proof.
  revert t w; induction batch as [|x rest IH]; intros t w; simpl.
  - apply sat_ret, grows_same. reflexivity.
  - apply sat_bind, sat_try_total, sat_bind. sat_use edit_features_rows.
    destruct r as [[flags|]|e]; repeat sat_step.
    all: sat_use IH; eapply (grows_trans lr 1 (length rest)); [|eassumption].
    + pose proof (grows_accepted lr t _ _ _ _ H) as HG.
      rewrite count_true_singleton, Heqb in HG by apply H. exact HG.
    + pose proof (grows_accepted lr t _ _ _ _ H) as HG.
      rewrite count_true_singleton, Heqb in HG by apply H. exact HG.
    + rewrite Nat.add_0_r. apply grows_same. assumption.
    + rewrite Nat.add_0_r. apply grows_same. assumption.
Qed.

Lemma insert_batch_rows lr bs batch last t w :
  sat (insert_batch lr bs batch last t) w (fun r w' _ =>
    grows lr (length batch) t w r w').
Proof.
  unfold insert_batch.
  apply sat_try_catch, sat_bind. sat_use edit_features_rows.
  destruct r as [[flags|]|e]; repeat sat_step;
    eauto using grows_same, grows_accepted.
  sat_use retry_singly_rows.
  eapply (grows_trans lr 0 (length batch)); [|eassumption].
  apply grows_same. assumption.
Qed.

Lemma insert_batches_rows lr bs batches t w :
  sat (insert_batches lr bs batches t) w (fun r w' _ =>
    grows lr (length (concat batches)) t w r w').
Proof.
  revert t w; induction batches as [|b rest IH]; intros t w; simpl.
  - apply sat_ret, grows_same. reflexivity.
  - apply sat_bind. sat_use insert_batch_rows.
    destruct H as (added & Hn & -> & Hrows).
    sat_use IH. rewrite length_app.
    eapply grows_trans; [|eassumption]. exists added; auto.
Qed.

Lemma chunks_length fuel n (l : list (gmap string PyVal)) :
  length (concat (chunks fuel n l)) <= length l.
Proof.
  revert l; induction fuel as [|fuel IH]; intros [|x l]; simpl; try lia.
  specialize (IH (drop n (x :: l))).
  rewrite length_app, length_take, length_drop in *. simpl in *. lia.
Qed.

Lemma batches_length bs (l : list (gmap string PyVal)) :
  length (concat (batches bs l)) <= length l.
Proof.
  unfold batches. destruct (bs <=? 0)%Z; [simpl; lia|apply chunks_length].
Qed.

(** The run of [add_features_in_batches]: the rows appended to the layer,
    their number against the number [n] of rows kept, and the result. *)
Lemma add_features_in_batches_rows layer df batch_size w :
  sat (add_features_in_batches layer df batch_size) w (fun r w' _ =>
    exists added,
      layer_rows w' layer = layer_rows w layer ++ added
      /\ r = Return (bool_decide (0 < length added))
      /\ forall l rows, get_layer w layer = Some l ->
                        batch_prepare df = Return rows ->
                        length added <= length (kept_features (fields l) df rows)).
Proof.
  unfold add_features_in_batches.
  apply sat_try_total. repeat sat_step.
  all: try (exists []; rewrite app_nil_r; simpl; repeat split; auto; intros; lia).
  sat_use insert_batches_rows. destruct H as (added & Hn & -> & Hrows).
  assert (Hbound : length added <= length (kept_features (fields l) df a)).
  { unfold kept_features. rewrite Heql0.
    etransitivity; [exact Hn|]. apply batches_length. }
  simpl. repeat sat_step; exists added;
    (split; [assumption|split; [f_equal|intros ? ? [= <-] [= <-]; exact Hbound]]).
  - apply Nat.eqb_eq in Heqb0. simpl in Heqb0.
    rewrite bool_decide_eq_true_2 by lia. reflexivity.
  - apply Nat.ltb_lt in Heqb1. rewrite bool_decide_eq_true_2 by lia. reflexivity.
  - apply Nat.ltb_ge in Heqb1. rewrite bool_decide_eq_false_2 by lia. reflexivity.
Qed.

(** C5: [add_features_in_batches] always returns; the rows it leaves in
    the layer are the rows that were there followed by the [k] rows it
    inserted, and it returns [True] exactly when [k > 0], whether these
    are all of the rows or only some of them. *)
Theorem batch_insert_succeeds_iff_some_row_inserted layer df batch_size w :
  exists added,
    layer_rows (final (add_features_in_batches layer df batch_size w)) layer
    = layer_rows w layer ++ added
    /\ outcome (add_features_in_batches layer df batch_size w)
       = Return (bool_decide (0 < length added)).
Proof.
  destruct (add_features_in_batches_rows layer df batch_size w)
    as (added & Hrows & Hr & _).
  exists added. auto.
Qed.

(** One of two rows inserted is a success; none of two is a failure. *)
Lemma partial_success_is_success :
  outcome (add_features_in_batches Sample.layer Sample.new_df 50
             (Sample.portal [AddResults [true; false]] [])) = Return true
  /\ length (layer_rows
               (final (add_features_in_batches Sample.layer Sample.new_df 50
                         (Sample.portal [AddResults [true; false]] [])))
               Sample.layer) = 2
  /\ outcome (add_features_in_batches Sample.layer Sample.new_df 50
                (Sample.portal [AddResults [false; false]] [])) = Return false.
Proof. repeat split; vm_compute; reflexivity. Qed.

(** ** Batch upsert fallback: the log of the batch loop *)

Lemma retry_singly_log layer batch t w :
  sat (retry_singly layer batch t) w (fun _ _ ev =>
    exists replies, length replies = length batch
                    /\ ev = retry_log layer batch replies).
Proof.
  revert t w; induction batch as [|x rest IH]; intros t w; simpl.
  - apply sat_ret. exists []. auto.
  - apply sat_bind, sat_try_total, sat_bind. unfold edit_features.
    repeat sat_step.
    all: sat_use IH; destruct H as (replies & Hlen & ->).
    all: eexists (_ :: replies); simpl; split; [f_equal; exact Hlen|reflexivity].
Qed.

Lemma retry_guard_true bs (batch : list (gmap string PyVal)) :
  (1 <? bs)%Z && (1 <? length batch)%nat = true -> 1 < length batch.
Proof. intros [_ H]%andb_true_iff. apply Nat.ltb_lt in H. exact H. Qed.

Lemma retry_guard_false bs (batch : list (gmap string PyVal)) :
  (1 <? bs)%Z && (1 <? length batch)%nat = false ->
  length batch <= 1 \/ (bs <= 1)%Z.
Proof.
  intros [H|H]%andb_false_iff;
    [right; apply Z.ltb_ge in H|left; apply Nat.ltb_ge in H]; lia.
Qed.

Lemma insert_batch_log layer bs batch last t w :
  sat (insert_batch layer bs batch last t) w (fun _ _ ev =>
    batch_log layer bs batch ev).
Proof.
  unfold insert_batch, edit_features.
  repeat sat_step.
  all: try (sat_use retry_singly_log; destruct H as (replies & Hlen & ->);
            eexists _, _; split; [reflexivity|left];
            split; [eapply retry_guard_true; eassumption|eauto]).
  all: eexists _, _; (split; [reflexivity|right]);
       (split; [first [discriminate
                      |intros _; eapply retry_guard_false; eassumption]
               |auto]).
Qed.

Lemma sat_and {A} (m : M A) w (Q1 Q2 : result A -> World -> list Event -> Prop) :
  sat m w Q1 -> sat m w Q2 -> sat m w (fun r w' ev => Q1 r w' ev /\ Q2 r w' ev).
Proof. unfold sat. auto. Qed.

Lemma insert_batches_log layer bs batches t w :
  sat (insert_batches layer bs batches t) w (fun _ _ ev =>
    batches_log layer bs batches ev).
Proof.
  revert t w; induction batches as [|b rest IH]; intros t w; simpl.
  - apply sat_ret. reflexivity.
  - apply sat_bind.
    eapply sat_mono;
      [apply sat_and; [apply insert_batch_rows|apply insert_batch_log]|].
    cbv beta. intros r w' ev [(added & _ & -> & _) Hlog].
    sat_use IH. eauto.
Qed.

(** The log of [add_features_in_batches] is empty or the log of the batch
    loop over the rows kept. *)
Lemma add_features_in_batches_log layer df batch_size w :
  sat (add_features_in_batches layer df batch_size) w (fun _ _ ev =>
    ev = []
    \/ exists l rows,
         get_layer w layer = Some l /\ batch_prepare df = Return rows
         /\ batches_log layer batch_size
              (batches batch_size (kept_features (fields l) df rows)) ev).
Proof.
  unfold add_features_in_batches.
  apply sat_try_total. repeat sat_step; auto.
  eapply sat_mono;
    [apply sat_and; [apply insert_batches_rows|apply insert_batches_log]|].
  cbv beta. intros r w' ev [(added & _ & -> & _) Hlog].
  repeat sat_step; rewrite app_nil_r; right; exists l, a;
    unfold kept_features; rewrite Heql0; auto.
Qed.

(** *** Retry of a failed batch (C7) *)

Lemma retry_log_benign layer batch replies :
  Forall benign (retry_log layer batch replies).
Proof.
  revert replies; induction batch as [|x batch IH]; intros [|r replies]; simpl;
    try constructor.
  - destruct r; simpl; auto.
  - constructor; [exact I|apply IH].
Qed.

Lemma split_in_app {A} (pre post a b : list A) (e : A) :
  pre ++ e :: post = a ++ b ->
  e ∈ a \/ exists pre', b = pre' ++ e :: post.
Proof.
  revert pre; induction a as [|x a IH]; intros pre; simpl.
  - intros <-. right. eauto.
  - destruct pre as [|y pre]; simpl; intros [= -> H].
    + left. constructor.
    + destruct (IH _ H) as [Hin|Hb]; [left; constructor; exact Hin|right; exact Hb].
Qed.

Lemma retried_nil layer : retried layer [].
Proof. intros [|? ?] ? ? [=]. Qed.

Lemma retried_block layer bs batch ev evs :
  length batch <= Z.to_nat bs ->
  batch_log layer bs batch ev -> retried layer evs -> retried layer (ev ++ evs).
Proof.
  intros Hbs (r & rest & -> & Hshape) Hevs pre b post Heq Hb.
  assert (Hrest : Forall benign rest).
  { destruct Hshape as [(_ & replies & _ & ->)|(_ & [-> | ->])];
      [apply retry_log_benign|constructor|repeat constructor]. }
  destruct pre as [|y pre]; simpl in Heq.
  - simplify_eq.
    destruct Hshape as [(_ & replies & Hlen & ->)|(Hguard & _)]; [eauto|].
    destruct Hguard as [?|?]; [reflexivity|lia|lia].
  - injection Heq as Hy Heq. symmetry in Heq.
    destruct (split_in_app _ _ _ _ _ Heq) as [Hin|(pre' & ->)].
    + rewrite Forall_forall in Hrest. specialize (Hrest _ Hin).
      simpl in Hrest. lia.
    + eapply Hevs; [reflexivity|assumption].
Qed.

Lemma batches_log_retried layer bs batches ev :
  Forall (fun b => length b <= Z.to_nat bs) batches ->
  batches_log layer bs batches ev -> retried layer ev.
Proof.
  intros Hbs. revert ev; induction Hbs as [|b rest Hb Hrest IH]; intros ev; simpl.
  - intros ->. apply retried_nil.
  - intros (ev1 & ev2 & -> & H1 & H2). eapply retried_block; eauto.
Qed.

Lemma chunks_bounded fuel n l : Forall (fun b => length b <= n) (chunks fuel n l).
Proof.
  revert l; induction fuel as [|fuel IH]; intros [|x l]; simpl; try constructor.
  - rewrite length_take. lia.
  - apply IH.
Qed.

Lemma batches_bounded bs l :
  Forall (fun b => length b <= Z.to_nat bs) (batches bs l).
Proof.
  unfold batches. destruct (bs <=? 0)%Z; [constructor|apply chunks_bounded].
Qed.

(** C7, counterexample: a batch of a single row whose insert raises is not
    retried; the log of the run holds that one request and nothing else. *)
Lemma single_row_batch_is_not_retried :
  events (add_features_in_batches Sample.layer
            {| columns := Sample.cols; records := [Sample.row "g1" "Solo" 5] |}
            50 (Sample.portal [Failed] []))
  = [Sink (EditFeatures Sample.layer
             (kept_features Sample.schema
                {| columns := Sample.cols; records := [Sample.row "g1" "Solo" 5] |}
                [Sample.row "g1" "Solo" 5]))
          Failed]
  /\ length (kept_features Sample.schema
               {| columns := Sample.cols; records := [Sample.row "g1" "Solo" 5] |}
               [Sample.row "g1" "Solo" 5]) = 1.
Proof. split; vm_compute; reflexivity. Qed.

(** C7, amended: in the log of [add_features_in_batches], every insert of
    a batch of more than one row that raised is followed at once by the
    retry of each row of that batch, in order: one insert request per row,
    each followed by a pause of 0.1 s. *)
Theorem failed_batch_is_retried_row_by_row layer df batch_size w pre batch post :
  events (add_features_in_batches layer df batch_size w)
  = pre ++ Sink (EditFeatures layer batch) Failed :: post ->
  1 < length batch ->
  exists replies post',
    length replies = length batch
    /\ post = retry_log layer batch replies ++ post'.
Proof.
  revert pre batch post.
  change (retried layer (events (add_features_in_batches layer df batch_size w))).
  destruct (add_features_in_batches_log layer df batch_size w)
    as [->|(l & rows & _ & _ & Hlog)].
  - apply retried_nil.
  - eapply batches_log_retried; [apply batches_bounded|exact Hlog].
Qed.

Lemma failed_batch_is_retried_row_by_row_witness :
  exists replies post',
    length replies
    = length (kept_features Sample.schema Sample.new_df (records Sample.new_df))
    /\ tail (events (add_features_in_batches Sample.layer Sample.new_df 50
                       (Sample.portal [Failed; AddResults [true]; Failed] [])))
       = retry_log Sample.layer
           (kept_features Sample.schema Sample.new_df (records Sample.new_df))
           replies ++ post'.
Proof.
  apply (failed_batch_is_retried_row_by_row Sample.layer Sample.new_df 50
           (Sample.portal [Failed; AddResults [true]; Failed] []) []).
  - vm_compute. reflexivity.
  - vm_compute. lia.
Defined.

(** *** What is sent to the sink (C10) *)

Lemma layer_field_info_lookup fs k fi :
  layer_field_info fs !! k = Some fi ->
  exists f, f ∈ fs /\ fi = field_info f /\ k = PyStr.lower (f_name f)
            /\ (k ∉ system_fields).
Proof.
  unfold layer_field_info.
  assert (H : forall rest (acc : gmap string FieldInfo),
             (forall k fi, acc !! k = Some fi ->
                exists f, f ∈ fs /\ fi = field_info f
                          /\ k = PyStr.lower (f_name f) /\ (k ∉ system_fields)) ->
             rest ⊆ fs ->
             forall k fi,
               foldl (fun acc f =>
                        let field_name := PyStr.lower (f_name f) in
                        if bool_decide (field_name ∈ system_fields) then acc
                        else <[field_name := field_info f]> acc) acc rest !! k
               = Some fi ->
               exists f, f ∈ fs /\ fi = field_info f
                         /\ k = PyStr.lower (f_name f) /\ (k ∉ system_fields)).
  { induction rest as [|f rest IH]; intros acc Hacc Hsub k' fi'; simpl.
    - apply Hacc.
    - apply IH; [|intros x Hx; apply Hsub; right; exact Hx].
      intros k0 fi0. case_bool_decide as Hsys; [apply Hacc|].
      rewrite lookup_insert. case_decide as Hk.
      + intros [= <-]. exists f. subst k0.
        split; [apply Hsub; left|auto].
      + apply Hacc. }
  apply H; [|reflexivity]. intros k0 fi0. rewrite lookup_empty. discriminate.
Qed.

Lemma df_columns_lower_lookup cols k col :
  df_columns_lower cols !! k = Some col -> col ∈ cols /\ PyStr.lower col = k.
Proof.
  unfold df_columns_lower.
  assert (H : forall rest (acc : gmap string string),
             (forall k col, acc !! k = Some col -> col ∈ cols /\ PyStr.lower col = k) ->
             rest ⊆ cols ->
             forall k col,
               foldl (fun acc col => <[PyStr.lower col := col]> acc) acc rest !! k
               = Some col -> col ∈ cols /\ PyStr.lower col = k).
  { induction rest as [|c rest IH]; intros acc Hacc Hsub k' col'; simpl.
    - apply Hacc.
    - apply IH; [|intros x Hx; apply Hsub; right; exact Hx].
      intros k0 c0. rewrite lookup_insert. case_decide as Hk.
      + intros [= <-]. split; [apply Hsub; left|auto].
      + apply Hacc. }
  apply H; [|reflexivity]. intros k0 c0. rewrite lookup_empty. discriminate.
Qed.

Lemma row_attributes_lookup info cols_lower row name v :
  row_attributes info cols_lower row !! name = Some v ->
  exists k fi df_col,
    info !! k = Some fi /\ cols_lower !! k = Some df_col
    /\ name = fi_name fi /\ v = field_value fi (row_get row df_col).
Proof.
  unfold row_attributes. revert name v.
  apply (map_fold_weak_ind (fun attributes m =>
           forall name v, attributes !! name = Some v ->
             exists k fi df_col,
               m !! k = Some fi /\ cols_lower !! k = Some df_col
               /\ name = fi_name fi /\ v = field_value fi (row_get row df_col))).
  - intros name v. rewrite lookup_empty. discriminate.
  - intros k fi m attributes Hk IH name v.
    destruct (cols_lower !! k) as [df_col|] eqn:Hcol.
    + rewrite lookup_insert. case_decide as Hname.
      * intros [= <-]. exists k, fi, df_col. rewrite lookup_insert_eq. auto.
      * intros H. destruct (IH _ _ H) as (k' & fi' & c' & Hm & ? & ? & ?).
        exists k', fi', c'. rewrite lookup_insert_ne by congruence. auto.
    + intros H. destruct (IH _ _ H) as (k' & fi' & c' & Hm & ? & ? & ?).
      exists k', fi', c'. rewrite lookup_insert_ne by congruence. auto.
Qed.

Lemma fi_length_nonneg f : (0 <= fi_length (field_info f))%Z.
Proof. unfold field_info; simpl. destruct (f_length f); simpl; lia. Qed.

Lemma field_value_fits f v : fits f (field_value (field_info f) v).
Proof.
  intros Htype. unfold field_value. destruct (isna v); [left; reflexivity|].
  rewrite Htype. simpl. right. case_if.
  - eexists; split; [reflexivity|]. apply len_slice_to, fi_length_nonneg.
  - eexists; split; [reflexivity|]. apply Z.ltb_ge. assumption.
Qed.

Lemma kept_features_conform fs df rows attributes :
  attributes ∈ kept_features fs df rows -> conforms fs (columns df) attributes.
Proof.
  unfold kept_features, build_features.
  rewrite list_elem_of_In, filter_In, in_map_iff.
  intros [(row & <- & _) Hne]. split.
  - apply negb_true_iff, bool_decide_eq_false in Hne. exact Hne.
  - intros name v Hv.
    apply row_attributes_lookup in Hv as (k & fi & col & Hk & Hcol & -> & ->).
    apply layer_field_info_lookup in Hk as (f & Hf & -> & -> & Hsys).
    apply df_columns_lower_lookup in Hcol as [Hin Hlow].
    exists f. repeat split; auto.
    + exists col. auto.
    + apply field_value_fits.
Qed.

Lemma retry_log_sends layer all batch replies :
  batch ⊆ all -> Forall (sends_only layer all) (retry_log layer batch replies).
Proof.
  revert replies; induction batch as [|x batch IH]; intros [|r replies] Hsub;
    simpl; try constructor.
  - intros lr adds r' Heq. simplify_eq. split; [reflexivity|].
    intros y Hy. apply list_elem_of_singleton in Hy as ->. apply Hsub. left.
  - constructor; [intros lr adds r' [=]|].
    apply IH. intros y Hy. apply Hsub. right. exact Hy.
Qed.

Lemma batch_log_sends layer all bs batch ev :
  batch ⊆ all -> batch_log layer bs batch ev -> Forall (sends_only layer all) ev.
Proof.
  intros Hsub (r & rest & -> & Hshape). constructor.
  - intros lr adds r' Heq. simplify_eq. auto.
  - destruct Hshape as [(_ & replies & _ & ->)|(_ & [-> | ->])].
    + apply retry_log_sends, Hsub.
    + constructor.
    + constructor; [|constructor]. intros lr adds r' [=].
Qed.

Lemma batches_log_sends layer all bs batches ev :
  Forall (fun b => b ⊆ all) batches ->
  batches_log layer bs batches ev -> Forall (sends_only layer all) ev.
Proof.
  intros Hsub. revert ev; induction Hsub as [|b rest Hb Hrest IH]; intros ev; simpl.
  - intros ->. constructor.
  - intros (ev1 & ev2 & -> & H1 & H2). apply Forall_app.
    split; [eapply batch_log_sends; eassumption|apply IH, H2].
Qed.

Lemma chunks_subseteq fuel n l : Forall (fun b => b ⊆ l) (chunks fuel n l).
Proof.
  revert l; induction fuel as [|fuel IH]; intros [|x l]; simpl; try constructor.
  - apply subseteq_take.
  - eapply Forall_impl; [apply IH|]. simpl. intros b Hb.
    etransitivity; [exact Hb|apply subseteq_drop].
Qed.

Lemma batches_subseteq bs l : Forall (fun b => b ⊆ l) (batches bs l).
Proof.
  unfold batches. destruct (bs <=? 0)%Z; [constructor|apply chunks_subseteq].
Qed.

(** With nothing kept, the function returns [False] without touching the
    world or sending anything. *)
Lemma nothing_kept_nothing_sent layer df batch_size w l rows :
  get_layer w layer = Some l ->
  batch_prepare df = Return rows ->
  kept_features (fields l) df rows = [] ->
  add_features_in_batches layer df batch_size w = (Return false, w, []).
Proof.
  intros Hl Hrows Hkept.
  unfold add_features_in_batches, try_catch, bind, get, lift.
  rewrite Hl, Hrows. unfold kept_features in Hkept. rewrite Hkept. reflexivity.
Qed.

(** C10: for a layer with live schema [fields l] and a dataset whose
    preparation succeeds, (1) every attribute map that
    [add_features_in_batches] keeps is non-empty, has only keys that name a
    field of the schema other than the system fields and matching a
    dataset column up to case, and holds for each string field [None] or a
    string no longer than the field's declared length; (2) every insert
    request goes to that layer and carries kept maps only, so a row
    without any matching field is never sent; (3) the rows inserted are at
    most as many as the rows kept, and the result is [True] exactly when
    at least one was inserted; (4) when no row is kept, the function
    returns [False] and sends nothing. *)
Theorem batch_sends_schema_fields_only layer df batch_size w l rows :
  get_layer w layer = Some l ->
  batch_prepare df = Return rows ->
  Forall (conforms (fields l) (columns df)) (kept_features (fields l) df rows)
  /\ Forall (sends_only layer (kept_features (fields l) df rows))
            (events (add_features_in_batches layer df batch_size w))
  /\ (exists added,
        layer_rows (final (add_features_in_batches layer df batch_size w)) layer
        = layer_rows w layer ++ added
        /\ length added <= length (kept_features (fields l) df rows)
        /\ outcome (add_features_in_batches layer df batch_size w)
           = Return (bool_decide (0 < length added)))
  /\ (kept_features (fields l) df rows = [] ->
      add_features_in_batches layer df batch_size w = (Return false, w, [])).
Proof.
  intros Hl Hrows. repeat split.
  - apply Forall_forall. intros attributes. apply kept_features_conform.
  - destruct (add_features_in_batches_log layer df batch_size w)
      as [->|(l' & rows' & Hl' & Hrows' & Hlog)]; [constructor|].
    rewrite Hl in Hl'. rewrite Hrows in Hrows'.
    injection Hl' as <-. injection Hrows' as <-.
    eapply batches_log_sends; [apply batches_subseteq|exact Hlog].
  - destruct (add_features_in_batches_rows layer df batch_size w)
      as (added & Hadded & Hr & Hbound).
    exists added. auto.
  - intros Hkept. eapply nothing_kept_nothing_sent; eassumption.
Qed.

Lemma batch_sends_schema_fields_only_witness :
  Forall (conforms Sample.schema Sample.cols)
         (kept_features Sample.schema Sample.new_df (records Sample.new_df))
  /\ Forall (sends_only Sample.layer
               (kept_features Sample.schema Sample.new_df (records Sample.new_df)))
            (events (add_features_in_batches Sample.layer Sample.new_df 50
                       (Sample.portal [Failed; AddResults [true]; Failed] [])))
  /\ (exists added,
        layer_rows
          (final (add_features_in_batches Sample.layer Sample.new_df 50
                    (Sample.portal [Failed; AddResults [true]; Failed] [])))
          Sample.layer
        = layer_rows (Sample.portal [Failed; AddResults [true]; Failed] [])
            Sample.layer ++ added
        /\ length added
           <= length (kept_features Sample.schema Sample.new_df
                        (records Sample.new_df))
        /\ outcome (add_features_in_batches Sample.layer Sample.new_df 50
                     (Sample.portal [Failed; AddResults [true]; Failed] []))
           = Return (bool_decide (0 < length added)))
  /\ (kept_features Sample.schema Sample.new_df (records Sample.new_df) = [] ->
      add_features_in_batches Sample.layer Sample.new_df 50
        (Sample.portal [Failed; AddResults [true]; Failed] [])
      = (Return false, Sample.portal [Failed; AddResults [true]; Failed] [], [])).
Proof.
  apply (batch_sends_schema_fields_only Sample.layer Sample.new_df 50
           (Sample.portal [Failed; AddResults [true]; Failed] [])
           {| fields := Sample.schema; features := records Sample.old_df |}
           (records Sample.new_df)).
  - reflexivity.
  - vm_compute. reflexivity.
Defined.

(** The title of a sample row is cut to the ten characters of its field,
    and the object id, which the dataset does not have, is not sent. *)
Lemma sample_attributes :
  (kept_features Sample.schema Sample.new_df (records Sample.new_df))
  = [ <["Group_ID" := VStr "g1"]>
        (<["group_title" := VStr "A rather l"]>
           (<["member_count" := VInt 5]> ∅));
      <["Group_ID" := VStr "g2"]>
        (<["group_title" := VStr "Short"]>
           (<["member_count" := VInt 7]> ∅)) ].
Proof. vm_compute. reflexivity. Qed.

(** ** Identity of the published table (C1) *)

#[global] Instance extends_preorder title : PreOrder (extends title).
Proof.
  split.
  - intros w. repeat split. exists []. rewrite app_nil_r. auto.
  - intros w1 w2 w3 (Hs1 & Hu1 & x1 & Hc1 & Hx1) (Hs2 & Hu2 & x2 & Hc2 & Hx2).
    repeat split; try congruence.
    exists (x1 ++ x2). rewrite Hc2, Hc1, <- app_assoc.
    split; [reflexivity|apply Forall_app; auto].
Qed.

Lemma source_title_differs (name : string) : name +:+ "_source" <> name.
Proof.
  intros H. apply (f_equal String.length) in H.
  rewrite str_length_app in H. simpl in H. lia.
Qed.

Lemma unique_table_extends name w w' :
  unique_table name w -> extends name w w' -> unique_table name w'.
Proof.
  intros Huniq (_ & Huser & extra & Hcat & Hextra) a b Ha Hb Hta Hoa Htb Hob.
  rewrite Hcat in Ha, Hb. rewrite Huser in Hoa, Hob.
  rewrite Forall_forall in Hextra.
  apply elem_of_app in Ha as [Ha|Ha];
    [|apply Hextra in Ha; rewrite Hta in Ha;
      symmetry in Ha; apply source_title_differs in Ha; contradiction].
  apply elem_of_app in Hb as [Hb|Hb];
    [|apply Hextra in Hb; rewrite Htb in Hb;
      symmetry in Hb; apply source_title_differs in Hb; contradiction].
  apply Huniq; assumption.
Qed.

Lemma find_in_take_filter {A} (p q : A -> bool) n (l : list A) x :
  List.find p (take n (List.filter q l)) = Some x -> x ∈ l /\ p x = true /\ q x = true.
Proof.
  intros H. apply find_some in H as [Hin Hp].
  apply list_elem_of_In, subseteq_take in Hin.
  apply list_elem_of_In, filter_In in Hin as [Hin Hq].
  apply list_elem_of_In in Hin. auto.
Qed.

(** An item that [find_existing_table] returns is an item of the portal
    with the title asked for and the current user as owner. *)
Lemma find_existing_table_found name w it :
  outcome (find_existing_table name w) = Return (Some it) ->
  it ∈ catalog w /\ item_title it = name /\ item_owner it = current_user w.
Proof.
  change (sat (find_existing_table name) w (fun r _ _ =>
            r = Return (Some it) ->
            it ∈ catalog w /\ item_title it = name
            /\ item_owner it = current_user w)).
  unfold find_existing_table.
  repeat sat_step; try discriminate.
  all: intros [= ?]; subst; unfold root_items in *;
    match goal with
    | H : find _ (take _ (List.filter _ _)) = Some _ |- _ =>
        apply find_in_take_filter in H as (Hin & Hp & Hq)
    end;
    try (unfold title_owner_match in Hp);
    apply andb_true_iff in Hp as [Hp1 Hp2];
    apply String.eqb_eq in Hp1; try apply String.eqb_eq in Hp2;
    try (apply andb_true_iff in Hq as [Hq _]; apply String.eqb_eq in Hq); auto.
Qed.


Lemma keeps_unflagged_rel {A} (m : M A) R (f : Event -> bool) w :
  keeps R (fun e => f e = false) m -> existsb f (events (m w)) = false.
Proof. intros H. apply Forall_existsb_false, H. Qed.

Lemma sat_keeps {A} (m : M A) R P w :
  keeps R P m -> sat m w (fun _ w' ev => R w w' /\ Forall P ev).
Proof. intros H. apply H. Qed.

Lemma extends_same title w w' :
  search_hit w' = search_hit w -> current_user w' = current_user w ->
  catalog w' = catalog w -> extends title w w'.
Proof.
  intros Hs Hu Hc. repeat split; [assumption..|].
  exists []. rewrite app_nil_r. auto.
Qed.

Lemma extends_mint title w it folder :
  item_title it = title +:+ "_source" ->
  extends title w (register it folder w).
Proof. intros Ht. repeat split. exists [it]. auto. Qed.

(** Locating the table leaves the portal's items alone and neither
    publishes nor deletes an item. *)
Lemma find_existing_table_frame name :
  keeps (extends name) (fun e => changes_identity e = false)
        (find_existing_table name).
Proof.
  apply find_existing_table_keeps;
    first [exact _|intros; reflexivity|intros; apply extends_same; reflexivity].
Qed.

(** The update attempt adds at most the staging artifact to the portal's
    items and neither publishes nor deletes an item. *)
Lemma update_existing_table_frame it df folder :
  keeps (extends (item_title it)) (fun e => changes_identity e = false)
        (update_existing_table it df folder).
Proof.
  apply (update_existing_table_keeps _ _ (item_title it));
    first [exact _|reflexivity|intros; reflexivity
          |intros; apply extends_same; reflexivity
          |intros; apply extends_mint; assumption].
Qed.

(** A call that finds the table and updates it returns the item found. *)
Lemma successful_update_call name df folder description w it :
  records df <> [] ->
  outcome (find_existing_table name w) = Return (Some it) ->
  outcome (update_existing_table it df folder
             (final (find_existing_table name w))) = Return true ->
  outcome (publish_or_update_table name df folder description w) = Return (Some it)
  /\ final (publish_or_update_table name df folder description w)
     = final (update_existing_table it df folder
                (final (find_existing_table name w)))
  /\ events (publish_or_update_table name df folder description w)
     = events (find_existing_table name w)
       ++ events (update_existing_table it df folder
                    (final (find_existing_table name w))).
Proof.
  intros Hdf Hfind Hupd.
  change (sat (publish_or_update_table name df folder description) w
            (fun r w' ev =>
               r = Return (Some it)
               /\ w' = final (update_existing_table it df folder
                                (final (find_existing_table name w)))
               /\ ev = events (find_existing_table name w)
                       ++ events (update_existing_table it df folder
                                    (final (find_existing_table name w))))).
  unfold publish_or_update_table.
  destruct (records df) as [|row rows]; [contradiction|]. cbn [length Nat.eqb].
  apply sat_bind. unfold sat at 1. rewrite Hfind.
  apply sat_bind, sat_bind. unfold sat at 1. rewrite Hupd.
  repeat sat_step. rewrite !app_nil_r. auto.
Qed.

Lemma table_known_extends name it0 w w' :
  table_known name it0 w -> extends name w w' -> table_known name it0 w'.
Proof.
  intros (Huniq & Hin & Ht & Ho) Hext.
  split; [eapply unique_table_extends; eassumption|].
  destruct Hext as (_ & Hu & extra & Hc & _).
  rewrite Hc, Hu. repeat split; auto. apply elem_of_app. auto.
Qed.

Lemma successful_updates_keep_identity name calls w it0 :
  table_known name it0 w ->
  updates_succeed name calls w ->
  Forall (fun r => r = Return (Some it0)) (run_calls name calls w).1.1
  /\ existsb changes_identity (run_calls name calls w).2 = false.
Proof.
  revert w; induction calls as [|[[df folder] description] rest IH]; intros w Hknown;
    simpl.
  - intros _. split; [constructor|reflexivity].
  - intros (Hdf & (it & Hfind & Hupd) & Hrest).
    destruct (successful_update_call name df folder description w it Hdf Hfind Hupd)
      as (Hout & Hfinal & Hev).
    pose proof (find_existing_table_found _ _ _ Hfind) as (Hin & Ht & Ho).
    assert (it = it0) as ->.
    { destruct Hknown as (Huniq & Hin0 & Ht0 & Ho0). apply Huniq; assumption. }
    assert (Hknown' : table_known name it0
                        (final (publish_or_update_table name df folder description w))).
    { rewrite Hfinal.
      eapply table_known_extends;
        [eapply table_known_extends; [exact Hknown|apply find_existing_table_frame]|].
      rewrite <- Ht at 1. apply update_existing_table_frame. }
    destruct (IH _ Hknown' Hrest) as [IHr IHe].
    destruct (run_calls name rest _) as [[rs w'] ev]. simpl in *.
    split; [constructor; assumption|].
    rewrite existsb_app, IHe, Hev, existsb_app, orb_false_r.
    rewrite (keeps_unflagged_rel _ _ _ _ (find_existing_table_frame name)).
    rewrite (keeps_unflagged_rel _ _ _ _ (update_existing_table_frame it0 df folder)).
    reflexivity.
Qed.

(** *** Publishing and deleting happen only after a yes *)

Lemma sat_always {A} (m : M A) w (Q : result A -> World -> list Event -> Prop) :
  (forall r w' ev, Q r w' ev) -> sat m w Q.
Proof. intros H. apply H. Qed.

Lemma ask_answer lines :
  existsb changes_identity (ask lines).2 = false
  /\ forall a, (ask lines).1.1 = Return a ->
               exists line, Input line ∈ (ask lines).2 /\ parse_answer line = Some a.
Proof.
  induction lines as [|line rest [IHe IHa]]; simpl.
  - split; [reflexivity|discriminate].
  - destruct (parse_answer line) as [a|] eqn:Hline; simpl.
    + split; [reflexivity|]. intros a' [= <-]. exists line. split; [left|assumption].
    + destruct (ask rest) as [[r rest'] ev]; simpl in *. split; [assumption|].
      intros a Ha. destruct (IHa a Ha) as (l & Hin & Hl).
      exists l. split; [right; assumption|assumption].
Qed.

Lemma prompt_answer w :
  sat prompt w (fun r _ ev =>
    existsb changes_identity ev = false
    /\ forall a, r = Return a ->
                 exists line, Input line ∈ ev /\ parse_answer line = Some a).
Proof.
  unfold sat, prompt, outcome, events.
  pose proof (ask_answer (stdin w)) as H.
  destruct (ask (stdin w)) as [[r rest] ev]. exact H.
Qed.

(** Whatever follows a yes, the log holds the yes. *)
Ltac after_yes Hyes :=
  repeat first
    [ apply sat_always; intros ? ? ?
    | match goal with |- match ?x with _ => _ end => destruct x end ];
  intros _;
  let l := fresh "l" in
  let Hin := fresh "Hin" in
  let Hl := fresh "Hl" in
  destruct Hyes as (l & Hin & Hl);
  exists l; split; [rewrite !elem_of_app; tauto|exact Hl].

Lemma identity_changes_only_after_yes name df folder description w it :
  outcome (find_existing_table name w) = Return (Some it) ->
  existsb changes_identity
    (events (publish_or_update_table name df folder description w)) = true ->
  answered_yes (events (publish_or_update_table name df folder description w)).
Proof.
  intros Hfind.
  change (sat (publish_or_update_table name df folder description) w
            (fun _ _ ev => existsb changes_identity ev = true -> answered_yes ev)).
  unfold publish_or_update_table.
  case_if; [apply sat_ret; discriminate|].
  apply sat_bind. unfold sat at 1. rewrite Hfind.
  pose proof (keeps_unflagged_rel _ _ _ w (find_existing_table_frame name)) as Hf.
  apply sat_bind, sat_bind.
  eapply sat_mono; [apply (sat_keeps _ _ _ _ (update_existing_table_frame it df folder))|].
  cbv beta. intros r w' ev [_ Hu%Forall_existsb_false].
  destruct r as [[|]|e].
  - repeat sat_step. rewrite !existsb_app, Hf, Hu. discriminate.
  - apply sat_bind. sat_use prompt_answer. destruct H as [Hp Ha].
    destruct r as [[| |]|e'].
    + assert (Hyes : answered_yes ev0).
      { destruct (Ha Yes eq_refl) as (l & Hin & Hl). exists l. auto. }
      after_yes Hyes.
    + repeat sat_step. rewrite !existsb_app, Hf, Hu, Hp. discriminate.
    + repeat sat_step. rewrite !existsb_app, Hf, Hu, Hp. discriminate.
    + rewrite !existsb_app, Hf, Hu, Hp. discriminate.
  - rewrite !existsb_app, Hf, Hu. discriminate.
Qed.

(** Two tables of one title.  The portal holds two feature services with
    the table's title and owner.  The first quoted search of the first
    call comes back empty, so that call finds the twin through the
    unquoted search, updates it and returns it; the second call finds the
    other table through the quoted search, updates it and returns it.
    Every update attempt succeeded, yet the second call does not return
    the table found before the first call. *)
Lemma twin_tables_swap_identity :
  updates_succeed "Group_Snapshot" Twins.two_calls (Twins.portal [Nothing])
  /\ outcome (find_existing_table "Group_Snapshot" (Twins.portal [Nothing]))
     = Return (Some Twins.twin)
  /\ (run_calls "Group_Snapshot" Twins.two_calls (Twins.portal [Nothing])).1.1
     = [Return (Some Twins.twin); Return (Some Sample.table)]
  /\ item_id Twins.twin <> item_id Sample.table.
Proof.
  split; [|repeat split; [vm_compute; reflexivity..|discriminate]].
  simpl. split; [discriminate|split].
  - exists Twins.twin. split; vm_compute; reflexivity.
  - split; [discriminate|split; [|exact I]].
    exists Sample.table. split; vm_compute; reflexivity.
Qed.

(** A lookup that fails.  The portal holds the table, the only item of
    that title, and the first search of [find_existing_table] raises: the
    function swallows the exception and returns [None], and
    [publish_or_update_table] takes the create path.  It publishes a
    second item of the same title, with a new id, and returns it; the
    operator is not asked, the line waiting on the console stays
    unread. *)
Lemma failed_lookup_publishes_a_duplicate :
  Sample.table ∈ catalog (Sample.portal [Failed] ["no"])
  /\ unique_table "Group_Snapshot" (Sample.portal [Failed] ["no"])
  /\ outcome (find_existing_table "Group_Snapshot" (Sample.portal [Failed] ["no"]))
     = Return None
  /\ outcome (publish_or_update_table "Group_Snapshot" Sample.new_df
                (FolderStr "Analytics") "" (Sample.portal [Failed] ["no"]))
     = Return (Some {| item_id := 4; item_title := "Group_Snapshot";
                       item_owner := "analyst"; item_type := "Feature Service" |})
  /\ item_id Sample.table <> 4%N
  /\ existsb changes_identity
       (events (publish_or_update_table "Group_Snapshot" Sample.new_df
                  (FolderStr "Analytics") "" (Sample.portal [Failed] ["no"]))) = true
  /\ ~ answered_yes
         (events (publish_or_update_table "Group_Snapshot" Sample.new_df
                    (FolderStr "Analytics") "" (Sample.portal [Failed] ["no"])))
  /\ stdin (final (publish_or_update_table "Group_Snapshot" Sample.new_df
                     (FolderStr "Analytics") "" (Sample.portal [Failed] ["no"])))
     = ["no"].
Proof.
  split; [left|].
  split.
  { intros a b Ha Hb Hta _ Htb _. simpl in Ha, Hb.
    apply elem_of_cons in Ha as [->|Ha]; apply elem_of_cons in Hb as [->|Hb];
      try reflexivity;
      repeat match goal with
             | H : _ ∈ [_] |- _ => apply list_elem_of_singleton in H; subst
             end;
      discriminate. }
  split; [vm_compute; reflexivity|].
  split; [vm_compute; reflexivity|].
  split; [discriminate|].
  split; [vm_compute; reflexivity|].
  split; [|vm_compute; reflexivity].
  intros (line & Hin & _).
  assert (Hnone : existsb (fun e => match e with Input _ => true | _ => false end)
            (events (publish_or_update_table "Group_Snapshot" Sample.new_df
                       (FolderStr "Analytics") "" (Sample.portal [Failed] ["no"])))
          = false) by (vm_compute; reflexivity).
  rewrite <- not_true_iff_false, existsb_exists in Hnone. apply Hnone.
  exists (Input line). split; [apply list_elem_of_In; exact Hin|reflexivity].
Qed.

(** C1, counterexample: the identity of an existing table is lost in two
    ways that the claim excludes.  First, with two feature services of
    the table's title and owner: the first quoted search of the first
    call comes back empty, so that call finds the twin through the
    unquoted search, updates it and returns it; the second call finds the
    other table through the quoted search, updates it and returns it;
    every update attempt succeeded, yet the second call does not return
    the table found before the first call.  Second, with one table only,
    when the first search of the lookup raises: [find_existing_table]
    returns [None], the call publishes a second item of the same title
    and returns it, with a new id, and the operator is never asked: the
    create path is reached for an existing table without a yes. *)
Lemma identity_lost_without_a_yes :
  (updates_succeed "Group_Snapshot" Twins.two_calls (Twins.portal [Nothing])
   /\ outcome (find_existing_table "Group_Snapshot" (Twins.portal [Nothing]))
      = Return (Some Twins.twin)
   /\ (run_calls "Group_Snapshot" Twins.two_calls (Twins.portal [Nothing])).1.1
      = [Return (Some Twins.twin); Return (Some Sample.table)]
   /\ item_id Twins.twin <> item_id Sample.table)
  /\ (Sample.table ∈ catalog (Sample.portal [Failed] ["no"])
      /\ unique_table "Group_Snapshot" (Sample.portal [Failed] ["no"])
      /\ outcome (find_existing_table "Group_Snapshot" (Sample.portal [Failed] ["no"]))
         = Return None
      /\ outcome (publish_or_update_table "Group_Snapshot" Sample.new_df
                    (FolderStr "Analytics") "" (Sample.portal [Failed] ["no"]))
         = Return (Some {| item_id := 4; item_title := "Group_Snapshot";
                           item_owner := "analyst"; item_type := "Feature Service" |})
      /\ item_id Sample.table <> 4%N
      /\ existsb changes_identity
           (events (publish_or_update_table "Group_Snapshot" Sample.new_df
                      (FolderStr "Analytics") "" (Sample.portal [Failed] ["no"]))) = true
      /\ ~ answered_yes
             (events (publish_or_update_table "Group_Snapshot" Sample.new_df
                        (FolderStr "Analytics") "" (Sample.portal [Failed] ["no"])))
      /\ stdin (final (publish_or_update_table "Group_Snapshot" Sample.new_df
                         (FolderStr "Analytics") "" (Sample.portal [Failed] ["no"])))
         = ["no"]).
Proof. exact (conj twin_tables_swap_identity failed_lookup_publishes_a_duplicate). Qed.

(** C1, amended: let the portal hold at most one item with the table's
    title owned by the current user.  Then for every sequence of calls to
    [publish_or_update_table] for that table in which each call has data,
    finds an existing table and updates it successfully, every call
    returns the item found before the first call, and the whole run sends
    no request that publishes or deletes an item.  Moreover, in any call
    whose lookup finds an existing table, such a request is sent only
    after the operator has answered yes at the prompt; a call whose
    lookup does not find the table publishes without asking. *)
Theorem identity_kept_across_successful_updates name calls w it0 :
  unique_table name w ->
  outcome (find_existing_table name w) = Return (Some it0) ->
  updates_succeed name calls w ->
  Forall (fun r => r = Return (Some it0)) (run_calls name calls w).1.1
  /\ existsb changes_identity (run_calls name calls w).2 = false
  /\ (forall df folder description w' it,
        outcome (find_existing_table name w') = Return (Some it) ->
        existsb changes_identity
          (events (publish_or_update_table name df folder description w')) = true ->
        answered_yes
          (events (publish_or_update_table name df folder description w'))).
Proof.
  intros Huniq Hfind Hcalls.
  assert (Hknown : table_known name it0 w).
  { split; [assumption|]. apply find_existing_table_found. assumption. }
  destruct (successful_updates_keep_identity name calls w it0 Hknown Hcalls)
    as [Hresults Hevents].
  repeat split; [assumption..|].
  intros df folder description w' it. apply identity_changes_only_after_yes.
Qed.

Lemma sample_portal_unique : unique_table "Group_Snapshot" (Sample.portal [] []).
Proof.
  intros a b Ha Hb Hta _ Htb _. simpl in Ha, Hb.
  apply elem_of_cons in Ha as [->|Ha]; apply elem_of_cons in Hb as [->|Hb];
    try reflexivity;
    repeat match goal with
           | H : _ ∈ [_] |- _ => apply list_elem_of_singleton in H; subst
           end;
    discriminate.
Defined.

Lemma sample_updates_succeed :
  updates_succeed "Group_Snapshot" Twins.two_calls (Sample.portal [] []).
Proof.
  simpl. split; [discriminate|split].
  - exists Sample.table. split; vm_compute; reflexivity.
  - split; [discriminate|split; [|exact I]].
    exists Sample.table. split; vm_compute; reflexivity.
Defined.

Lemma identity_kept_across_successful_updates_witness :
  Forall (fun r => r = Return (Some Sample.table))
         (run_calls "Group_Snapshot" Twins.two_calls (Sample.portal [] [])).1.1
  /\ existsb changes_identity
       (run_calls "Group_Snapshot" Twins.two_calls (Sample.portal [] [])).2 = false
  /\ (forall df folder description w' it,
        outcome (find_existing_table "Group_Snapshot" w') = Return (Some it) ->
        existsb changes_identity
          (events (publish_or_update_table "Group_Snapshot" df folder description w'))
        = true ->
        answered_yes
          (events (publish_or_update_table "Group_Snapshot" df folder description w'))).
Proof.
  apply (identity_kept_across_successful_updates "Group_Snapshot" Twins.two_calls
           (Sample.portal [] []) Sample.table).
  - exact sample_portal_unique.
  - vm_compute. reflexivity.
  - exact sample_updates_succeed.
Defined.

(** A yes at the prompt does lead to a new identity: the old item is
    deleted and the table published afresh gets the next id. *)
Lemma recreate_after_yes :
  outcome (publish_or_update_table "Group_Snapshot" Sample.new_df
             (FolderStr "Analytics") ""
             (Sample.portal failed_refresh ["yes"]))
  = Return (Some {| item_id := 4; item_title := "Group_Snapshot";
                    item_owner := "analyst"; item_type := "Feature Service" |}).
Proof. vm_compute. reflexivity. Qed.

(** * Further properties *)

(** ** Field sanitizer: further properties *)

Lemma str_take_drop n s : PyStr.take n s +:+ PyStr.drop n s = s.
Proof.
  revert s; induction n as [|n IH]; intros [|c s]; simpl; try reflexivity.
  change (String c (PyStr.take n s +:+ PyStr.drop n s) = String c s).
  f_equal. apply IH.
Qed.

Lemma truncate_string_cases (value : PyVal) (n : Z) (e : bool) :
  (0 <= n)%Z ->
  truncate_string value n e = ""
  \/ ((PyStr.len (py_str value) <= n)%Z /\ truncate_string value n e = py_str value)
  \/ ((n < PyStr.len (py_str value))%Z /\ (3 < n)%Z /\ e = true
      /\ truncate_string value n e
         = PyStr.take (Z.to_nat (n - 3)) (py_str value) +:+ "...")
  \/ ((n < PyStr.len (py_str value))%Z /\ (e = false \/ (n <= 3)%Z)
      /\ truncate_string value n e = PyStr.take (Z.to_nat n) (py_str value)).
Proof.
  intros Hn.
  assert (H : value = VNone \/
              truncate_string value n e =
              let str_value := py_str value in
              if (PyStr.len str_value <=? n)%Z then str_value
              else if e && (3 <? n)%Z
                   then PyStr.slice_to str_value (n - 3) +:+ "..."
                   else PyStr.slice_to str_value n).
  { destruct value; auto. }
  destruct H as [-> | ->]; [left; reflexivity|]. cbv zeta. right.
  destruct (PyStr.len (py_str value) <=? n)%Z eqn:E.
  - left. apply Z.leb_le in E. auto.
  - right. apply Z.leb_gt in E. unfold PyStr.slice_to.
    destruct e; simpl.
    + destruct (3 <? n)%Z eqn:E3.
      * apply Z.ltb_lt in E3. left.
        destruct (0 <=? n - 3)%Z eqn:E0; [auto|apply Z.leb_gt in E0; lia].
      * apply Z.ltb_ge in E3. right.
        destruct (0 <=? n)%Z eqn:E0; [auto|apply Z.leb_gt in E0; lia].
    + right. destruct (0 <=? n)%Z eqn:E0; [auto|apply Z.leb_gt in E0; lia].
Qed.

Lemma truncate_string_length (value : PyVal) (n : Z) (e : bool) :
  (0 <= n)%Z -> (PyStr.len (truncate_string value n e) <= n)%Z.
Proof.
  intros Hn.
  destruct (truncate_string_cases value n e Hn)
    as [-> | [[Hle ->] | [(Hlt & H3 & _ & ->) | (Hlt & _ & ->)]]].
  - exact Hn.
  - exact Hle.
  - unfold PyStr.len in *. rewrite str_length_app, str_length_take. simpl. lia.
  - unfold PyStr.len in *. rewrite str_length_take. lia.
Qed.

(** X1: for a [max_length] that is not negative, [truncate_string] returns a
    string of at most [max_length] characters, whatever the value and
    whether or not an ellipsis is asked for. *)
Theorem truncate_string_never_longer (value : PyVal) (n : Z) (e : bool) :
  (0 <= n)%Z -> (PyStr.len (truncate_string value n e) <= n)%Z.
Proof. exact (truncate_string_length value n e). Qed.

Lemma truncate_string_never_longer_witness :
  (PyStr.len (truncate_string (VInt 1234567) 2 true) <= 2)%Z.
Proof. apply truncate_string_never_longer. lia. Defined.

(** X2: truncating a second time to the same [max_length] (not negative)
    changes nothing: no further character is cut and no second ellipsis is
    added, whatever the two ellipsis flags. *)
Theorem truncate_string_idempotent (value : PyVal) (n : Z) (e e' : bool) :
  (0 <= n)%Z ->
  truncate_string (VStr (truncate_string value n e)) n e'
  = truncate_string value n e.
Proof.
  intros Hn. apply truncate_string_short.
  destruct (truncate_string_cases value n e Hn)
    as [-> | [[Hle ->] | [(Hlt & H3 & _ & ->) | (Hlt & _ & ->)]]].
  - exact Hn.
  - exact Hle.
  - unfold PyStr.len in *. rewrite str_length_app, str_length_take. simpl. lia.
  - unfold PyStr.len in *. rewrite str_length_take. lia.
Qed.

Lemma truncate_string_idempotent_witness :
  truncate_string (VStr (truncate_string (VStr "Water quality monitoring") 12 true)) 12 false
  = truncate_string (VStr "Water quality monitoring") 12 true.
Proof. apply truncate_string_idempotent. lia. Defined.

(** X3: for a [max_length] that is not negative, the result of
    [truncate_string] on a string is a prefix of that string, or a prefix
    of [max_length - 3] characters followed by [...]; in the second case
    something has been cut off. *)
Theorem truncate_string_keeps_a_prefix (s : string) (n : Z) (e : bool) :
  (0 <= n)%Z ->
  exists kept dropped,
    s = kept +:+ dropped
    /\ (truncate_string (VStr s) n e = kept
        \/ (truncate_string (VStr s) n e = kept +:+ "..."
            /\ PyStr.len kept = (n - 3)%Z /\ dropped <> "")).
Proof.
  intros Hn.
  destruct (truncate_string_cases (VStr s) n e Hn)
    as [H|[[Hle H]|[(Hlt & H3 & _ & H)|(Hlt & _ & H)]]]; simpl in *.
  - exists "", s. split; [reflexivity|]. left. exact H.
  - exists s, "". split; [|left; exact H].
    clear. induction s as [|c s IH]; [reflexivity|].
    change (String c s = String c (s +:+ "")). f_equal. exact IH.
  - exists (PyStr.take (Z.to_nat (n - 3)) s), (PyStr.drop (Z.to_nat (n - 3)) s).
    split; [symmetry; apply str_take_drop|]. right. split; [exact H|].
    unfold PyStr.len in *. rewrite str_length_take. split; [lia|].
    intros Hd.
    pose proof (str_take_drop (Z.to_nat (n - 3)) s) as Heq.
    rewrite Hd in Heq. apply (f_equal String.length) in Heq.
    rewrite str_length_app, str_length_take in Heq. simpl in Heq. lia.
  - exists (PyStr.take (Z.to_nat n) s), (PyStr.drop (Z.to_nat n) s).
    split; [symmetry; apply str_take_drop|]. left. exact H.
Qed.

Lemma truncate_string_keeps_a_prefix_witness :
  exists kept dropped,
    "Water quality monitoring" = kept +:+ dropped
    /\ (truncate_string (VStr "Water quality monitoring") 12 true = kept
        \/ (truncate_string (VStr "Water quality monitoring") 12 true = kept +:+ "..."
            /\ PyStr.len kept = (12 - 3)%Z /\ dropped <> "")).
Proof. apply truncate_string_keeps_a_prefix. lia. Defined.

(** X4: a value sanitized by [truncate_string] to a [max_length] between 0 and
    the length of a field is sent for that field by the batch fallback as
    it is: the fallback cuts nothing more from it. *)
Theorem truncated_value_fits_the_field (fi : FieldInfo) (value : PyVal) (n : Z)
    (e : bool) :
  (0 <= n <= fi_length fi)%Z ->
  field_value fi (VStr (truncate_string value n e))
  = VStr (truncate_string value n e).
Proof.
  intros [Hn Hfi]. unfold field_value. simpl.
  destruct (String.eqb (fi_type fi) "esriFieldTypeString"); [|reflexivity].
  pose proof (truncate_string_length value n e Hn) as Hlen.
  destruct (fi_length fi <? PyStr.len (truncate_string value n e))%Z eqn:E;
    [apply Z.ltb_lt in E; lia|reflexivity].
Qed.

Lemma truncated_value_fits_the_field_witness :
  field_value {| fi_name := "group_title"; fi_type := "esriFieldTypeString";
                 fi_length := 256 |}
    (VStr (truncate_string (VStr "Regional planning partners") 10 true))
  = VStr (truncate_string (VStr "Regional planning partners") 10 true).
Proof.
  apply (truncated_value_fits_the_field
           {| fi_name := "group_title"; fi_type := "esriFieldTypeString";
              fi_length := 256 |}).
  simpl. lia.
Defined.

(** ** Timestamp helpers: the range of results *)

Section TimestampRange.
Import Timestamps.
Local Open Scope Z_scope.

Lemma round_half_even_nonneg a b : 0 <= a -> 0 < b -> 0 <= round_half_even a b.
Proof.
  intros Ha Hb. unfold round_half_even.
  pose proof (Z.div_pos a b Ha Hb).
  destruct (_ || _); lia.
Qed.

(** Rounding a quotient that is at most an integer does not go beyond
    it. *)
Lemma round_half_even_le a b k : 0 < b -> a <= k * b -> round_half_even a b <= k.
Proof.
  intros Hb Hk. unfold round_half_even.
  pose proof (Z.div_mod a b ltac:(lia)) as Hdm.
  pose proof (Z.mod_pos_bound a b Hb) as Hr.
  assert (Hq : a / b <= k) by (apply Z.div_le_upper_bound; lia).
  destruct (_ || _) eqn:E; [|exact Hq].
  apply orb_true_iff in E as [E|E].
  - apply Z.ltb_lt in E. nia.
  - apply andb_true_iff in E as [E _]. apply Z.eqb_eq in E. nia.
Qed.

(** A quotient at most half above an even integer rounds to at most that
    integer. *)
Lemma round_half_even_tie a b k :
  0 < b -> 2 * a <= (2 * k + 1) * b -> Z.even k = true -> round_half_even a b <= k.
Proof.
  intros Hb Hk Hev. unfold round_half_even.
  pose proof (Z.div_mod a b ltac:(lia)) as Hdm.
  pose proof (Z.mod_pos_bound a b Hb) as Hr.
  assert (Hq : a / b <= k) by (apply Z.lt_succ_r, Z.div_lt_upper_bound; nia).
  destruct (_ || _) eqn:E; [|exact Hq].
  apply orb_true_iff in E as [E|E].
  - apply Z.ltb_lt in E. nia.
  - apply andb_true_iff in E as [E Hodd]. apply Z.eqb_eq in E.
    assert (a / b <> k); [|lia].
    intros Heq. rewrite Heq, <- Z.negb_even, Hev in Hodd. discriminate.
Qed.

(** The exponent that [nearest_double] picks. *)
Lemma nearest_double_exponent n d :
  let e0 := Z.log2 n - Z.log2 d - 53 in
  ((nearest_double n d).2 = e0
   /\ (scaled n d e0).1 / (scaled n d e0).2 < 2 ^ 53)
  \/ ((nearest_double n d).2 = e0 + 1
      /\ 2 ^ 53 <= (scaled n d e0).1 / (scaled n d e0).2).
Proof.
  unfold nearest_double. cbv zeta.
  destruct (scaled n d (Z.log2 n - Z.log2 d - 53)) as [a0 b0]. cbn [fst snd].
  destruct (2 ^ 53 <=? a0 / b0) eqn:E; destruct (scaled n d _); cbn [fst snd].
  - right. apply Z.leb_le in E. auto.
  - left. apply Z.leb_gt in E. auto.
Qed.

Lemma nearest_double_nonneg n d : 0 <= n -> 0 < d -> 0 <= (nearest_double n d).1.
Proof.
  intros Hn Hd. unfold nearest_double. cbv zeta.
  destruct (scaled n d _) as [a0 b0].
  set (e := if 2 ^ 53 <=? a0 / b0 then _ else _).
  unfold scaled. destruct (0 <=? e) eqn:E; simpl.
  - apply Z.leb_le in E. apply round_half_even_nonneg; [exact Hn|].
    pose proof (Z.pow_pos_nonneg 2 e ltac:(lia) E). nia.
  - apply Z.leb_gt in E. apply round_half_even_nonneg; [|exact Hd].
    pose proof (Z.pow_pos_nonneg 2 (- e) ltac:(lia) ltac:(lia)). nia.
Qed.

(** The double nearest to a quotient that is at most [k * 2^e], for the
    exponent [e] of the double, has a mantissa of at most [k]. *)
Lemma nearest_double_le n d k :
  0 < d ->
  (0 <= (nearest_double n d).2 -> n <= k * (d * 2 ^ (nearest_double n d).2)) ->
  ((nearest_double n d).2 < 0 -> n * 2 ^ (- (nearest_double n d).2) <= k * d) ->
  (nearest_double n d).1 <= k.
Proof.
  intros Hd. unfold nearest_double. cbv zeta.
  destruct (scaled n d _) as [a0 b0].
  set (e := if 2 ^ 53 <=? a0 / b0 then _ else _).
  unfold scaled. destruct (0 <=? e) eqn:E; simpl; intros Hpos Hneg.
  - apply Z.leb_le in E. apply round_half_even_le; [|auto].
    pose proof (Z.pow_pos_nonneg 2 e ltac:(lia) E). nia.
  - apply Z.leb_gt in E. apply round_half_even_le; auto.
Qed.

Lemma nearest_double_tie n d k :
  0 < d -> 0 <= (nearest_double n d).2 ->
  2 * n <= (2 * k + 1) * (d * 2 ^ (nearest_double n d).2) ->
  Z.even k = true ->
  (nearest_double n d).1 <= k.
Proof.
  intros Hd. unfold nearest_double. cbv zeta.
  destruct (scaled n d _) as [a0 b0].
  set (e := if 2 ^ 53 <=? a0 / b0 then _ else _).
  unfold scaled. destruct (0 <=? e) eqn:E; simpl; intros Hpos Hk Hev.
  - apply round_half_even_tie; [|auto..].
    pose proof (Z.pow_pos_nonneg 2 e ltac:(lia) Hpos). nia.
  - apply Z.leb_gt in E. lia.
Qed.


(** The microseconds of [to_timeval] are a number of microseconds. *)
Lemma to_timeval_us m e : 0 <= (to_timeval m e).2 < 1000000.
Proof.
  unfold to_timeval. destruct (0 <=? e) eqn:E; [simpl; lia|].
  apply Z.leb_gt in E.
  set (d := 2 ^ (- e)).
  assert (Hd : 0 < d) by (apply Z.pow_pos_nonneg; lia).
  set (f := Z.abs (Z.rem m d)).
  assert (Hf : 0 <= f < d).
  { unfold f. pose proof (Z.rem_bound_abs m d ltac:(lia)). lia. }
  set (us_abs := if f =? 0 then 0 else _).
  assert (Hus : 0 <= us_abs <= 1000000).
  { unfold us_abs. destruct (f =? 0) eqn:Ef; [lia|]. apply Z.eqb_neq in Ef.
    destruct (nearest_double (f * 1000000) d) as [pm pe] eqn:Hp.
    pose proof (nearest_double_exponent (f * 1000000) d) as He.
    pose proof (nearest_double_nonneg (f * 1000000) d ltac:(lia) Hd) as Hm.
    pose proof (nearest_double_le (f * 1000000) d (1000000 * 2 ^ (- pe)) Hd) as Hle.
    rewrite Hp in He, Hm, Hle. cbn [fst snd] in He, Hm, Hle.
    assert (Hpe : pe < 0).
    { assert (Z.log2 (f * 1000000) <= Z.log2 d + 20); [|lia].
      replace (Z.log2 d + 20) with (Z.log2 (d * 2 ^ 20)).
      - apply Z.log2_le_mono. lia.
      - unfold d. rewrite <- Z.pow_add_r by lia. rewrite !Z.log2_pow2 by lia. lia. }
    destruct (0 <=? pe) eqn:Epe; [apply Z.leb_le in Epe; lia|].
    assert (H2 : 0 < 2 ^ (- pe)) by (apply Z.pow_pos_nonneg; lia).
    split.
    - apply round_half_even_nonneg; lia.
    - apply round_half_even_le; [exact H2|]. apply Hle; [lia|]. intros _. nia. }
  clearbody us_abs. clear -Hus.
  destruct (Z.sgn_spec m) as [[_ ->]|[[_ ->]|[_ ->]]];
    repeat case_if; cbn [snd];
    repeat match goal with
           | H : (_ <=? _) = _ |- _ =>
               first [apply Z.leb_le in H|apply Z.leb_gt in H]
           | H : (_ <? _) = _ |- _ =>
               first [apply Z.ltb_lt in H|apply Z.ltb_ge in H]
           end; lia.
Qed.

(** The whole seconds of [to_timeval]. *)
Lemma to_timeval_seconds m e :
  (0 <= e -> (to_timeval m e).1 = m * 2 ^ e)
  /\ (e < 0 -> Z.abs (to_timeval m e).1 <= Z.abs m / 2 ^ (- e) + 1).
Proof.
  unfold to_timeval. split; intros He.
  - destruct (0 <=? e) eqn:E; [reflexivity|apply Z.leb_gt in E; lia].
  - destruct (0 <=? e) eqn:E; [apply Z.leb_le in E; lia|].
    set (d := 2 ^ (- e)).
    assert (Hd : 0 < d) by (apply Z.pow_pos_nonneg; lia).
    assert (Hq : Z.abs (Z.quot m d) = Z.abs m / d).
    { rewrite <- Z.quot_abs by lia. rewrite (Z.abs_eq d) by lia.
      apply Z.quot_div_nonneg; lia. }
    repeat case_if; cbn [fst]; lia.
Qed.


(** The seconds of an integer of milliseconds that is at most
    [(2^63 + 1024) * 1000] in magnitude are within [-2^63, 2^63]: the
    quotient rounds to [2^63] at most. *)
Lemma quotient_1000_fits (z : Z) :
  Z.abs z <= (2 ^ 63 + 1024) * 1000 ->
  exists m e, quotient_1000 z = FDouble m e
              /\ - 2 ^ 63 <= (to_timeval m e).1 <= 2 ^ 63.
Proof.
  intros Hz. unfold quotient_1000.
  destruct (z =? 0) eqn:Ez.
  { exists 0, 0. split; [reflexivity|]. vm_compute. split; discriminate. }
  apply Z.eqb_neq in Ez.
  set (n := Z.abs z) in *.
  assert (Hn : 0 < n) by (unfold n; lia).
  destruct (nearest_double n 1000) as [m e] eqn:Hp.
  exists (Z.sgn z * m), e. split; [reflexivity|].
  pose proof (nearest_double_exponent n 1000) as He.
  pose proof (nearest_double_nonneg n 1000 ltac:(lia) ltac:(lia)) as Hm.
  rewrite Hp in He, Hm. cbn [fst snd] in He, Hm.
  change (Z.log2 1000) with 9 in He.
  pose proof (Z.log2_spec n Hn) as [Hlo Hhi].
  assert (Hlog : Z.log2 n <= 72).
  { apply Z.lt_succ_r, (Z.pow_lt_mono_r_iff 2); [lia..|].
    eapply Z.le_lt_trans; [exact Hlo|]. lia. }
  pose proof (Z.log2_nonneg n) as Hlog0.
  assert (Habs : Z.abs (Z.sgn z * m) = m).
  { destruct (Z.sgn_spec z) as [[_ ->]|[[? ->]|[_ ->]]]; lia. }
  destruct (to_timeval_seconds (Z.sgn z * m) e) as [Hpos Hneg].
  destruct (Z_lt_le_dec e 0) as [Heneg|Hepos].
  - (* a quotient below 2^53 *)
    specialize (Hneg Heneg). rewrite Habs in Hneg.
    assert (Hsmall : n < 2 ^ 62).
    { eapply Z.lt_le_trans; [exact Hhi|]. apply Z.pow_le_mono_r; lia. }
    pose proof (nearest_double_le n 1000 (n * 2 ^ (- e)) ltac:(lia)) as Hle.
    rewrite Hp in Hle. cbn [fst snd] in Hle.
    assert (H2 : 0 < 2 ^ (- e)) by (apply Z.pow_pos_nonneg; lia).
    assert (Hmle : m <= n * 2 ^ (- e)) by (apply Hle; [lia|intros _; nia]).
    assert (m / 2 ^ (- e) <= n) by (apply Z.div_le_upper_bound; lia).
    lia.
  - (* a quotient of at least 2^53: the seconds are the double itself *)
    rewrite (Hpos Hepos).
    assert (H2 : 0 < 2 ^ e) by (apply Z.pow_pos_nonneg; lia).
    assert (He11 : e <= 11) by lia.
    assert (Hval : m * 2 ^ e <= 2 ^ 63).
    { destruct (Z_le_gt_dec n (2 ^ 63 * 1000)) as [Ha|Hb].
      - pose proof (nearest_double_le n 1000 (2 ^ (63 - e)) ltac:(lia)) as Hle.
        rewrite Hp in Hle. cbn [fst snd] in Hle.
        assert (Hpow : 2 ^ (63 - e) * 2 ^ e = 2 ^ 63)
          by (rewrite <- Z.pow_add_r by lia; f_equal; lia).
        assert (m <= 2 ^ (63 - e)) by (apply Hle; [intros _; nia|lia]).
        nia.
      - assert (Hl72 : Z.log2 n = 72).
        { apply Z.log2_unique; [lia|]. split; lia. }
        rewrite Hl72 in He. change (72 - 9 - 53) with 10 in He.
        unfold scaled in He. change (0 <=? 10) with true in He. cbn [fst snd] in He.
        destruct He as [[_ Hq]|[-> _]].
        + exfalso. apply Z.lt_nge in Hq. apply Hq.
          apply Z.div_le_lower_bound; lia.
        + pose proof (nearest_double_tie n 1000 (2 ^ 52) ltac:(lia)) as Htie.
          rewrite Hp in Htie. cbn [fst snd] in Htie.
          assert (m <= 2 ^ 52) by (apply Htie; [lia|lia|reflexivity]).
          lia. }
    destruct (Z.sgn_spec z) as [[_ ->]|[[_ ->]|[_ ->]]]; nia.
Qed.


Lemma local_cases (c : Clock) (t : Z) :
  local c t = Raise OSError \/ local c t = Raise ValueError
  \/ (local c t = Return (local_seconds c t)
      /\ 1 <= year_of_seconds (local_seconds c t) <= 9999).
Proof.
  unfold local, localtime.
  case_if; [left; reflexivity|]. cbn [rbind].
  case_if; [right; left; reflexivity|].
  right; right. split; [reflexivity|].
  apply orb_false_iff in Heqb0 as [H1 H2]. apply Z.ltb_ge in H1, H2. lia.
Qed.

(** The date of a local time is the date of its whole seconds. *)
Lemma date_of_seconds (s us : Z) :
  0 <= us < 1000000 ->
  exists y m d, date {| local_us := s * 1000000 + us |} = VDate y m d
                /\ y = year_of_seconds s.
Proof.
  intros Hus. unfold date, year_of_seconds. cbn [local_us].
  replace ((s * 1000000 + us) / 86400000000) with (s / 86400)
    by (Z.to_euclidean_division_equations; lia).
  destruct (civil_from_days (s / 86400)) as [[y m] d]. eauto.
Qed.

Lemma fromtimestamp_in_range (c : Clock) (m e : Z) :
  - 2 ^ 63 <= (to_timeval m e).1 <= 2 ^ 63 ->
  fromtimestamp c (FDouble m e) = Raise OSError
  \/ fromtimestamp c (FDouble m e) = Raise ValueError
  \/ exists dt y mo d, fromtimestamp c (FDouble m e) = Return dt
                       /\ date dt = VDate y mo d /\ 1 <= y <= 9999.
Proof.
  intros Hrange. unfold fromtimestamp.
  pose proof (to_timeval_us m e) as Hus.
  destruct (to_timeval m e) as [intpart us]. cbn [fst snd] in Hrange, Hus.
  destruct ((intpart <? - 2 ^ 63) || (2 ^ 63 <? intpart)) eqn:E.
  { apply orb_true_iff in E as [E|E]; apply Z.ltb_lt in E; lia. }
  set (timet := if intpart =? 2 ^ 63 then _ else _).
  destruct (local_cases c timet) as [-> | [-> | [-> Hy]]]; auto. cbn [rbind].
  destruct (local_cases c (timet - 86400)) as [-> | [-> | [-> _]]]; auto. cbn [rbind].
  assert (Hend :
    exists dt y mo d,
      Return {| local_us := local_seconds c timet * 1000000 + us |} = Return dt
      /\ date dt = VDate y mo d /\ 1 <= y <= 9999).
  { destruct (date_of_seconds (local_seconds c timet) us Hus) as (y & mo & d & Hd & ->).
    eauto 10. }
  case_if; [|cbn [rbind]; auto].
  match goal with
  | |- context [local c ?t] => destruct (local_cases c t) as [-> | [-> | [-> _]]]
  end; cbn [rbind]; auto.
Qed.

Lemma conversion_of_float (c : Clock) (t : PyFloat) :
  (forall m e, t = FDouble m e -> - 2 ^ 63 <= (to_timeval m e).1 <= 2 ^ 63) ->
  (try_except (rbind (fromtimestamp c t) (fun dt => Return (date dt)))
     conversion_errors (Return VNone) = Return VNone
   \/ exists y m d,
        try_except (rbind (fromtimestamp c t) (fun dt => Return (date dt)))
          conversion_errors (Return VNone) = Return (VDate y m d)
        /\ (1 <= y <= 9999)%Z)
  /\ (try_except (rbind (fromtimestamp c t)
                    (fun dt => Return (VInt (delta_days (now c) dt))))
        conversion_errors (Return VNone) = Return VNone
      \/ exists n,
           try_except (rbind (fromtimestamp c t)
                         (fun dt => Return (VInt (delta_days (now c) dt))))
             conversion_errors (Return VNone) = Return (VInt n)).
Proof.
  intros Ht. destruct t as [|m e].
  - split; left; reflexivity.
  - destruct (fromtimestamp_in_range c m e (Ht m e eq_refl))
      as [-> | [-> | (dt & y & mo & d & -> & Hd & Hy)]].
    + split; left; reflexivity.
    + split; left; reflexivity.
    + split; right; simpl; [rewrite Hd|]; eauto.
Qed.

Lemma div_1000_fits (z : Z) :
  Z.abs z <= (2 ^ 63 + 1024) * 1000 ->
  exists m e, div_1000 (VInt z) = Return (FDouble m e)
              /\ - 2 ^ 63 <= (to_timeval m e).1 <= 2 ^ 63.
Proof.
  intros Hz. unfold div_1000, float_overflows.
  destruct ((2 ^ 1024 - 2 ^ 970) * 1000 <=? Z.abs z) eqn:E.
  { apply Z.leb_le in E.
    assert ((2 ^ 63 + 1024) * 1000 < (2 ^ 1024 - 2 ^ 970) * 1000)
      by (vm_compute; reflexivity).
    lia. }
  destruct (quotient_1000_fits z Hz) as (m & e & -> & H). eauto.
Qed.

(** X5: on a timestamp that is no number ([None], a string, a date, NaN),
    on a boolean, and on an integer of milliseconds of at most
    [(2^63 + 1024) * 1000] in magnitude, whose seconds are a double within
    the range of a 64-bit [time_t], the two timestamp helpers return: the
    conversion gives [None] or a date of a year from 1 to 9999, and
    [days_since] gives [None] or an integer. *)
Theorem timestamp_helpers_return_within_time_t (c : Clock) (v : PyVal) :
  fits_time_t v ->
  (convert_timestamp_to_date c v = Return VNone
   \/ exists y m d, convert_timestamp_to_date c v = Return (VDate y m d)
                    /\ (1 <= y <= 9999)%Z)
  /\ (days_since c v = Return VNone
      \/ exists n, days_since c v = Return (VInt n)).
Proof.
  intros Hv. unfold convert_timestamp_to_date, days_since.
  destruct v as [| |s|z|b|y m d]; try (split; left; reflexivity).
  - (* int *)
    destruct (is_minus_one (VInt z)); [split; left; reflexivity|].
    destruct (div_1000_fits z (Hv z eq_refl)) as (m & e & -> & Hfit). cbn [rbind].
    apply conversion_of_float. intros m' e' [= <- <-]. exact Hfit.
  - (* bool *)
    cbn [is_minus_one].
    destruct (div_1000_fits (if b then 1 else 0) ltac:(destruct b; lia))
      as (m & e & Hq & Hfit).
    assert (Hb : div_1000 (VBool b) = Return (FDouble m e)).
    { revert Hq. unfold div_1000, float_overflows.
      destruct b; (case_if; [discriminate|exact id]). }
    rewrite Hb. cbn [rbind].
    apply conversion_of_float. intros m' e' [= <- <-]. exact Hfit.
Qed.

Lemma timestamp_helpers_return_within_time_t_witness :
  (convert_timestamp_to_date
     {| utc_offset := fun _ => 3600; now_us := 1700000000000000 |}
     (VInt 1600000000000) = Return VNone
   \/ exists y m d,
        convert_timestamp_to_date
          {| utc_offset := fun _ => 3600; now_us := 1700000000000000 |}
          (VInt 1600000000000) = Return (VDate y m d)
        /\ (1 <= y <= 9999)%Z)
  /\ (days_since {| utc_offset := fun _ => 3600; now_us := 1700000000000000 |}
        (VInt 1600000000000) = Return VNone
      \/ exists n,
           days_since {| utc_offset := fun _ => 3600; now_us := 1700000000000000 |}
             (VInt 1600000000000) = Return (VInt n)).
Proof.
  apply timestamp_helpers_return_within_time_t.
  intros z [= <-]. vm_compute. discriminate.
Defined.

End TimestampRange.

(** ** Batches *)

Lemma chunks_partition fuel n (l : list (gmap string PyVal)) :
  0 < n -> length l <= fuel ->
  concat (chunks fuel n l) = l
  /\ Forall (fun b => 0 < length b <= n) (chunks fuel n l)
  /\ (forall i b, chunks fuel n l !! i = Some b ->
        S i < length (chunks fuel n l) -> length b = n).
Proof.
  intros Hn. revert l; induction fuel as [|fuel IH]; intros l Hl.
  - destruct l; [|simpl in Hl; lia]. simpl. repeat split; [constructor|].
    intros i b H; discriminate.
  - destruct l as [|x l]; simpl chunks.
    + repeat split; [constructor|]. intros i b H; discriminate.
    + destruct (IH (drop n (x :: l))) as (Hc & Hf & Hfull).
      { rewrite length_drop. simpl in *. lia. }
      split; [|split].
      * simpl. rewrite Hc. apply take_drop.
      * constructor; [|exact Hf]. rewrite length_take. simpl. lia.
      * intros [|i] b Hb Hi; simpl in *.
        -- injection Hb as <-. rewrite length_take.
           destruct (chunks fuel n (drop n (x :: l))) as [|b' bs] eqn:E;
             [simpl in Hi; lia|].
           assert (Hd : drop n (x :: l) <> []).
           { intros Hd. rewrite Hd in E. destruct fuel; discriminate. }
           assert (n < length (x :: l)).
           { destruct (decide (n < length (x :: l))); [assumption|].
             exfalso. apply Hd. apply drop_ge. lia. }
           simpl in *. lia.
        -- apply (Hfull i b Hb). lia.
Qed.

Lemma batches_partition (batch_size : Z) (l : list (gmap string PyVal)) :
  (0 < batch_size)%Z ->
  concat (batches batch_size l) = l
  /\ Forall (fun b => 0 < length b <= Z.to_nat batch_size) (batches batch_size l)
  /\ (forall i b, batches batch_size l !! i = Some b ->
        S i < length (batches batch_size l) -> length b = Z.to_nat batch_size).
Proof.
  intros Hbs. unfold batches.
  destruct (batch_size <=? 0)%Z eqn:E; [apply Z.leb_le in E; lia|].
  apply chunks_partition; lia.
Qed.

(** X6: for a positive [batch_size], the batches of the insert loop are the
    features in order, each batch is non-empty and holds at most
    [batch_size] of them, and every batch but the last holds exactly
    [batch_size]. *)
Theorem batches_partition_the_rows (batch_size : Z) (l : list (gmap string PyVal)) :
  (0 < batch_size)%Z ->
  concat (batches batch_size l) = l
  /\ Forall (fun b => 0 < length b <= Z.to_nat batch_size) (batches batch_size l)
  /\ (forall i b, batches batch_size l !! i = Some b ->
        S i < length (batches batch_size l) -> length b = Z.to_nat batch_size).
Proof. exact (batches_partition batch_size l). Qed.

Lemma batches_partition_the_rows_witness :
  concat (batches 2 (records Sample.new_df ++ records Sample.old_df))
  = records Sample.new_df ++ records Sample.old_df
  /\ Forall (fun b => 0 < length b <= Z.to_nat 2)
            (batches 2 (records Sample.new_df ++ records Sample.old_df))
  /\ (forall i b,
        batches 2 (records Sample.new_df ++ records Sample.old_df) !! i = Some b ->
        S i < length (batches 2 (records Sample.new_df ++ records Sample.old_df)) ->
        length b = Z.to_nat 2).
Proof. apply batches_partition_the_rows. lia. Defined.

(** X7: with a [batch_size] of zero or less, [add_features_in_batches]
    returns [False], sends no request and leaves the portal as it was. *)
Theorem nonpositive_batch_size_sends_nothing layer df (batch_size : Z) w :
  (batch_size <= 0)%Z ->
  add_features_in_batches layer df batch_size w = (Return false, w, []).
Proof.
  intros Hbs. unfold add_features_in_batches, try_catch, bind, get, lift, raise, ret.
  destruct (get_layer w layer) as [l|]; [|reflexivity].
  destruct (batch_prepare df) as [rows|e]; [|reflexivity].
  destruct (build_features _ _ rows) as [|f fs] eqn:Ef; [reflexivity|].
  destruct (batch_size =? 0)%Z eqn:E0; [reflexivity|].
  unfold batches. destruct (batch_size <=? 0)%Z eqn:E; [|apply Z.leb_gt in E; lia].
  reflexivity.
Qed.

Lemma nonpositive_batch_size_sends_nothing_witness :
  add_features_in_batches Sample.layer Sample.new_df 0 (Sample.portal [] [])
  = (Return false, Sample.portal [] [], []).
Proof. apply nonpositive_batch_size_sends_nothing. lia. Defined.

(** ** Batch upsert fallback: what reaches the layer *)

Lemma accepted_rows_sublist adds flags : accepted_rows adds flags `sublist_of` adds.
Proof.
  unfold accepted_rows.
  revert flags; induction adds as [|a adds IH]; intros [|b flags]; simpl;
    try apply sublist_nil_l.
  destruct b; simpl; [apply sublist_skip|apply sublist_cons]; apply IH.
Qed.

Lemma inserts_same lr batch w w' :
  layer_rows w' lr = layer_rows w lr -> inserts lr batch w w'.
Proof. intros H. exists []. rewrite app_nil_r. split; [apply sublist_nil_l|exact H]. Qed.

Lemma inserts_trans lr b1 b2 w w1 w2 :
  inserts lr b1 w w1 -> inserts lr b2 w1 w2 -> inserts lr (b1 ++ b2) w w2.
Proof.
  intros (a1 & Hs1 & H1) (a2 & Hs2 & H2). exists (a1 ++ a2).
  split; [apply sublist_app; assumption|]. rewrite H2, H1, <- app_assoc. reflexivity.
Qed.

Lemma edit_features_inserts lr adds w :
  sat (edit_features lr adds) w (fun _ w' _ => inserts lr adds w w').
Proof.
  sat_use edit_features_rows.
  destruct r as [[flags|]|e]; [|apply inserts_same; assumption..].
  destruct H as [_ H]. exists (accepted_rows adds flags).
  split; [apply accepted_rows_sublist|exact H].
Qed.

Lemma retry_singly_inserts lr batch t w :
  sat (retry_singly lr batch t) w (fun _ w' _ => inserts lr batch w w').
Proof.
  revert t w; induction batch as [|x rest IH]; intros t w; simpl.
  - apply sat_ret, inserts_same. reflexivity.
  - apply sat_bind.
    apply (sat_mono _ _ (fun r w' _ => (exists n, r = Return n) /\ inserts lr [x] w w')).
    { apply sat_try_total, sat_bind. sat_use edit_features_inserts.
      destruct r as [[flags|]|e]; repeat sat_step; eauto. }
    intros r w1 ev1 [[n ->] H1]. apply sat_bind. unfold sleep. sat_step.
    sat_use IH. apply (inserts_trans lr [x] rest _ _ _ H1 H).
Qed.

Lemma insert_batch_inserts lr bs batch last t w :
  sat (insert_batch lr bs batch last t) w (fun _ w' _ => inserts lr batch w w').
Proof.
  unfold insert_batch.
  apply sat_try_catch, sat_bind. sat_use edit_features_rows.
  destruct r as [[flags|]|e].
  - destruct H as [_ H].
    assert (inserts lr batch w w').
    { exists (accepted_rows batch flags). split; [apply accepted_rows_sublist|exact H]. }
    repeat sat_step; assumption.
  - repeat sat_step; apply inserts_same; assumption.
  - repeat sat_step; [|apply inserts_same; assumption].
    sat_use retry_singly_inserts.
    destruct H0 as (added & Hs & Hr). exists added. split; [exact Hs|].
    rewrite Hr, H. reflexivity.
Qed.

Lemma insert_batches_inserts lr bs batches t w :
  sat (insert_batches lr bs batches t) w (fun _ w' _ =>
    inserts lr (concat batches) w w').
Proof.
  revert t w; induction batches as [|b rest IH]; intros t w; simpl.
  - apply sat_ret, inserts_same. reflexivity.
  - apply sat_bind. sat_use insert_batch_inserts.
    destruct r as [n|e]; [|].
    + sat_use IH. eapply inserts_trans; eassumption.
    + destruct H as (added & Hs & Hr). exists added.
      split; [|exact Hr]. apply sublist_inserts_r. exact Hs.
Qed.

Lemma batches_sublist bs (l : list (gmap string PyVal)) :
  concat (batches bs l) `sublist_of` l.
Proof.
  destruct (Z_le_gt_dec bs 0) as [H|H].
  - unfold batches. destruct (bs <=? 0)%Z eqn:E; [|apply Z.leb_gt in E; lia].
    apply sublist_nil_l.
  - destruct (batches_partition bs l) as [-> _]; [lia|reflexivity].
Qed.

(** X8: when the layer exists and the frame can be prepared, the rows that
    [add_features_in_batches] leaves in the layer are the rows it had,
    followed by some of the features built from the frame, each at most
    once and in the order of the frame, also after failed batches and
    record-by-record retries. *)
Theorem inserted_rows_are_kept_rows_in_order layer df batch_size w l rows :
  get_layer w layer = Some l -> batch_prepare df = Return rows ->
  exists added,
    added `sublist_of` kept_features (fields l) df rows
    /\ layer_rows (final (add_features_in_batches layer df batch_size w)) layer
       = layer_rows w layer ++ added.
Proof.
  intros Hl Hrows.
  change (sat (add_features_in_batches layer df batch_size) w (fun _ w' _ =>
            exists added,
              added `sublist_of` kept_features (fields l) df rows
              /\ layer_rows w' layer = layer_rows w layer ++ added)).
  unfold add_features_in_batches.
  apply sat_try_total. repeat sat_step.
  all: try (exists []; rewrite app_nil_r; split; [apply sublist_nil_l|reflexivity]).
  all: try congruence.
  sat_use insert_batches_inserts.
  assert (Hins : inserts layer (kept_features (fields l) df rows) w w').
  { destruct H as (added & Hs & Hr). exists added. split; [|exact Hr].
    etransitivity; [exact Hs|].
    injection Hl as <-. injection Hrows as <-.
    unfold kept_features. rewrite Heql1. apply batches_sublist. }
  destruct r; repeat sat_step; exact Hins.
Qed.

Lemma inserted_rows_are_kept_rows_in_order_witness :
  exists added,
    added `sublist_of` kept_features Sample.schema Sample.new_df (records Sample.new_df)
    /\ layer_rows
         (final (add_features_in_batches Sample.layer Sample.new_df 50
                   (Sample.portal [Failed; AddResults [true]; Failed] [])))
         Sample.layer
       = layer_rows (Sample.portal [Failed; AddResults [true]; Failed] [])
           Sample.layer ++ added.
Proof.
  apply (inserted_rows_are_kept_rows_in_order Sample.layer Sample.new_df 50
           (Sample.portal [Failed; AddResults [true]; Failed] [])
           {| fields := Sample.schema; features := records Sample.old_df |}
           (records Sample.new_df)).
  - reflexivity.
  - vm_compute. reflexivity.
Defined.

Lemma field_value_is_not_nan fi v : field_value fi v <> VNaN.
Proof.
  unfold field_value. destruct (isna v) eqn:E; [discriminate|].
  destruct (String.eqb _ _).
  - destruct (_ <? _)%Z; discriminate.
  - intros ->. discriminate.
Qed.

Lemma kept_features_hold_no_nan fs df rows attributes name :
  attributes ∈ kept_features fs df rows -> attributes !! name <> Some VNaN.
Proof.
  unfold kept_features, build_features.
  rewrite list_elem_of_In, filter_In, in_map_iff.
  intros [(row & <- & _) _] Hv.
  apply row_attributes_lookup in Hv as (k & fi & col & _ & _ & _ & Hval).
  symmetry in Hval. exact (field_value_is_not_nan _ _ Hval).
Qed.

(** X30: no attribute of any insert request of [add_features_in_batches] is
    NaN: a missing value is sent as [None]. *)
Theorem missing_values_are_sent_as_none layer df batch_size w :
  Forall sends_no_nan (events (add_features_in_batches layer df batch_size w)).
Proof.
  destruct (add_features_in_batches_log layer df batch_size w)
    as [->|(l & rows & _ & _ & Hlog)]; [constructor|].
  eapply Forall_impl;
    [eapply batches_log_sends; [apply batches_subseteq|exact Hlog]|].
  intros e Hsends lr adds r attributes name He Hin.
  destruct (Hsends lr adds r He) as [_ Hsub].
  eapply kept_features_hold_no_nan. apply Hsub. exact Hin.
Qed.

(** ** Preparing the CSV *)

Lemma apply_column_length col f rows rows' :
  apply_column col f rows = Return rows' -> length rows' = length rows.
Proof.
  revert rows'; induction rows as [|row rest IH]; intros rows'; simpl.
  - intros [= <-]. reflexivity.
  - destruct (f (row_get row col)) as [v|e]; cbn [rbind]; [|discriminate].
    destruct (apply_column col f rest) as [rest'|e]; cbn [rbind]; [|discriminate].
    intros [= <-]. simpl. f_equal. apply IH. reflexivity.
Qed.

Lemma convert_date_columns_length missing cols rows rows' :
  convert_date_columns missing cols rows = Return rows' ->
  length rows' = length rows.
Proof.
  revert rows rows'; induction cols as [|col cols IH]; intros rows rows'; simpl.
  - intros [= <-]. reflexivity.
  - destruct (first_non_null _) as [first_val|]; [|apply IH].
    destruct (is_date first_val); [|apply IH].
    destruct (apply_column col (date_cell missing) rows) as [rows1|e] eqn:E;
      cbn [rbind]; [|discriminate].
    intros H. apply IH in H. apply apply_column_length in E. congruence.
Qed.

Lemma map_cells_other f cols (row acc : gmap string PyVal) col :
  col ∉ cols ->
  foldl (fun r col => <[col := f (row_get row col)]> r) acc cols !! col = acc !! col.
Proof.
  revert acc; induction cols as [|c cs IH]; intros acc Hnot; simpl; [reflexivity|].
  rewrite IH by (intros H; apply Hnot; right; exact H).
  apply lookup_insert_ne. intros ->. apply Hnot. left.
Qed.

Lemma map_cells_lookup f cols (row acc : gmap string PyVal) col :
  col ∈ cols ->
  foldl (fun r col => <[col := f (row_get row col)]> r) acc cols !! col
  = Some (f (row_get row col)).
Proof.
  revert acc; induction cols as [|c cs IH]; intros acc Hin; simpl.
  - inversion Hin.
  - destruct (decide (col ∈ cs)) as [Hcs|Hcs]; [apply IH; exact Hcs|].
    apply elem_of_cons in Hin as [->|Hin]; [|contradiction].
    rewrite map_cells_other by exact Hcs. apply lookup_insert_eq.
Qed.

(** X16: when the preparation of a frame for the CSV succeeds, the prepared
    frame has the same columns and as many rows, and no cell of a column
    is missing any more. *)
Theorem csv_prepare_leaves_no_gap (df df' : DataFrame) :
  csv_prepare df = Return df' ->
  columns df' = columns df
  /\ length (records df') = length (records df)
  /\ forall row col, row ∈ records df' -> col ∈ columns df ->
                     isna (row_get row col) = false.
Proof.
  unfold csv_prepare.
  destruct (convert_date_columns (VStr "") (columns df) (records df))
    as [rows|e] eqn:E; cbn [rbind]; [|discriminate].
  intros [= <-]. cbn [columns records].
  split; [reflexivity|]. split.
  - unfold map_cells. rewrite length_map. eapply convert_date_columns_length, E.
  - intros row col Hrow Hcol. unfold map_cells in Hrow.
    apply list_elem_of_fmap in Hrow as (row0 & -> & _).
    unfold row_get at 1. rewrite map_cells_lookup by exact Hcol. simpl.
    unfold fillna_empty. destruct (isna (row_get row0 col)) eqn:Ena; [reflexivity|exact Ena].
Qed.

Lemma csv_prepare_leaves_no_gap_witness :
  columns Fresh.prepared = columns Sample.new_df
  /\ length (records Fresh.prepared) = length (records Sample.new_df)
  /\ forall row col, row ∈ records Fresh.prepared -> col ∈ columns Sample.new_df ->
                     isna (row_get row col) = false.
Proof. apply csv_prepare_leaves_no_gap. vm_compute. reflexivity. Defined.

(** ** The two lookups *)

Lemma find_existing_table_lookup name w :
  (exists t, final (find_existing_table name w) = set_tape t w)
  /\ (outcome (find_existing_table name w) = Return None
      \/ exists it,
           outcome (find_existing_table name w) = Return (Some it)
           /\ it ∈ catalog w /\ item_title it = name
           /\ item_owner it = current_user w).
Proof.
  split.
  - change (sat (find_existing_table name) w (fun _ w' _ =>
              exists t, w' = set_tape t w)).
    unfold find_existing_table.
    repeat sat_step; eexists; reflexivity.
  - pose proof (find_existing_table_found name w) as Hfound.
    assert (exists x, outcome (find_existing_table name w) = Return x)
      as [[it|] Hx] by (unfold find_existing_table; apply try_total_returns).
    + right. exists it. split; [exact Hx|]. apply Hfound. exact Hx.
    + left. exact Hx.
Qed.

(** X9: [find_existing_table] never raises and changes nothing on the portal
    beyond consuming replies; it returns [None] or an item of the portal
    whose title is exactly the name asked for and whose owner is the
    current user. *)
Theorem find_existing_table_is_a_lookup name w :
  (exists t, final (find_existing_table name w) = set_tape t w)
  /\ (outcome (find_existing_table name w) = Return None
      \/ exists it,
           outcome (find_existing_table name w) = Return (Some it)
           /\ it ∈ catalog w /\ item_title it = name
           /\ item_owner it = current_user w).
Proof. exact (find_existing_table_lookup name w). Qed.

Lemma answers_next t :
  answers t ->
  next_reply t <> Failed /\ next_reply t <> Nothing /\ answers (tail t).
Proof.
  intros H. destruct t as [|r t]; simpl.
  - repeat split; [discriminate..|constructor].
  - inversion H; subst. tauto.
Qed.

Lemma find_some_elem {A} (p : A -> bool) (l : list A) x :
  x ∈ l -> p x = true -> exists y, List.find p l = Some y.
Proof.
  intros Hin Hp. destruct (List.find p l) as [y|] eqn:E; [eauto|].
  apply list_elem_of_In in Hin.
  pose proof (find_none p l E x Hin) as Hn. congruence.
Qed.

Lemma root_items_set_tape t w : root_items (set_tape t w) = root_items w.
Proof. reflexivity. Qed.

Lemma find_existing_table_hit name w it :
  answers (tape w) -> visible name w it ->
  exists found, outcome (find_existing_table name w) = Return (Some found).
Proof.
  intros Htape (Ht & Hvis).
  change (sat (find_existing_table name) w (fun r _ _ =>
            exists found, r = Return (Some found))).
  destruct (answers_next _ Htape) as (H1f & H1n & Htape1).
  destruct (answers_next _ Htape1) as (H2f & H2n & Htape2).
  destruct (answers_next _ Htape2) as (H3f & H3n & _).
  assert (Hmatch : item_owner it = current_user w ->
                   title_owner_match name (current_user w) it = true).
  { intros Ho. unfold title_owner_match.
    apply andb_true_iff. split; apply String.eqb_eq; assumption. }
  unfold find_existing_table.
  repeat sat_step; try contradiction; eauto.
  all: rewrite ?root_items_set_tape.
  all: destruct Hvis as [[Ho [Hhit|Hhit]]|[Hty Hroot]];
    [destruct (find_some_elem _ _ it Hhit (Hmatch Ho)) as [y Hy];
     unfold search_results in Hy; congruence..
    |].
  all: destruct (find_some_elem
                   (fun it => String.eqb (item_title it) name
                              && String.eqb (item_type it) "Feature Service")
                   _ it Hroot) as [y Hy];
    [apply andb_true_iff; split; apply String.eqb_eq; assumption|].
  all: rewrite Hy; eauto.
Qed.

(** X10: when no request fails or comes back empty and one of the three
    lookups of [find_existing_table] can see an item titled with the name
    (it is the user's and among the first 100 hits of the quoted or of the
    unquoted query, or it is a feature service among the first 1000 items
    of the user's root folder), the function returns an item.  A table
    that the searches miss and that is in another folder than the root one
    can not be seen. *)
Theorem find_existing_table_finds_own_service name w it :
  answers (tape w) -> visible name w it ->
  exists found, outcome (find_existing_table name w) = Return (Some found).
Proof. exact (find_existing_table_hit name w it). Qed.

Lemma find_existing_table_finds_own_service_witness :
  exists found,
    outcome (find_existing_table "Group_Snapshot" Unindexed.portal)
    = Return (Some found).
Proof.
  apply (find_existing_table_finds_own_service "Group_Snapshot"
           Unindexed.portal Sample.table).
  - constructor.
  - split; [reflexivity|]. right. split; [reflexivity|]. left.
Defined.

Lemma lookup_hit (title user : string) (p : Item -> bool) n w (r : option Item) :
  List.find (title_owner_match title user) (take n (List.filter p (catalog w))) = r ->
  Return r = Return None
  \/ exists it, Return r = Return (Some it)
       /\ it ∈ catalog w /\ item_title it = title /\ item_owner it = user.
Proof.
  intros <-.
  destruct (List.find _ _) as [it|] eqn:E; [right|left; reflexivity].
  exists it. split; [reflexivity|].
  apply find_in_take_filter in E as (Hin & Hp & _).
  unfold title_owner_match in Hp.
  apply andb_true_iff in Hp as [Hp1 Hp2].
  apply String.eqb_eq in Hp1, Hp2. auto.
Qed.

(** X11: [find_source_csv_item] never raises and changes nothing on the portal
    beyond consuming replies; it returns [None] or an item of the portal
    titled with the name followed by [_source] and owned by the current
    user. *)
Theorem find_source_csv_item_is_a_lookup name w :
  (exists t, final (find_source_csv_item name w) = set_tape t w)
  /\ (outcome (find_source_csv_item name w) = Return None
      \/ exists it,
           outcome (find_source_csv_item name w) = Return (Some it)
           /\ it ∈ catalog w /\ item_title it = name +:+ "_source"
           /\ item_owner it = current_user w).
Proof.
  change (sat (find_source_csv_item name) w (fun r w' _ =>
            (exists t, w' = set_tape t w)
            /\ (r = Return None
                \/ exists it, r = Return (Some it)
                     /\ it ∈ catalog w /\ item_title it = name +:+ "_source"
                     /\ item_owner it = current_user w))).
  unfold find_source_csv_item.
  repeat sat_step; (split; [eexists; reflexivity|]); auto.
  all: first [discriminate|left; reflexivity
             |eapply lookup_hit; first [eassumption|reflexivity]].
Qed.

(** ** The prompt and the exceptions of the engine *)

#[global] Instance same_console_preorder : PreOrder same_console.
Proof. split; [intros w; reflexivity|intros a b c H1 H2; unfold same_console in *; congruence]. Qed.

Lemma ask_reads_until_an_answer bad good rest a :
  Forall (fun l => parse_answer l = None) bad -> parse_answer good = Some a ->
  ask (bad ++ good :: rest) = (Return a, rest, map Input (bad ++ [good])).
Proof.
  intros Hbad Hgood. induction Hbad as [|l bad Hl _ IH]; simpl.
  - rewrite Hgood. reflexivity.
  - rewrite Hl, IH. reflexivity.
Qed.

(** X12: the prompt after a failed update reads lines until one is an answer
    ([yes], [y], [no], [n], [skip] or [s], in any case, the white space
    around it ignored: blanks, tabs, line ends and the other characters
    that [str.isspace] accepts): the lines before it and the line itself
    are consumed, the answer is that line's, and the lines after it stay
    unread. *)
Theorem prompt_reads_until_an_answer bad good rest a w :
  Forall (fun l => parse_answer l = None) bad -> parse_answer good = Some a ->
  stdin w = bad ++ good :: rest ->
  prompt w = (Return a, set_stdin rest w, map Input (bad ++ [good])).
Proof.
  intros Hbad Hgood Hw. unfold prompt.
  rewrite Hw, (ask_reads_until_an_answer bad good rest a Hbad Hgood). reflexivity.
Qed.

Lemma prompt_reads_until_an_answer_witness :
  prompt (Sample.portal [] ["maybe"; Sample.padded_yes; "no"])
  = (Return Yes, set_stdin ["no"] (Sample.portal [] ["maybe"; Sample.padded_yes; "no"]),
     map Input (["maybe"] ++ [Sample.padded_yes])).
Proof.
  apply (prompt_reads_until_an_answer ["maybe"] Sample.padded_yes ["no"] Yes).
  - repeat constructor.
  - reflexivity.
  - reflexivity.
Defined.

Lemma ask_raises lines e :
  (ask lines).1.1 = Raise e ->
  e = EOFError /\ Forall (fun l => parse_answer l = None) lines.
Proof.
  induction lines as [|line rest IH]; simpl.
  - intros [= <-]. split; [reflexivity|constructor].
  - destruct (parse_answer line) as [a|] eqn:Hline; simpl; [discriminate|].
    destruct (ask rest) as [[r rest'] ev]; simpl in *.
    intros H. destruct (IH H) as [-> Hrest]. split; [reflexivity|].
    constructor; assumption.
Qed.

Lemma prompt_raises w :
  sat prompt w (fun r _ _ =>
    forall e, r = Raise e ->
              e = EOFError /\ Forall (fun l => parse_answer l = None) (stdin w)).
Proof.
  unfold sat, prompt, outcome.
  pose proof (ask_raises (stdin w)) as H.
  destruct (ask (stdin w)) as [[r rest] ev]. exact H.
Qed.

Lemma sat_returns {A} (body : M A) (a : A) w :
  sat (try_catch body (fun _ => ret a)) w (fun r _ _ => exists x, r = Return x).
Proof. apply try_total_returns. Qed.

Lemma find_existing_table_console name w :
  sat (find_existing_table name) w (fun r w' _ =>
    (exists x, r = Return x) /\ stdin w' = stdin w).
Proof.
  apply sat_and; [apply sat_returns|].
  eapply sat_mono; [apply (sat_keeps _ same_console (fun _ => True))|].
  - apply find_existing_table_keeps; first [exact _|intros; reflexivity|intros; exact I].
  - intros r w' ev [H _]. exact H.
Qed.

Lemma update_existing_table_console it df folder w :
  sat (update_existing_table it df folder) w (fun r w' _ =>
    (exists x, r = Return x) /\ stdin w' = stdin w).
Proof.
  apply sat_and; [apply sat_returns|].
  eapply sat_mono; [apply (sat_keeps _ same_console (fun _ => True))|].
  - apply (update_existing_table_keeps _ _ (item_title it));
      first [exact _|reflexivity|intros; reflexivity|intros; exact I].
  - intros r w' ev [H _]. exact H.
Qed.

(** X13: the only exception that leaves [publish_or_update_table] is the
    [EOFError] of the prompt, and only when no line of the input is a
    recognised answer; every failure of the portal is caught. *)
Theorem publish_or_update_raises_only_at_the_prompt name df folder description w e :
  outcome (publish_or_update_table name df folder description w) = Raise e ->
  e = EOFError /\ Forall (fun l => parse_answer l = None) (stdin w).
Proof.
  revert e.
  change (sat (publish_or_update_table name df folder description) w
            (fun r _ _ => forall e, r = Raise e ->
               e = EOFError /\ Forall (fun l => parse_answer l = None) (stdin w))).
  unfold publish_or_update_table.
  destruct (length (records df) =? 0)%nat; [apply sat_ret; discriminate|].
  apply sat_bind. sat_use find_existing_table_console.
  destruct H as [[existing ->] Hs1].
  assert (Hcreate : forall w1,
    sat (new_item <- create_new_table name df folder description ;;
         match new_item with
         | Some it =>
             try_catch (item_share it false)
               (fun _ => try_catch (item_share it true) (fun _ => ret tt)) ;;;
             ret (Some it)
         | None => ret None
         end) w1
        (fun r _ _ => forall e, r = Raise e ->
           e = EOFError /\ Forall (fun l => parse_answer l = None) (stdin w))).
  { intros w1. apply sat_bind. unfold create_new_table.
    sat_use @sat_returns. destruct H as [[it|] ->].
    - apply sat_bind, sat_try_catch.
      apply (sat_mono _ _ (fun _ _ _ => True)); [apply sat_always; auto|].
      intros [[]|e1] w2 ev2 _.
      + apply sat_ret. discriminate.
      + apply sat_try_total. apply sat_always. intros [[]|?] ? ?; discriminate.
    - apply sat_ret. discriminate. }
  apply sat_bind.
  destruct existing as [existing_item|].
  - apply sat_bind. sat_use update_existing_table_console.
    destruct H as [[success ->] Hs2].
    destruct success.
    + apply sat_ret. simpl. apply sat_ret. discriminate.
    + apply sat_bind. sat_use prompt_raises.
      rewrite Hs2, Hs1 in H.
      destruct r as [answer|e1]; [|intros e2 [= <-]; exact (H e1 eq_refl)].
      destruct answer.
      * apply sat_bind. sat_use @sat_returns. destruct H0 as [deleted ->].
        destruct deleted; apply sat_ret; simpl; [apply Hcreate|apply sat_ret; discriminate].
      * apply sat_ret. simpl. apply sat_ret. discriminate.
      * apply sat_ret. simpl. apply sat_ret. discriminate.
  - apply sat_ret. simpl. apply Hcreate.
Qed.

Lemma publish_or_update_raises_only_at_the_prompt_witness :
  EOFError = EOFError
  /\ Forall (fun l => parse_answer l = None)
            (stdin (Sample.portal failed_refresh ["maybe"])).
Proof.
  apply (publish_or_update_raises_only_at_the_prompt "Group_Snapshot" Sample.new_df
           (FolderStr "Analytics") "" (Sample.portal failed_refresh ["maybe"])).
  vm_compute. reflexivity.
Defined.

(** ** The footprint of an update attempt *)

#[global] Instance contained_preorder title : PreOrder (contained title).
Proof.
  split.
  - intros w. split; reflexivity.
  - intros a b c [H1 E1] [H2 E2]. split; [congruence|etransitivity; eassumption].
Qed.

(** X14: [update_existing_table] always returns a boolean; it reads nothing
    from the console, adds to the portal at most items titled as the source
    CSV of the table, and sends only lookups, row deletion, staging,
    append and insert requests: it never deletes, publishes, shares, moves
    or renames an item. *)
Theorem update_existing_table_is_contained it df folder w :
  (exists b, outcome (update_existing_table it df folder w) = Return b)
  /\ contained (item_title it) w (final (update_existing_table it df folder w))
  /\ Forall update_event (events (update_existing_table it df folder w)).
Proof.
  split; [unfold update_existing_table; apply try_total_returns|].
  apply (update_existing_table_keeps (contained (item_title it)) update_event
           (item_title it));
    first [exact _|reflexivity|intros; exact I
          |intros; split; [reflexivity|apply extends_same; reflexivity]
          |intros; split; [reflexivity|apply extends_mint; assumption]].
Qed.

(** ** Runs on a portal that answers every request *)

Lemma sat_sink_answers c w Q :
  answers (tape w) ->
  (forall r, r <> Failed -> r <> Nothing -> answers (tail (tape w)) ->
             Q (Return r) (set_tape (tail (tape w)) w) [Sink c r]) ->
  sat (sink c) w Q.
Proof.
  intros Ht H. apply sat_sink. destruct (answers_next _ Ht) as (Hf & Hn & Ht').
  apply H; assumption.
Qed.

Lemma reply_match3 {A} (r : Reply) (a b c : A) :
  r <> Failed -> r <> Nothing ->
  match r with Failed => a | Nothing => b | _ => c end = c.
Proof. destruct r; congruence. Qed.

Lemma reply_match2 {A} (r : Reply) (a c : A) :
  r <> Failed -> match r with Failed => a | _ => c end = c.
Proof. destruct r; congruence. Qed.

Lemma get_layer_set_tape lr w t : get_layer (set_tape t w) lr = get_layer w lr.
Proof. reflexivity. Qed.

(** Symbolic execution on a tape of normal results. *)
Ltac ok_step :=
  lazymatch goal with
  | |- sat (sink _) _ _ =>
      apply sat_sink_answers; [assumption|intros ? ? ? ?]
  | |- sat (match ?r with Failed => _ | _ => _ end) _ _ =>
      first [rewrite (reply_match3 r) by assumption
            |rewrite (reply_match2 r) by assumption]
  | |- sat (match ?x with _ => _ end) _ _ =>
      first [match goal with H : x = _ |- _ => rewrite H end
            |destruct x eqn:?]
  | |- _ => sat_step
  end;
  world_simpl; rewrite ?lookup_insert_eq, ?get_layer_set_tape.

Lemma get_layer_services lr w w' :
  services w' = services w -> get_layer w' lr = get_layer w lr.
Proof. unfold get_layer. intros ->. reflexivity. Qed.

Lemma find_source_csv_item_answers name w :
  answers (tape w) ->
  sat (find_source_csv_item name) w (fun r w' _ =>
    (exists x, r = Return x) /\ answers (tape w')
    /\ services w' = services w /\ item_data w' = item_data w).
Proof.
  intros Ht. unfold find_source_csv_item.
  repeat ok_step; eauto.
Qed.

Lemma delete_features_answers lr q l w :
  answers (tape w) -> get_layer w lr = Some l ->
  sat (delete_features lr q) w (fun r w' _ =>
    r = Return tt /\ answers (tape w')
    /\ get_layer w' lr = Some {| fields := fields l; features := [] |}).
Proof.
  intros Ht Hl. unfold delete_features.
  repeat ok_step. repeat split; [assumption|].
  eapply get_layer_set_layer. exact Hl.
Qed.

Lemma update_source_csv_item_answers csv df folder df' w :
  answers (tape w) -> csv_prepare df = Return df' ->
  sat (update_source_csv_item csv df folder) w (fun r w' _ =>
    r = Return true /\ answers (tape w')
    /\ services w' = services w /\ item_data w' !! item_id csv = Some df').
Proof.
  intros Ht Hdf. unfold update_source_csv_item.
  apply sat_try_total. rewrite Hdf.
  repeat ok_step; try discriminate; repeat split; try assumption.
  all: apply lookup_insert_eq.
Qed.

Lemma create_source_csv_item_answers name df folder df' w :
  answers (tape w) -> csv_prepare df = Return df' ->
  sat (create_source_csv_item name df folder) w (fun r w' _ =>
    exists csv, r = Return (Some csv) /\ answers (tape w')
    /\ services w' = services w /\ item_data w' !! item_id csv = Some df').
Proof.
  intros Ht Hdf. unfold create_source_csv_item.
  apply sat_try_total. rewrite Hdf.
  repeat ok_step; try discriminate.
  all: eexists; repeat split; try eassumption; try reflexivity.
  all: try apply lookup_insert_eq.
Qed.

Lemma append_answers lr csv l df w :
  answers (tape w) -> get_layer w lr = Some l -> item_data w !! csv = Some df ->
  sat (append lr csv) w (fun r w' _ =>
    r = Return true /\ layer_rows w' lr = features l ++ records df).
Proof.
  intros Ht Hl Hd. unfold append.
  repeat ok_step. split; [reflexivity|].
  erewrite layer_rows_set_layer by exact Hl. reflexivity.
Qed.

Lemma fromitem_answers it s w :
  answers (tape w) -> services w !! item_id it = Some s ->
  sat (fromitem it) w (fun r w' _ =>
    r = Return s /\ answers (tape w') /\ services w' = services w).
Proof.
  intros Ht Hs. unfold fromitem. repeat ok_step. auto.
Qed.

Lemma update_existing_table_replaces it df folder w s df' target :
  answers (tape w) ->
  services w !! item_id it = Some s ->
  pick_target it s = Some target ->
  csv_prepare df = Return df' ->
  outcome (update_existing_table it df folder w) = Return true
  /\ layer_rows (final (update_existing_table it df folder w)) target = records df'.
Proof.
  intros Ht Hs Htarget Hdf.
  assert (Hl : exists l, get_layer w target = Some l).
  { unfold pick_target in Htarget. unfold get_layer.
    destruct (svc_tables s) as [|t ts] eqn:Et.
    - destruct (svc_layers s) as [|y ys] eqn:Ey; [discriminate|].
      injection Htarget as <-. simpl. rewrite Hs. simpl. rewrite Ey. eauto.
    - injection Htarget as <-. simpl. rewrite Hs. simpl. rewrite Et. eauto. }
  destruct Hl as [l Hl].
  change (sat (update_existing_table it df folder) w (fun r w' ev =>
            r = Return true /\ layer_rows w' target = records df')).
  unfold update_existing_table.
  apply sat_try_total, sat_bind.
  sat_use fromitem_answers; [eassumption..|].
  destruct H as (-> & Ht0 & Hs0). rewrite Htarget.
  apply sat_bind, sat_try_total, sat_bind.
  sat_use delete_features_answers;
    [eassumption|rewrite (get_layer_services _ _ _ Hs0); eassumption|].
  destruct H as (-> & Ht1 & Hl1).
  unfold sleep. do 3 ok_step. cbn [negb].
  apply sat_bind. sat_use find_source_csv_item_answers; [assumption|].
  destruct H as ([found ->] & Ht2 & Hs2 & _).
  apply sat_bind.
  apply (sat_mono _ _ (fun r w3 _ =>
           exists csv, r = Return (Some csv) /\ answers (tape w3)
                       /\ services w3 = services w'0
                       /\ item_data w3 !! item_id csv = Some df')).
  { destruct found as [csv|].
    - apply sat_bind. sat_use update_source_csv_item_answers; [eassumption..|].
      destruct H as (-> & ? & ? & ?). ok_step.
      exists csv. repeat split; congruence.
    - sat_use create_source_csv_item_answers; [eassumption..|].
      destruct H as (csv & -> & ? & ? & ?).
      exists csv. repeat split; congruence. }
  intros r1 w3 ev3 (csv & -> & Ht3 & Hs3 & Hd3).
  apply sat_bind, sat_try_total.
  assert (Hl3 : get_layer w3 target = Some {| fields := fields l; features := [] |}).
  { rewrite (get_layer_services _ _ _ Hs3). exact Hl1. }
  sat_use append_answers; [eassumption..|].
  destruct H as (-> & Hrows). ok_step.
  split; [reflexivity|exact Hrows].
Qed.

(** X15: when no request fails, the item has a service with a table or layer,
    and the frame can be prepared for the CSV, [update_existing_table]
    returns [True] and the target holds exactly the rows of the prepared
    frame: the old rows are gone. *)
Theorem update_replaces_the_rows it df folder w s df' target :
  answers (tape w) ->
  services w !! item_id it = Some s ->
  pick_target it s = Some target ->
  csv_prepare df = Return df' ->
  outcome (update_existing_table it df folder w) = Return true
  /\ layer_rows (final (update_existing_table it df folder w)) target = records df'.
Proof. exact (update_existing_table_replaces it df folder w s df' target). Qed.

Lemma update_replaces_the_rows_witness :
  outcome (update_existing_table Sample.table Sample.new_df (FolderStr "Analytics")
             (Sample.portal [] [])) = Return true
  /\ layer_rows
       (final (update_existing_table Sample.table Sample.new_df
                 (FolderStr "Analytics") (Sample.portal [] [])))
       Sample.layer
     = records Fresh.prepared.
Proof.
  apply (update_replaces_the_rows Sample.table Sample.new_df (FolderStr "Analytics")
           (Sample.portal [] [])
           {| svc_tables := [ {| fields := Sample.schema;
                                 features := records Sample.old_df |} ];
              svc_layers := [] |}).
  - constructor.
  - reflexivity.
  - reflexivity.
  - vm_compute. reflexivity.
Defined.

(** ** Publishing a new table *)

Lemma rename_item_same id title it :
  item_id it = id ->
  rename_item id title it
  = {| item_id := item_id it; item_title := title;
       item_owner := item_owner it; item_type := item_type it |}.
Proof. intros H. unfold rename_item. rewrite bool_decide_eq_true_2 by exact H. reflexivity. Qed.

Lemma rename_item_other id title it : item_id it <> id -> rename_item id title it = it.
Proof. intros H. unfold rename_item. rewrite bool_decide_eq_false_2 by exact H. reflexivity. Qed.

(** X17: when no request fails and the frame can be prepared,
    [create_new_table] returns the published Feature Service under the
    table name; its table holds the prepared rows, the source CSV stays on
    the portal under the name followed by [_source] with the same data,
    and the temporary file is gone. *)
Theorem create_new_table_publishes_the_rows table_name df folder description w df' :
  answers (tape w) ->
  csv_prepare df = Return df' ->
  outcome (create_new_table table_name df folder description w)
  = Return (Some (minted w 1 table_name "Feature Service"))
  /\ services (final (create_new_table table_name df folder description w))
       !! (next_id w + 1)%N = Some (published_table df')
  /\ item_data (final (create_new_table table_name df folder description w))
       !! next_id w = Some df'
  /\ local_files (final (create_new_table table_name df folder description w))
       !! create_temp_path table_name = None
  /\ minted w 1 table_name "Feature Service"
     ∈ catalog (final (create_new_table table_name df folder description w))
  /\ minted w 0 (table_name +:+ "_source") "CSV"
     ∈ catalog (final (create_new_table table_name df folder description w)).
Proof.
  intros Ht Hdf.
  change (sat (create_new_table table_name df folder description) w (fun r w' _ =>
    r = Return (Some (minted w 1 table_name "Feature Service"))
    /\ services w' !! (next_id w + 1)%N = Some (published_table df')
    /\ item_data w' !! next_id w = Some df'
    /\ local_files w' !! create_temp_path table_name = None
    /\ minted w 1 table_name "Feature Service" ∈ catalog w'
    /\ minted w 0 (table_name +:+ "_source") "CSV" ∈ catalog w')).
  unfold create_new_table. apply sat_try_total. rewrite Hdf.
  unfold move_to_folder.
  repeat ok_step.
  all: try discriminate.
  all: rewrite rename_item_same by reflexivity; cbn [item_id item_owner item_type].
  all: repeat split; try reflexivity; try apply lookup_delete_eq.
  all: apply list_elem_of_fmap.
  all: try (eexists; split;
            [|apply elem_of_app; right; apply list_elem_of_singleton; reflexivity];
            rewrite rename_item_same by reflexivity; reflexivity).
  all: eexists; split;
    [|apply elem_of_app; left; apply elem_of_app; right;
      apply list_elem_of_singleton; reflexivity].
  all: rewrite rename_item_other by (cbn [item_id]; lia).
  all: unfold minted; f_equal; lia.
Qed.

Lemma create_new_table_publishes_the_rows_witness :
  outcome (create_new_table "Group_Snapshot" Sample.new_df (FolderStr "Analytics") ""
             Fresh.portal)
  = Return (Some (minted Fresh.portal 1 "Group_Snapshot" "Feature Service"))
  /\ services (final (create_new_table "Group_Snapshot" Sample.new_df
                        (FolderStr "Analytics") "" Fresh.portal))
       !! (next_id Fresh.portal + 1)%N = Some (published_table Fresh.prepared)
  /\ item_data (final (create_new_table "Group_Snapshot" Sample.new_df
                         (FolderStr "Analytics") "" Fresh.portal))
       !! next_id Fresh.portal = Some Fresh.prepared
  /\ local_files (final (create_new_table "Group_Snapshot" Sample.new_df
                           (FolderStr "Analytics") "" Fresh.portal))
       !! create_temp_path "Group_Snapshot" = None
  /\ minted Fresh.portal 1 "Group_Snapshot" "Feature Service"
     ∈ catalog (final (create_new_table "Group_Snapshot" Sample.new_df
                         (FolderStr "Analytics") "" Fresh.portal))
  /\ minted Fresh.portal 0 ("Group_Snapshot" +:+ "_source") "CSV"
     ∈ catalog (final (create_new_table "Group_Snapshot" Sample.new_df
                         (FolderStr "Analytics") "" Fresh.portal)).
Proof.
  apply create_new_table_publishes_the_rows.
  - constructor.
  - vm_compute. reflexivity.
Defined.

(** ** The engine on a portal that answers every request *)


Lemma find_existing_table_answers name w :
  answers (tape w) ->
  sat (find_existing_table name) w (fun _ w' _ =>
    exists t, w' = set_tape t w /\ answers t).
Proof.
  intros Ht. unfold find_existing_table. apply sat_try_total.
  repeat ok_step; eauto.
Qed.

Lemma rename_item_owner id title it : item_owner (rename_item id title it) = item_owner it.
Proof. unfold rename_item. destruct (bool_decide _); reflexivity. Qed.

Lemma length_filter_rename (p : string -> bool) id title (l : list Item) :
  length (List.filter (fun it => p (item_owner it)) (map (rename_item id title) l))
  = length (List.filter (fun it => p (item_owner it)) l).
Proof.
  induction l as [|x l IH]; simpl; [reflexivity|].
  rewrite rename_item_owner. destruct (p (item_owner x)); simpl; rewrite IH; reflexivity.
Qed.



Lemma visible_in_catalog name w it :
  visible name w it ->
  it ∈ catalog w /\ item_title it = name /\ item_owner it = current_user w.
Proof.
  intros (Ht & [[Ho [Hin|Hin]]|[_ Hin]]).
  1,2: split; [|split; assumption];
    unfold search_results in Hin; apply (fun H => elem_of_sublist _ _ _ H (sublist_take _ _)) in Hin;
    apply list_elem_of_In, List.filter_In in Hin as [Hin _];
    apply list_elem_of_In; exact Hin.
  apply (fun H => elem_of_sublist _ _ _ H (sublist_take _ _)) in Hin.
  unfold root_items in Hin.
  apply list_elem_of_In, List.filter_In in Hin as [Hin Hp].
  apply andb_true_iff in Hp as [Ho _]. apply String.eqb_eq in Ho.
  split; [apply list_elem_of_In; exact Hin|]. split; assumption.
Qed.

Lemma refresh_in_place name df folder description w it s
    target df' :
  answers (tape w) -> unique_table name w -> visible name w it ->
  services w !! item_id it = Some s -> pick_target it s = Some target ->
  csv_prepare df = Return df' -> records df <> [] ->
  outcome (publish_or_update_table name df folder description w) = Return (Some it)
  /\ layer_rows (final (publish_or_update_table name df folder description w)) target
     = records df'
  /\ existsb changes_identity
       (events (publish_or_update_table name df folder description w)) = false.
Proof.
  intros Ht Huniq Hvis Hs Htarget Hdf Hrows.
  destruct (visible_in_catalog name w it Hvis) as (Hin & Htitle & Howner).
  destruct (find_existing_table_hit name w it Ht Hvis) as [found Hfound].
  destruct (find_existing_table_found name w found Hfound) as (Hin' & Htitle' & Howner').
  assert (found = it) as -> by (apply Huniq; assumption).
  pose proof (find_existing_table_answers name w Ht) as Hf.
  unfold sat in Hf. destruct Hf as (t & Hw2 & Ht2).
  destruct (update_existing_table_replaces it df folder
              (final (find_existing_table name w)) s df' target)
    as [Hupd Hlayer].
  - rewrite Hw2. exact Ht2.
  - rewrite Hw2. exact Hs.
  - exact Htarget.
  - exact Hdf.
  - destruct (successful_update_call name df folder description w it Hrows Hfound Hupd)
      as (Hr & Hw & Hev).
    split; [exact Hr|]. split; [rewrite Hw; exact Hlayer|].
    rewrite Hev, existsb_app. apply orb_false_iff. split.
    + apply (keeps_unflagged_rel _ (extends name)), find_existing_table_frame.
    + apply (keeps_unflagged_rel _ (extends (item_title it))),
        update_existing_table_frame.
Qed.

(** X18: when no request fails or comes back empty, the user owns one item
    titled with the name, one of the three lookups of
    [find_existing_table] can see it (a table that the searches miss and
    that is in another folder than the root one is not seen) and it has a
    table or layer, then [publish_or_update_table] on a frame with rows
    returns that same item, whose target now holds the prepared rows, and
    no item is deleted or published. *)
Theorem publish_or_update_refreshes_in_place name df folder description w it s
    target df' :
  answers (tape w) -> unique_table name w -> visible name w it ->
  services w !! item_id it = Some s -> pick_target it s = Some target ->
  csv_prepare df = Return df' -> records df <> [] ->
  outcome (publish_or_update_table name df folder description w) = Return (Some it)
  /\ layer_rows (final (publish_or_update_table name df folder description w)) target
     = records df'
  /\ existsb changes_identity
       (events (publish_or_update_table name df folder description w)) = false.
Proof. exact (refresh_in_place name df folder description w it s target df'). Qed.

Lemma publish_or_update_refreshes_in_place_witness :
  outcome (publish_or_update_table "Group_Snapshot" Sample.new_df
             (FolderStr "Analytics") "" Unindexed.portal)
  = Return (Some Sample.table)
  /\ layer_rows
       (final (publish_or_update_table "Group_Snapshot" Sample.new_df
                 (FolderStr "Analytics") "" Unindexed.portal))
       Sample.layer
     = records Fresh.prepared
  /\ existsb changes_identity
       (events (publish_or_update_table "Group_Snapshot" Sample.new_df
                  (FolderStr "Analytics") "" Unindexed.portal)) = false.
Proof.
  apply (publish_or_update_refreshes_in_place "Group_Snapshot" Sample.new_df
           (FolderStr "Analytics") "" Unindexed.portal Sample.table
           {| svc_tables := [ {| fields := Sample.schema;
                                 features := records Sample.old_df |} ];
              svc_layers := [] |}).
  - constructor.
  - intros a b Ha Hb Hta Hoa Htb Hob.
    apply (sample_portal_unique a b); assumption.
  - split; [reflexivity|]. right. split; [reflexivity|]. left.
  - reflexivity.
  - reflexivity.
  - vm_compute. reflexivity.
  - discriminate.
Defined.











(** ** Group and item classification *)

Lemma map_result_lower (l : list PyData) :
  (exists strings, l = map (fun s => DVal (VStr s)) strings
                   /\ map_result lower_of l = Return (map PyStr.lower strings))
  \/ ((exists e, map_result lower_of l = Raise e)
      /\ exists d, d ∈ l /\ forall s, d <> DVal (VStr s)).
Proof.
  induction l as [|d l IH].
  - left. exists []. split; reflexivity.
  - destruct d as [[| |s|z|b|y m dd]|items];
      try (right; split; [eexists; reflexivity|];
           eexists; split; [left|]; discriminate).
    destruct IH as [(strings & -> & Hs)|((e & He) & d & Hd & Hno)].
    + left. exists (s :: strings). split; [reflexivity|].
      simpl. rewrite Hs. reflexivity.
    + right. split.
      * exists e. simpl. rewrite He. reflexivity.
      * exists d. split; [right; exact Hd|exact Hno].
Qed.

Lemma length_lower s : String.length (PyStr.lower s) = String.length s.
Proof. induction s as [|c s IH]; simpl; auto. Qed.

Lemma indicator_among (indicators tags_lower : list string) :
  existsb (fun indicator => bool_decide (indicator ∈ tags_lower)) indicators = true
  <-> exists i, i ∈ indicators /\ i ∈ tags_lower.
Proof.
  rewrite existsb_exists. split.
  - intros (i & Hi & Hd). apply bool_decide_eq_true in Hd.
    exists i. split; [apply list_elem_of_In; exact Hi|exact Hd].
  - intros (i & Hi & Hd). exists i. split; [apply list_elem_of_In; exact Hi|].
    apply bool_decide_eq_true. exact Hd.
Qed.

Lemma has_indicator_tag_spec (indicators : list string) (group : Obj) :
  Forall (fun i => 2 <= String.length i) indicators ->
  (has_indicator_tag indicators group = Return true
   \/ has_indicator_tag indicators group = Return false)
  /\ (has_indicator_tag indicators group = Return true
      <-> tags_match indicators group).
Proof.
  intros Hlen. unfold has_indicator_tag, tags_match.
  destruct (safe_get group "tags" (DList [])) as [v|l] eqn:Etags.
  - (* a scalar *)
    assert (Hno : ~ exists tags,
               DVal v = DList (map (fun s => DVal (VStr s)) tags)
               /\ exists tag, tag ∈ tags /\ PyStr.lower tag ∈ indicators)
      by (intros (tags & H & _); discriminate).
    assert (Hfalse : or_else
              (rbind (iterate (or_empty_list (DVal v))) (fun elements =>
               rbind (map_result lower_of elements) (fun tags_lower =>
               Return (existsb (fun indicator => bool_decide (indicator ∈ tags_lower))
                               indicators))))
              false = Return false).
    { unfold or_empty_list.
      destruct (bool_of_data (DVal v)) eqn:Ev.
      - destruct v as [| |s|z|b|y m d]; try reflexivity.
        cbn [iterate rbind].
        destruct (map_result_lower
                    (map (fun c => DVal (VStr (String c ""))) (list_ascii_of_string s)))
          as [(strings & Hs & ->)|((e & ->) & _)]; [|reflexivity].
        cbn [rbind or_else]. f_equal.
        destruct (existsb _ indicators) eqn:Ex; [|reflexivity]. exfalso.
        apply indicator_among in Ex as (i & Hi & Hin).
        rewrite Forall_forall in Hlen. specialize (Hlen i Hi).
        apply list_elem_of_fmap in Hin as (t & -> & Ht).
        rewrite length_lower in Hlen.
        assert (Hd : DVal (VStr t) ∈ map (fun s => DVal (VStr s)) strings)
          by (apply list_elem_of_fmap; eauto).
        rewrite <- Hs in Hd. apply list_elem_of_fmap in Hd as (c & [= ->] & _).
        simpl in Hlen. lia.
      - cbn [iterate rbind map_result or_else]. f_equal.
        apply not_true_is_false. intros Ex.
        apply indicator_among in Ex as (i & _ & Hin). inversion Hin. }
    rewrite Hfalse. split; [auto|]. split; [discriminate|intros H; destruct (Hno H)].
  - (* a list *)
    unfold or_empty_list.
    destruct l as [|d l].
    + cbn [bool_of_data iterate rbind map_result or_else].
      assert (Hex : existsb (fun indicator => bool_decide (indicator ∈ [])) indicators
                    = false).
      { apply not_true_is_false. intros Ex.
        apply indicator_among in Ex as (i & _ & Hin). inversion Hin. }
      rewrite Hex. split; [auto|]. split; [discriminate|].
      intros (tags & Ht & tag & Hin & _). destruct tags; [inversion Hin|discriminate].
    + cbn [bool_of_data iterate rbind].
      destruct (map_result_lower (d :: l))
        as [(strings & Hs & ->)|((e & ->) & bad & Hbad & Hno)].
      * cbn [rbind or_else]. split.
        { destruct (existsb _ indicators); auto. }
        split.
        -- intros [= Ex]. apply indicator_among in Ex as (i & Hi & Hin).
           apply list_elem_of_fmap in Hin as (t & -> & Ht).
           exists strings. split; [rewrite Hs; reflexivity|]. exists t. auto.
        -- intros (tags & Ht & tag & Hin & Hi). f_equal.
           apply indicator_among. exists (PyStr.lower tag). split; [exact Hi|].
           apply list_elem_of_fmap. exists tag. split; [reflexivity|].
           assert (strings = tags) as ->; [|exact Hin].
           rewrite Hs in Ht. injection Ht as Ht. clear -Ht.
           revert tags Ht; induction strings as [|x xs IH]; intros [|y ys] H;
             try discriminate; [reflexivity|].
           injection H as -> H. f_equal. apply IH. exact H.
      * cbn [rbind or_else]. split; [auto|]. split; [discriminate|].
        intros (tags & Ht & _). exfalso.
        injection Ht as Ht.
        rewrite Ht in Hbad. apply list_elem_of_fmap in Hbad as (s & -> & _).
        exact (Hno s eq_refl).
Qed.

(** X21: [is_hub_group] and [is_site_group] always return a boolean, and
    return [True] exactly when the tags of the group are strings one of
    which is, in lower case, one of the function's indicator tags. *)
Theorem hub_and_site_groups_by_tag (group : Obj) :
  (is_hub_group group = Return true \/ is_hub_group group = Return false)
  /\ (is_hub_group group = Return true <-> tags_match hub_indicators group)
  /\ (is_site_group group = Return true \/ is_site_group group = Return false)
  /\ (is_site_group group = Return true <-> tags_match site_indicators group).
Proof.
  assert (Hhub : Forall (fun i => 2 <= String.length i) hub_indicators)
    by (repeat constructor; simpl; lia).
  assert (Hsite : Forall (fun i => 2 <= String.length i) site_indicators)
    by (repeat constructor; simpl; lia).
  destruct (has_indicator_tag_spec hub_indicators group Hhub) as [H1 H2].
  destruct (has_indicator_tag_spec site_indicators group Hsite) as [H3 H4].
  unfold is_hub_group, is_site_group. auto.
Qed.

Lemma exact_account_is_system_account (owner : string) :
  PyStr.lower owner ∈ esri_exact_accounts -> esri_system_account owner.
Proof.
  unfold esri_exact_accounts, esri_system_account. intros H.
  repeat (apply elem_of_cons in H as [H|H];
          [rewrite H; first [left; reflexivity|right; split; reflexivity]|]).
  inversion H.
Qed.

(** X22: [is_living_atlas_item] always returns a boolean, and returns [True]
    exactly when the owner is a string that, in lower case, is [esri] or
    starts with [esri_] and holds no [@]. *)
Theorem living_atlas_is_decided_by_the_owner (item : Obj) :
  (is_living_atlas_item item = Return true \/ is_living_atlas_item item = Return false)
  /\ (is_living_atlas_item item = Return true
      <-> exists owner,
            safe_get item "owner" (DVal (VStr "")) = DVal (VStr owner)
            /\ esri_system_account owner).
Proof.
  unfold is_living_atlas_item.
  destruct (safe_get item "owner" (DVal (VStr ""))) as [v|l] eqn:Eowner.
  - destruct v as [| |s|z|b|y m d].
    1,2,4,5,6:
      (split;
       [right; unfold or_empty_str; simpl; try destruct (negb _); try destruct b;
        reflexivity|];
       split;
       [unfold or_empty_str; simpl; try destruct (negb _); try destruct b;
        discriminate|];
       intros (owner & [=] & _)).
    assert (Hs : or_empty_str (DVal (VStr s)) = DVal (VStr s)).
    { unfold or_empty_str; simpl. destruct s; reflexivity. }
    rewrite Hs. cbn [lower_of rbind].
    destruct (bool_decide (PyStr.lower s ∈ esri_exact_accounts)) eqn:Ein.
    + apply bool_decide_eq_true in Ein. cbn [or_else].
      split; [auto|]. split; [intros _|reflexivity].
      exists s. split; [reflexivity|].
      apply exact_account_is_system_account. exact Ein.
    + apply bool_decide_eq_false in Ein.
      destruct (String.prefix "esri_" (PyStr.lower s)) eqn:Ep;
        destruct (contains "@" (PyStr.lower s)) eqn:Ec; cbn [andb negb or_else].
      all: split; [auto|]; split; try discriminate; try reflexivity.
      all: try (intros (owner & [= <-] & [He|[Hp Hc]]);
                [exfalso; apply Ein; rewrite He; left|congruence]).
      intros _. exists s. split; [reflexivity|]. right. auto.
  - split.
    + right. destruct l; reflexivity.
    + split; [destruct l; discriminate|intros (owner & [=] & _)].
Qed.

(** X23: [get_group_type] always returns a string; the three flags that the
    group cell reads back from it by substring are exactly the flags it was
    built from, and it is [Standard] exactly when all three are off or
    reading them raised. *)
Theorem group_type_encodes_its_flags (group : Obj) :
  match group_flags group with
  | Return (is_partnered, is_distributed, is_shared_update) =>
      exists group_type,
        get_group_type group = Return group_type
        /\ content_flags group_type = (is_shared_update, is_partnered, is_distributed)
        /\ (group_type = "Standard"
            <-> is_partnered = false /\ is_distributed = false
                /\ is_shared_update = false)
  | Raise _ => get_group_type group = Return "Standard"
  end.
Proof.
  unfold get_group_type.
  destruct (group_flags group) as [[[p d] s]|e]; [|reflexivity].
  destruct p, d, s; eexists; (split; [reflexivity|]);
    (split; [vm_compute; reflexivity|]);
    (split; [try discriminate; auto|]); intros (? & ? & ?); try discriminate.
  reflexivity.
Qed.

(** ** Last data update *)

Section LastUpdate.
Import Timestamps.

Lemma convert_gives_none_or_date (c : Clock) (v r : PyVal) :
  convert_timestamp_to_date c v = Return r -> none_or_date r.
Proof.
  unfold convert_timestamp_to_date.
  assert (Hbody : forall t,
    try_except (rbind t (fun t => rbind (fromtimestamp c t) (fun dt => Return (date dt))))
      conversion_errors (Return VNone) = Return r -> none_or_date r).
  { intros [t|e]; cbn [rbind try_except].
    - destruct (fromtimestamp c t) as [dt|e]; cbn [rbind try_except].
      + intros [= <-]. right. unfold date.
        destruct (civil_from_days _) as [[y m] d]. eauto.
      + destruct (bool_decide _); [intros [= <-]; left; reflexivity|discriminate].
    - destruct (bool_decide _); [intros [= <-]; left; reflexivity|discriminate]. }
  destruct v; try (intros [= <-]; left; reflexivity);
    (destruct (is_minus_one _); [intros [= <-]; left; reflexivity|apply Hbody]).
Qed.

Lemma convert_data_gives_none_or_date (c : Clock) (d : PyData) (r : PyVal) :
  convert_timestamp c d = Return r -> none_or_date r.
Proof.
  destruct d; simpl; [apply convert_gives_none_or_date|].
  intros [= <-]. left. reflexivity.
Qed.

Lemma modified_date_gives_none_or_date (c : Clock) (item : Obj) (r : PyVal) :
  modified_date c item = Return r -> none_or_date r.
Proof.
  unfold modified_date. destruct (bool_of_data _).
  - apply convert_data_gives_none_or_date.
  - intros [= <-]. left. reflexivity.
Qed.

Lemma service_edit_date_gives_none_or_date (c : Clock) flc (r : PyVal) :
  service_edit_date c flc = Return (Some r) -> none_or_date r.
Proof.
  unfold service_edit_date.
  destruct flc as [fc|e]; [|discriminate]. cbn [rbind].
  destruct (fc_editing fc) as [info|e]; [|discriminate]. cbn [rbind].
  destruct (info ≫= last_edit_date) as [ts|].
  - destruct (convert_timestamp_to_date c ts) as [d|e] eqn:E; [|discriminate].
    intros [= <-]. eapply convert_gives_none_or_date; eassumption.
  - destruct (fc_layers fc) as [layers|e]; [|discriminate]. cbn [rbind].
    destruct (fc_tables fc) as [tables|e]; [|discriminate]. cbn [rbind].
    destruct (edit_dates layers ++ edit_dates tables) as [|v vs]; [discriminate|].
    destruct (py_max (v :: vs)) as [latest|e]; [|discriminate]. cbn [rbind].
    destruct (convert_timestamp_to_date c latest) as [d|e] eqn:E; [|discriminate].
    intros [= <-]. eapply convert_gives_none_or_date; eassumption.
Qed.

(** X24: [get_item_last_data_update] never raises: on every item and whatever
    the feature collection answers, it returns [None] or a date. *)
Theorem last_data_update_never_raises (c : Clock) (item : Obj) flc :
  exists d, get_item_last_data_update c item flc = Return d /\ none_or_date d.
Proof.
  unfold get_item_last_data_update.
  set (from_service :=
         if existsb _ feature_item_types then or_else (service_edit_date c flc) None
         else Return None).
  assert (Hfs : exists found, from_service = Return found
                              /\ forall d, found = Some d -> none_or_date d).
  { unfold from_service. destruct (existsb _ _).
    - destruct (service_edit_date c flc) as [[d|]|e] eqn:E; cbn [or_else].
      + exists (Some d). split; [reflexivity|]. intros d' [= <-].
        eapply service_edit_date_gives_none_or_date; eassumption.
      + exists None. split; [reflexivity|discriminate].
      + exists None. split; [reflexivity|discriminate].
    - exists None. split; [reflexivity|discriminate]. }
  destruct Hfs as (found & -> & Hfound). cbn [rbind].
  destruct found as [d|].
  - exists d. split; [reflexivity|]. apply Hfound. reflexivity.
  - destruct (modified_date c item) as [d|e] eqn:E; cbn [or_else].
    + exists d. split; [reflexivity|].
      eapply modified_date_gives_none_or_date; eassumption.
    + exists VNone. split; [reflexivity|left; reflexivity].
Qed.

Lemma max_from_numbers (best : Z) (rest : list Z) :
  exists m, max_from (VInt best) (map VInt rest) = Return (VInt m)
            /\ m ∈ best :: rest /\ Forall (fun z => (z <= m)%Z) (best :: rest).
Proof.
  revert best; induction rest as [|z rest IH]; intros best; simpl.
  - exists best. split; [reflexivity|]. split; [left|]. constructor; [lia|constructor].
  - destruct (best <? z)%Z eqn:E.
    + apply Z.ltb_lt in E. destruct (IH z) as (m & -> & Hin & Hall).
      exists m. split; [reflexivity|]. split; [right; exact Hin|].
      inversion Hall; subst. constructor; [lia|]. constructor; assumption.
    + apply Z.ltb_ge in E. destruct (IH best) as (m & -> & Hin & Hall).
      exists m. split; [reflexivity|].
      inversion Hall; subst. split.
      * apply elem_of_cons in Hin as [->|Hin]; [left|right; right; exact Hin].
      * constructor; [assumption|]. constructor; [lia|assumption].
Qed.

(** X25: for an item of a feature type whose collection can be read: a
    service-level [lastEditDate] that converts to a date is the result;
    without one, when the layers and tables give integer edit dates, the
    result is the conversion of the greatest of them. *)
Theorem last_data_update_prefers_edit_dates (c : Clock) (item : Obj) flc fc :
  readable_feature_item item flc fc ->
  (forall info ts d,
     fc_editing fc = Return (Some info) -> last_edit_date info = Some ts ->
     convert_timestamp_to_date c ts = Return d ->
     get_item_last_data_update c item flc = Return d)
  /\ (forall info layers tables stamps d,
        fc_editing fc = Return info -> info ≫= last_edit_date = None ->
        fc_layers fc = Return layers -> fc_tables fc = Return tables ->
        edit_dates layers ++ edit_dates tables = map VInt stamps ->
        stamps <> [] ->
        exists latest,
          latest ∈ stamps /\ Forall (fun z => (z <= latest)%Z) stamps
          /\ (convert_timestamp_to_date c (VInt latest) = Return d ->
              get_item_last_data_update c item flc = Return d)).
Proof.
  intros [Htype ->]. split.
  - intros info ts d Hinfo Hts Hd.
    unfold get_item_last_data_update. rewrite Htype.
    unfold service_edit_date. cbn [rbind]. rewrite Hinfo. cbn [rbind mbind option_bind].
    rewrite Hts, Hd. reflexivity.
  - intros info layers tables stamps d Hinfo Hnone Hlayers Htables Hdates Hne.
    destruct stamps as [|z stamps]; [contradiction|].
    destruct (max_from_numbers z stamps) as (latest & Hmax & Hin & Hall).
    exists latest. split; [exact Hin|]. split; [exact Hall|]. intros Hd.
    unfold get_item_last_data_update. rewrite Htype.
    unfold service_edit_date. cbn [rbind]. rewrite Hinfo. cbn [rbind].
    rewrite Hnone, Hlayers, Htables. cbn [rbind]. rewrite Hdates.
    cbn [map py_max]. rewrite Hmax. cbn [rbind]. rewrite Hd. reflexivity.
Qed.

Lemma last_data_update_prefers_edit_dates_witness :
  (forall info ts d,
     fc_editing Roster.collection = Return (Some info) ->
     last_edit_date info = Some ts ->
     Timestamps.convert_timestamp_to_date Roster.clock ts = Return d ->
     get_item_last_data_update Roster.clock Roster.item (Return Roster.collection)
     = Return d)
  /\ (forall info layers tables stamps d,
        fc_editing Roster.collection = Return info ->
        info ≫= last_edit_date = None ->
        fc_layers Roster.collection = Return layers ->
        fc_tables Roster.collection = Return tables ->
        edit_dates layers ++ edit_dates tables = map VInt stamps ->
        stamps <> [] ->
        exists latest,
          latest ∈ stamps /\ Forall (fun z => (z <= latest)%Z) stamps
          /\ (Timestamps.convert_timestamp_to_date Roster.clock (VInt latest) = Return d ->
              get_item_last_data_update Roster.clock Roster.item
                (Return Roster.collection) = Return d)).
Proof.
  apply last_data_update_prefers_edit_dates.
  split; [vm_compute|]; reflexivity.
Defined.

End LastUpdate.

(** ** Members *)

Section Members.
Import Timestamps.
Context (c : Clock) (org_id : PyVal) (user_info_dict : gmap string UserInfo).

Lemma count_member_step (a e : nat) (username : string) (a' e' : nat) :
  count_member c org_id user_info_dict (a, e) username = Return (a', e') ->
  a <= a' <= S a /\ e <= e' <= S e.
Proof.
  unfold count_member.
  destruct (user_info_dict !! username) as [info|]; [|intros [= <- <-]; lia].
  destruct (if bool_of_val (ui_last_login info) then _ else _) as [active|err];
    cbn [rbind]; [|discriminate].
  intros [= <- <-].
  destruct active; destruct (_ && _ && _); lia.
Qed.

Lemma count_members_bounds (usernames : list string) (a e a' e' : nat) :
  count_members c org_id user_info_dict (a, e) usernames = Return (a', e') ->
  a <= a' <= a + length usernames /\ e <= e' <= e + length usernames.
Proof.
  revert a e; induction usernames as [|u rest IH]; intros a e; cbn [count_members member_records length].
  - intros [= <- <-]. lia.
  - destruct (count_member c org_id user_info_dict (a, e) u) as [[a1 e1]|err] eqn:E;
      cbn [rbind]; [|discriminate].
    intros H. apply IH in H.
    apply count_member_step in E. lia.
Qed.

(** X26: the two counters of the member loop of the groups cell never exceed
    the number of members of the group. *)
Theorem member_counters_stay_within_the_members (usernames : list string)
    (active_members external_member_count : nat) :
  count_members c org_id user_info_dict (0, 0) usernames
  = Return (active_members, external_member_count) ->
  active_members <= length usernames
  /\ external_member_count <= length usernames.
Proof. intros H. apply count_members_bounds in H. lia. Qed.

Lemma member_record_type (group_id : PyVal) (username : string) record :
  member_record c org_id user_info_dict group_id username = Return record ->
  record !! "user_membership_type"
  = Some (VStr (if bool_of_val (default (VStr "") (ui_org_id <$> user_info_dict !! username))
                   && bool_of_val org_id
                   && py_eq (default (VStr "") (ui_org_id <$> user_info_dict !! username))
                            org_id
                then "Internal" else "External")).
Proof.
  unfold member_record.
  destruct (get_user_full_name _ _) as [n|]; cbn [rbind]; [|discriminate].
  destruct (convert_timestamp_to_date c _) as [l|]; cbn [rbind]; [|discriminate].
  destruct (convert_timestamp_to_date c _) as [cr|]; cbn [rbind]; [|discriminate].
  destruct (py_join _ _) as [cats|]; cbn [rbind]; [|discriminate].
  destruct (if bool_of_val l then _ else _) as [days|]; cbn [rbind]; [|discriminate].
  intros [= <-]. reflexivity.
Qed.

Lemma member_records_length (group_id : PyVal) (usernames : list string) :
  length (member_records c org_id user_info_dict group_id usernames)
  <= length usernames.
Proof.
  induction usernames as [|u rest IH]; simpl; [lia|].
  destruct (member_record _ _ _ _ u); simpl; lia.
Qed.

Lemma counted_external_is_labelled (group_id : PyVal) (usernames : list string)
    (a e a' e' : nat) :
  count_members c org_id user_info_dict (a, e) usernames = Return (a', e') ->
  length (member_records c org_id user_info_dict group_id usernames)
  = length usernames ->
  e' <= e + external_records (member_records c org_id user_info_dict group_id usernames).
Proof.
  revert a e; induction usernames as [|u rest IH]; intros a e; cbn [count_members member_records length].
  - intros [= <- <-] _. unfold external_records. simpl. lia.
  - destruct (count_member c org_id user_info_dict (a, e) u) as [[a1 e1]|err] eqn:E;
      cbn [rbind]; [|discriminate].
    intros Hrest.
    destruct (member_record c org_id user_info_dict group_id u) as [record|err] eqn:Er.
    + cbn [length]. intros [= Hlen]. specialize (IH _ _ Hrest Hlen).
      apply member_record_type in Er.
      unfold external_records in *. simpl.
      assert (He1 : e1 = e \/
                (e1 = S e /\ record !! "user_membership_type" = Some (VStr "External"))).
      { unfold count_member in E. rewrite Er.
        destruct (user_info_dict !! u) as [info|]; cbn [fmap option_fmap option_map default].
        - destruct (if bool_of_val (ui_last_login info) then _ else _) as [active|];
            cbn [rbind] in E; [|discriminate].
          injection E as _ <-.
          simpl.
          destruct (bool_of_val (ui_org_id info)) eqn:E1; [|left; reflexivity].
          destruct (bool_of_val org_id) eqn:E2; [|left; reflexivity].
          destruct (py_eq (ui_org_id info) org_id) eqn:E3; simpl; auto.
        - injection E as _ <-. right. split; reflexivity. }
      destruct He1 as [->|[-> Hx]].
      * destruct (bool_decide _); simpl; lia.
      * rewrite bool_decide_eq_true_2 by exact Hx. simpl. lia.
    + intros Hlen.
      pose proof (member_records_length group_id rest). lia.
Qed.

(** X27: when the membership cell records every member of a group, every
    member that the groups cell counts as external is recorded with the
    membership type [External]: the count is at most the number of such
    records. *)
Theorem external_members_are_labelled_external (group_id : PyVal)
    (usernames : list string) (active_members external_member_count : nat) :
  count_members c org_id user_info_dict (0, 0) usernames
  = Return (active_members, external_member_count) ->
  length (member_records c org_id user_info_dict group_id usernames)
  = length usernames ->
  external_member_count
  <= external_records (member_records c org_id user_info_dict group_id usernames).
Proof.
  intros H Hlen.
  apply (counted_external_is_labelled group_id usernames 0 0 _ _ H Hlen).
Qed.

End Members.

Lemma member_counters_stay_within_the_members_witness :
  1 <= length Roster.members /\ 1 <= length Roster.members.
Proof.
  apply (member_counters_stay_within_the_members Roster.clock (VStr "org1")
           Roster.users).
  vm_compute. reflexivity.
Defined.

Lemma external_members_are_labelled_external_witness :
  1 <= external_records
         (member_records Roster.clock (VStr "org1") Roster.users (VStr "g1")
            Roster.members).
Proof.
  apply (external_members_are_labelled_external Roster.clock (VStr "org1")
           Roster.users (VStr "g1") Roster.members 1).
  - vm_compute. reflexivity.
  - vm_compute. reflexivity.
Defined.

(** ** Dates of the membership records *)

Section CivilDates.
Import Timestamps.

Lemma civil_round_trip (z : Z) :
  let '(y, m, d) := civil_from_days z in days_from_civil y m d = z.
Proof.
  unfold civil_from_days, days_from_civil. cbv zeta.
  set (z0 := (z + 719468)%Z).
  set (era := (z0 / 146097)%Z).
  set (doe := (z0 - era * 146097)%Z).
  assert (Hdoe : (0 <= doe < 146097)%Z)
    by (unfold doe, era; Z.to_euclidean_division_equations; lia).
  set (yoe := ((doe - doe / 1460 + doe / 36524 - doe / 146096) / 365)%Z).
  assert (Hyoe : (0 <= yoe <= 399)%Z) by (unfold yoe; Z.to_euclidean_division_equations; lia).
  set (doy := (doe - (365 * yoe + yoe / 4 - yoe / 100))%Z).
  assert (Hdoy : (0 <= doy <= 365)%Z) by (unfold doy, yoe; Z.to_euclidean_division_equations; lia).
  set (mp := ((5 * doy + 2) / 153)%Z).
  assert (Hmp : (0 <= mp <= 11)%Z) by (unfold mp; Z.to_euclidean_division_equations; lia).
  destruct (mp <? 10)%Z eqn:E10.
  - apply Z.ltb_lt in E10.
    destruct (mp + 3 <=? 2)%Z eqn:E2; [apply Z.leb_le in E2; lia|].
    replace ((mp + 3 + 9) mod 12)%Z with mp by (Z.to_euclidean_division_equations; lia).
    replace ((yoe + era * 400) / 400)%Z with era by (Z.to_euclidean_division_equations; lia).
    unfold doy, z0 in *. Z.to_euclidean_division_equations. lia.
  - apply Z.ltb_ge in E10.
    destruct (mp - 9 <=? 2)%Z eqn:E2; [|apply Z.leb_gt in E2; lia].
    replace ((mp - 9 + 9) mod 12)%Z with mp by (Z.to_euclidean_division_equations; lia).
    replace ((yoe + era * 400 + 1 - 1) / 400)%Z with era by (Z.to_euclidean_division_equations; lia).
    unfold doy, z0 in *. Z.to_euclidean_division_equations. lia.
Qed.

Lemma Return_inj {A} (a b : A) : Return a = Return b -> a = b.
Proof. intros H. injection H. auto. Qed.

Lemma convert_to_a_date (c : Clock) (v : PyVal) (y m d : Z) :
  convert_timestamp_to_date c v = Return (VDate y m d) ->
  exists t dt,
    div_1000 v = Return t
    /\ fromtimestamp c t = Return dt
    /\ date dt = VDate y m d
    /\ days_since c v = Return (VInt (delta_days (now c) dt)).
Proof.
  unfold convert_timestamp_to_date, days_since.
  assert (Hbody : forall t0,
    try_except (rbind t0 (fun t => rbind (fromtimestamp c t) (fun dt => Return (date dt))))
      conversion_errors (Return VNone) = Return (VDate y m d) ->
    exists t dt,
      t0 = Return t
      /\ fromtimestamp c t = Return dt
      /\ date dt = VDate y m d
      /\ try_except
           (rbind t0 (fun t => rbind (fromtimestamp c t) (fun dt =>
              Return (VInt (delta_days (now c) dt)))))
           conversion_errors (Return VNone)
         = Return (VInt (delta_days (now c) dt))).
  { intros [t|e]; cbn [rbind try_except];
      [|destruct (bool_decide _); discriminate].
    destruct (fromtimestamp c t) as [dt|e] eqn:Et; cbn [rbind try_except];
      [|destruct (bool_decide _); discriminate].
    intros Hdate. apply Return_inj in Hdate.
    exists t, dt. auto. }
  destruct v; try discriminate;
    (destruct (is_minus_one _); [discriminate|apply Hbody]).
Qed.

Lemma day_numbers_apart (a b : Z) :
  ((a - b) / 86400000000 <= a / 86400000000 - b / 86400000000)%Z.
Proof. Z.to_euclidean_division_equations. lia. Qed.

Lemma days_until_today_of_a_date (c : Clock) (n : Z) :
  days_until_today c
    (let '(y, m, d) := civil_from_days n in VDate y m d)
  = Return (local_us (now c) / 86400000000 - n)%Z.
Proof.
  unfold days_until_today, date.
  pose proof (civil_round_trip (local_us (now c) / 86400000000)) as H1.
  pose proof (civil_round_trip n) as H2.
  destruct (civil_from_days (local_us (now c) / 86400000000))
    as [[y1 m1] d1].
  destruct (civil_from_days n) as [[y2 m2] d2].
  rewrite H1, H2. reflexivity.
Qed.

Lemma fromtimestamp_of_the_epoch (c : Clock) (dt : datetime) :
  fromtimestamp c (FDouble 0 0) = Return dt ->
  local_us dt = (local_seconds c 0 * 1000000)%Z.
Proof.
  unfold fromtimestamp. cbn [to_timeval Z.leb Z.compare Z.mul Z.pow Z.pow_pos].
  change (0 <=? 0)%Z with true. cbv iota.
  change (0 * 2 ^ 0)%Z with 0%Z.
  change ((0 <? - 2 ^ 63) || (2 ^ 63 <? 0))%Z with false.
  change (0 =? 2 ^ 63)%Z with false. cbv iota.
  destruct (local_cases c 0) as [H|[H|[H _]]]; rewrite H; cbn [rbind];
    try discriminate.
  destruct (local c (0 - 86400)) as [probe|]; cbn [rbind]; [|discriminate].
  destruct (_ <? 0)%Z; [destruct (local c (0 + _)); cbn [rbind]; [|discriminate]|];
    cbn [rbind]; intros Hdt; apply Return_inj in Hdt; subst dt; cbn [local_us]; lia.
Qed.

Section ActiveMembers.
Context (c : Clock) (org_id : PyVal) (user_info_dict : gmap string UserInfo).
Hypothesis Hclock : long_after_the_epoch c.

Lemma active_record_is_counted (group_id : PyVal) (username : string) record
    (a e a' e' : nat) :
  member_record c org_id user_info_dict group_id username = Return record ->
  record !! "is_active" = Some (VBool true) ->
  count_member c org_id user_info_dict (a, e) username = Return (a', e') ->
  a' = S a.
Proof.
  unfold member_record.
  destruct (get_user_full_name _ _) as [name|]; cbn [rbind]; [|discriminate].
  destruct (convert_timestamp_to_date c
              (default VNone (ui_last_login <$> user_info_dict !! username)))
    as [login|] eqn:Elogin; cbn [rbind]; [|discriminate].
  destruct (convert_timestamp_to_date c
              (default VNone (ui_created <$> user_info_dict !! username)))
    as [created|]; cbn [rbind]; [|discriminate].
  destruct (py_join _ _) as [cats|]; cbn [rbind]; [|discriminate].
  destruct (if bool_of_val login then _ else _) as [days|] eqn:Edays;
    cbn [rbind]; [|discriminate].
  intros [= <-]. intros [= Hactive].
  destruct (bool_of_val login) eqn:Etruthy;
    [|injection Edays as <-; discriminate].
  destruct (days_until_today c login) as [n|] eqn:En; cbn [rbind] in Edays;
    [|discriminate].
  injection Edays as <-. cbn [within_threshold] in Hactive.
  apply Z.leb_le in Hactive. unfold RECENT_DAYS_THRESHOLD in Hactive.
  destruct login as [| | | | |y m d]; try discriminate.
  apply convert_to_a_date in Elogin as (t & dt & Hdiv & Hft & Hdate & Hsince).
  pose proof (days_until_today_of_a_date c (local_us dt / 86400000000)) as Htoday.
  change (let '(y, m, d) := civil_from_days (local_us dt / 86400000000) in VDate y m d)
    with (date dt) in Htoday.
  rewrite Hdate, En in Htoday. injection Htoday as ->.
  pose proof (day_numbers_apart (local_us (now c)) (local_us dt)) as Hapart.
  unfold now in Hapart, Hactive; cbn [local_us] in Hapart, Hactive.
  unfold count_member.
  destruct (user_info_dict !! username) as [info|]; [|discriminate].
  change (default VNone (ui_last_login <$> Some info)) with (ui_last_login info)
    in Hdiv, Hsince.
  destruct (bool_of_val (ui_last_login info)) eqn:Ell.
  - rewrite Hsince. cbn [rbind within_threshold]. unfold delta_days, now. cbn [local_us].
    destruct (_ <=? RECENT_DAYS_THRESHOLD)%Z eqn:Ew.
    + intros [= <- _]. reflexivity.
    + apply Z.leb_gt in Ew. unfold RECENT_DAYS_THRESHOLD in Ew. lia.
  - exfalso.
    assert (t = FDouble 0 0) as ->.
    { destruct (ui_last_login info) as [| |s|z|b|? ? ?]; try discriminate.
      - simpl in Ell. apply negb_false_iff, Z.eqb_eq in Ell. subst z.
        vm_compute in Hdiv. congruence.
      - simpl in Ell. subst b. vm_compute in Hdiv. congruence. }
    apply fromtimestamp_of_the_epoch in Hft.
    unfold long_after_the_epoch, local_seconds in Hclock.
    rewrite Hft in Hactive. unfold local_seconds in Hactive.
    remember (now_us c) as n eqn:Hn.
    remember (utc_offset c (n / 1000000)) as o1 eqn:Ho1.
    remember (utc_offset c 0) as o0 eqn:Ho0.
    change 86400000000%Z with (1000000 * 86400)%Z in Hactive.
    rewrite <- !Z.div_div, (Z.mul_comm 1000000 o1), Z.div_add, Z.div_mul in Hactive
      by lia.
    clear - Hclock Hactive. Z.to_euclidean_division_equations. lia.
Qed.

Lemma active_records_are_counted (group_id : PyVal) (usernames : list string)
    (a e a' e' : nat) :
  count_members c org_id user_info_dict (a, e) usernames = Return (a', e') ->
  a + active_records (member_records c org_id user_info_dict group_id usernames)
  <= a'.
Proof.
  revert a e; induction usernames as [|u rest IH]; intros a e;
    cbn [count_members member_records].
  - intros [= <- <-]. unfold active_records. simpl. lia.
  - destruct (count_member c org_id user_info_dict (a, e) u) as [[a1 e1]|err] eqn:E;
      cbn [rbind]; [|discriminate].
    intros Hrest. specialize (IH _ _ Hrest).
    pose proof (count_member_step c org_id user_info_dict a e u a1 e1 E) as Hstep.
    destruct (member_record c org_id user_info_dict group_id u) as [record|err] eqn:Er;
      [|lia].
    unfold active_records in *. cbn [List.filter].
    destruct (bool_decide (record !! "is_active" = Some (VBool true))) eqn:Ea;
      [|lia].
    apply bool_decide_eq_true in Ea.
    rewrite (active_record_is_counted group_id u record a e a1 e1 Er Ea E) in IH.
    simpl. lia.
Qed.

(** X28: when the clock is more than 90 days after the epoch (the local time
    now is at least 91 days past the local time of the epoch), every
    membership record flagged [is_active] belongs to a member that the
    groups cell counts as active: the number of flagged records is at most
    the counter. *)
Theorem active_rows_are_counted_as_active (group_id : PyVal)
    (usernames : list string) (active_members external_member_count : nat) :
  count_members c org_id user_info_dict (0, 0) usernames
  = Return (active_members, external_member_count) ->
  active_records (member_records c org_id user_info_dict group_id usernames)
  <= active_members.
Proof.
  intros H. apply (active_records_are_counted group_id) in H. lia.
Qed.

End ActiveMembers.

End CivilDates.

Lemma active_rows_are_counted_as_active_witness :
  active_records
    (member_records Roster.clock (VStr "org1") Roster.users (VStr "g1") Roster.members)
  <= 1.
Proof.
  apply (active_rows_are_counted_as_active Roster.clock (VStr "org1") Roster.users)
    with (external_member_count := 1).
  - vm_compute. discriminate.
  - vm_compute. reflexivity.
Defined.

(** ** Output folder *)

Lemma folder_found_by_lookups (gis : FolderService) (folder_name : string) :
  folder_found gis folder_name
  <-> match fs_get gis with Ok true => true | _ => false end
      || match fs_user_folders gis with
         | Ok user_folders =>
             existsb (fun folder =>
                        bool_decide (get_folder_name folder = Some folder_name))
                     user_folders
         | Error _ => false
         end = true.
Proof.
  unfold folder_found. rewrite orb_true_iff. split.
  - intros [->|(folders & f & -> & Hin & Hname)]; [left; reflexivity|right].
    apply existsb_exists. exists f. split; [apply list_elem_of_In, Hin|].
    apply bool_decide_eq_true. exact Hname.
  - intros [H|H].
    + left. destruct (fs_get gis) as [[|]|]; [reflexivity|discriminate..].
    + right. destruct (fs_user_folders gis) as [folders|]; [|discriminate].
      apply existsb_exists in H as (f & Hf & Hd). apply bool_decide_eq_true in Hd.
      exists folders, f. split; [reflexivity|]. split; [apply list_elem_of_In, Hf|exact Hd].
Qed.

Ltac folder_requests :=
  repeat (rewrite elem_of_cons || rewrite elem_of_nil);
  intuition (discriminate || auto).

(** X29: [get_or_create_folder] always returns the folder name; it asks for
    the folder to be created exactly when neither lookup has found it, and
    it falls back to the legacy creation only after a creation error that
    says neither [not available] nor [already exists]. *)
Theorem folder_is_created_only_when_missing (gis : FolderService) (folder_name : string) :
  (get_or_create_folder gis folder_name).1 = folder_name
  /\ (RequestCreate ∈ (get_or_create_folder gis folder_name).2
      <-> ~ folder_found gis folder_name)
  /\ (RequestCreateLegacy ∈ (get_or_create_folder gis folder_name).2 ->
      exists message,
        fs_create gis = Error message
        /\ contains "not available" (PyStr.lower message) = false
        /\ contains "already exists" (PyStr.lower message) = false).
Proof.
  rewrite folder_found_by_lookups. unfold get_or_create_folder.
  destruct (match fs_get gis with Ok true => true | _ => false end);
    [simpl; folder_requests|].
  destruct (match fs_user_folders gis with Ok _ => _ | Error _ => false end);
    [simpl; folder_requests|].
  destruct (fs_create gis) as [[]|message]; [simpl; folder_requests|].
  destruct (contains "not available" (PyStr.lower message)) eqn:E1;
    [simpl; folder_requests|].
  destruct (contains "already exists" (PyStr.lower message)) eqn:E2;
    [simpl; folder_requests|].
  simpl. split; [reflexivity|]. split; [folder_requests|].
  intros _. exists message. auto.
Qed.
